(** * KyBook3Sync: a model of [cal2ky3.py]

  The script copies metadata from Calibre's catalogue into the SQLite file of
  KyBook 3 and moves files through KyBook's content server.  It is Python 2
  code: [/] on two integers is floor division, and a [str] is a sequence of
  characters.

  Property proofs follow the definitions, in the second half of the file. *)

From Stdlib Require Import ZArith List String Ascii Bool Lia Floats.
From stdpp Require Import gmap strings list.
Import ListNotations.

Set Warnings "-inexact-float".
Local Open Scope string_scope.
Local Open Scope list_scope.
Local Open Scope Z_scope.

(* ===================================================================== *)
(** * Python values *)
(* ===================================================================== *)

Module Py.

(** The character [chr(34)], the double quote. *)
Definition dquote : ascii := "034"%char.
(** The character [chr(39)], the single quote. *)
Definition squote : ascii := "039"%char.

(** [c in s] for a character [c] and a [str] [s]. *)
Fixpoint char_in (c : ascii) (s : string) : bool :=
  match s with
  | EmptyString => false
  | String d rest => (c =? d)%char || char_in c rest
  end.

(** [x in l] for a list of strings. *)
Definition str_in (x : string) (l : list string) : bool :=
  existsb (String.eqb x) l.

(** Truth value of a [str]: the empty string is false. *)
Definition truthy (s : string) : bool :=
  match s with EmptyString => false | String _ _ => true end.

(** Truth value of a value that is [None] or a [str]. *)
Definition truthy_opt (o : option string) : bool :=
  match o with None => false | Some s => truthy s end.

(** [c.lower()] on one character: only [A]..[Z] change. *)
Definition lower_char (c : ascii) : ascii :=
  let n := nat_of_ascii c in
  if (65 <=? n)%nat && (n <=? 90)%nat then ascii_of_nat (n + 32) else c.

(** [s.lower()]. *)
Fixpoint lower (s : string) : string :=
  match s with
  | EmptyString => EmptyString
  | String c rest => String (lower_char c) (lower rest)
  end.

(** [s[0:n]] (also written [s[:n]]): the first [n] characters, fewer when
    the string is shorter. *)
Definition prefix (n : nat) (s : string) : string := String.substring 0 n s.

End Py.

(* ===================================================================== *)
(** * Module constants *)
(* ===================================================================== *)

(** Sizes for thumbnails in KyBook 3. *)
Definition THUMB_WIDTH : Z := 74.
Definition THUMB_HEIGHT : Z := 105.

(** [EBOOK_SCHEMES], a dict from Calibre's identifier type to KyBook's code. *)
Definition EBOOK_SCHEMES : gmap string string :=
  <["isbn" := "10"]> (<["amazon" := "15"]> (<["asin" := "15"]> (<["oclc" := "12"]> ∅))).

(* ===================================================================== *)
(** * class KyBookDB: static helpers *)
(* ===================================================================== *)

Module Markup.

(** The three locals of [_remove_html_markup]. *)
Record scanner : Type := Scanner { tag : bool; quote : bool; out : string }.

Definition start : scanner := Scanner false false EmptyString.

(** One turn of the [for char in string] loop. *)
Definition scan_char (st : scanner) (char : ascii) : scanner :=
  if (char =? "<")%char && negb (quote st) then
    Scanner true (quote st) (out st)
  else if (char =? ">")%char && negb (quote st) then
    Scanner false (quote st) (out st)
  else if ((char =? Py.dquote)%char || (char =? Py.squote)%char) && tag st then
    Scanner (tag st) (negb (quote st)) (out st)
  else if negb (tag st) then
    Scanner (tag st) (quote st) (out st +:+ String char EmptyString)
  else st.

(** [KyBookDB._remove_html_markup]; the argument is [None] or a [str]. *)
Definition _remove_html_markup (string : option String.string) : String.string :=
  match string with
  | None => EmptyString
  | Some s =>
      if negb (Py.truthy s) then EmptyString
      else out (fold_left scan_char (list_ascii_of_string s) start)
  end.

End Markup.

(* ===================================================================== *)
(** * Exceptions *)
(* ===================================================================== *)

(** The exceptions the modelled code can raise.  [SocketError] stands for
    whatever [httplib] raises when the transport fails (connection refused,
    timeout, a broken status line); [ReError] is [sre_constants.error], the
    [error] of the module [re]. *)
Inductive exn : Type :=
| ZeroDivisionError | IOError | KeyError | IndexError | AttributeError
| UnboundLocalError | OperationalError | IntegrityError | InterfaceError
| TypeError | ValueError | OverflowError | SocketError | ReError.

(** A call either returns a value or raises. *)
Inductive result (A : Type) : Type :=
| Ok (a : A)
| Raise (e : exn).
Arguments Ok {A} a.
Arguments Raise {A} e.

Definition raised {A} (r : result A) : bool :=
  match r with Ok _ => false | Raise _ => true end.

(* ===================================================================== *)
(** * Thumbnails: [_reduce_image_size] and [_get_thumb] *)
(* ===================================================================== *)

Module Thumb.

(** A PIL image as the script sees it: [image.size = (width, height)]. *)
Record image : Type := Image { width : Z; height : Z }.

(** [float(n)] for an [int]; exact below 2^53, which covers image sizes. *)
Definition float_of_int (n : Z) : float :=
  if n <? 0 then PrimFloat.opp (PrimFloat.of_uint63 (Uint63.of_Z (- n)))
  else PrimFloat.of_uint63 (Uint63.of_Z n).

(** [int(f)]: truncation toward zero. *)
Definition int_of_float (f : float) : result Z :=
  match Prim2SF f with
  | S754_zero _ => Ok 0
  | S754_finite s m e =>
      let v := if 0 <=? e then Z.shiftl (Zpos m) e else Z.shiftr (Zpos m) (- e) in
      Ok (if s then - v else v)
  | S754_infinity _ => Raise OverflowError
  | S754_nan => Raise ValueError
  end.

(** [a / b] on two floats. *)
Definition float_div (a b : float) : result float :=
  if (b =? 0)%float then Raise ZeroDivisionError else Ok (a / b)%float.

(** The test [height / width > 1.418918918918919].  Both operands of [/] are
    [int], so the quotient is the floor of the ratio. *)
Definition taller_than_box (width height : Z) : bool :=
  (1.418918918918919 <? float_of_int (height / width))%float.

(** [KyBookDB._reduce_image_size(image, thumb_height, thumb_width)].
    [image.resize] is taken to return an image of the size it is given. *)
Definition _reduce_image_size (img : image) (thumb_height thumb_width : Z)
  : result image :=
  let width0 := width img in
  let height0 := height img in
  if width0 =? 0 then Raise ZeroDivisionError
  else if taller_than_box width0 height0 then
    let height1 := thumb_height in
    match float_div (float_of_int height1) (float_of_int height0) with
    | Raise e => Raise e
    | Ok reduction =>
        match int_of_float (float_of_int width0 * reduction)%float with
        | Raise e => Raise e
        | Ok width1 => Ok (Image width1 height1)
        end
    end
  else
    let width1 := thumb_width in
    match float_div (float_of_int width1) (float_of_int width0) with
    | Raise e => Raise e
    | Ok reduction =>
        match int_of_float (float_of_int height0 * reduction)%float with
        | Raise e => Raise e
        | Ok height1 => Ok (Image width1 height1)
        end
    end.

(** What [_get_thumb] returns: the image that is encoded into the
    [thumbnail] blob ([None] for the empty blob) and [aspectratio]. *)
Record thumb : Type := Thumbnail { thumbnail : option image; aspectratio : float }.

(** [KyBookDB._get_thumb] from the point where the cover file has been
    opened: [cover] is [None] when that raised [IOError]. *)
Definition thumb_of_cover (cover : option image) : result thumb :=
  match cover with
  | None => Ok (Thumbnail None 0%float)
  | Some img =>
      let reduced :=
        if (THUMB_WIDTH <? width img) || (THUMB_HEIGHT <? height img)
        then _reduce_image_size img THUMB_HEIGHT THUMB_WIDTH
        else Ok img in
      match reduced with
      | Raise e => Raise e
      | Ok reduced_image =>
          match float_div (float_of_int (height reduced_image))
                          (float_of_int (width reduced_image) * 1.0)%float with
          | Raise e => Raise e
          | Ok ratio => Ok (Thumbnail (Some reduced_image) ratio)
          end
      end
  end.

End Thumb.

(* ===================================================================== *)
(** * class CalibreDB *)
(* ===================================================================== *)

(** A book record handed over by the plugin: a dict whose keys are the
    attributes of Calibre's metadata object, plus [id], [path] and [paths].
    The last six keys are absent until [get_metadata] adds them. *)
Module Datum.

(** [pubdate] is a [datetime] (given here by its [isoformat()] text) or a
    [str]. *)
Inductive pubdate_value : Type :=
| Datetime (isoformat : string)
| DateStr (s : string).

Record t : Type := Make {
  id : Z;
  path : string;
  title : string;
  pubdate : option pubdate_value;
  comments : option string;
  languages : list string;
  author_sort_map : list (string * string);
  series : option string;
  series_index : option float;
  tags : list string;
  identifiers : list (string * string);
  publisher : option string;
  rating : option Z;
  paths : list string;
  authors : option (list (string * string));
  sequences : option (list (option string));
  subjects : option (list string);
  ebookids : option (list (string * string));
  language : option string;
  publishers : option (list (option string))
}.

End Datum.

Module CalibreDB.

(** The body of the [for cal_datum in self._cal_data] loop of
    [get_metadata]: six keys are (re)written in the dict. *)
Definition reshape (cal_datum : Datum.t) : Datum.t :=
  let language :=
    if Py.str_in "language" (Datum.languages cal_datum) then
      match Datum.languages cal_datum with
      | first :: _ => Py.lower (Py.prefix 2 first)
      | [] => EmptyString
      end
    else EmptyString in
  Datum.Make
    (Datum.id cal_datum) (Datum.path cal_datum) (Datum.title cal_datum)
    (Datum.pubdate cal_datum) (Datum.comments cal_datum)
    (Datum.languages cal_datum) (Datum.author_sort_map cal_datum)
    (Datum.series cal_datum) (Datum.series_index cal_datum)
    (Datum.tags cal_datum) (Datum.identifiers cal_datum)
    (Datum.publisher cal_datum) (Datum.rating cal_datum)
    (Datum.paths cal_datum)
    (Some (Datum.author_sort_map cal_datum))
    (Some [Datum.series cal_datum])
    (Some (Datum.tags cal_datum))
    (Some (Datum.identifiers cal_datum))
    (Some language)
    (Some [Datum.publisher cal_datum]).

(** [CalibreDB.get_metadata] when the plugin supplied the records
    ([self._cal_data] is a non-empty list).  The dicts are changed in place,
    so the list that is returned is also the new [self._cal_data]. *)
Definition get_metadata (_cal_data : list Datum.t) : list Datum.t :=
  map reshape _cal_data.

End CalibreDB.

(* ===================================================================== *)
(** * Statements with effects *)
(* ===================================================================== *)

(** A computation reads and changes a state of type [S] and returns or
    raises.  The state reached is kept when an exception is raised: what
    was written before the exception stays written. *)
Module Eff.

Definition M (S A : Type) : Type := S -> result A * S.

Definition ret {S A} (a : A) : M S A := fun s => (Ok a, s).
Definition throw {S A} (e : exn) : M S A := fun s => (Raise e, s).
Definition bind {S A B} (m : M S A) (k : A -> M S B) : M S B :=
  fun s => match m s with
           | (Ok a, s') => k a s'
           | (Raise e, s') => (Raise e, s')
           end.

(** [try: m  except Exception: h]. *)
Definition try_except {S A} (m : M S A) (h : exn -> M S A) : M S A :=
  fun s => match m s with
           | (Ok a, s') => (Ok a, s')
           | (Raise e, s') => h e s'
           end.

(** [for x in l: body], where the body threads its local variables [v]. *)
Fixpoint for_each {S A V} (body : V -> A -> M S V) (l : list A) (v : V) : M S V :=
  match l with
  | [] => ret v
  | x :: rest => bind (body v x) (fun v' => for_each body rest v')
  end.

End Eff.

Notation "x <- m ;; k" := (Eff.bind m (fun x => k))
  (at level 100, m at next level, right associativity).
Notation "m ;;; k" := (Eff.bind m (fun _ => k))
  (at level 100, right associativity).

(* ===================================================================== *)
(** * class Table *)
(* ===================================================================== *)

Module Table.

(** The attributes of a [Table] object. *)
Record t : Type := Make {
  name : string;
  xid : string;
  maincol : string;
  midcols : string;
  namecol : string;
  questions : string;
  calname : string;
  calmain : string
}.

(** [name[0]]. *)
Definition first_char (s : string) : string := String.substring 0 1 s.

(** [name[:-1]]. *)
Definition but_last (s : string) : string :=
  String.substring 0 (String.length s - 1) s.

(** [Table.__init__(name)]; the attribute [extra_sql], used by
    [set_collation] only, is left out. *)
Definition init (name : string) : t :=
  let xid := first_char name +:+ "id" in
  let maincol := but_last name in
  if String.eqb name "authors" then
    Make name xid "namekey" "namekey, name" "name" "?, ?, ?" name maincol
  else if String.eqb name "publishers" then
    Make name xid maincol maincol maincol "?, ?" name maincol
  else if String.eqb name "subjects" then
    Make name xid maincol maincol maincol "?, ?" "tags" "tag"
  else if String.eqb name "sequences" then
    Make name "qid" maincol "sequence" maincol "?, ?" "series" "series"
  else if String.eqb name "collections" then
    Make name "lid" maincol maincol maincol "?, ?" name maincol
  else if String.eqb name "ebookids" then
    Make name xid maincol "scheme, value" "value" "?, ?, ?" "identifiers" maincol
  else
    Make name xid maincol maincol maincol "?, ?" name maincol.

(** The column names in a list such as [namekey, name]. *)
Fixpoint split_columns (s : string) (current : string) : list string :=
  match s with
  | EmptyString => [current]
  | String c rest =>
      match rest with
      | String d rest' =>
          if (c =? ",")%char && (d =? " ")%char
          then current :: split_columns rest' EmptyString
          else split_columns rest (current +:+ String c EmptyString)
      | EmptyString => [current +:+ String c EmptyString]
      end
  end.

(** The place of a column in a list of columns. *)
Fixpoint position (column : string) (columns : list string) : option nat :=
  match columns with
  | [] => None
  | c :: rest => if String.eqb c column then Some O else S <$> position column rest
  end.

End Table.

(* ===================================================================== *)
(** * KyBook 3's database *)
(* ===================================================================== *)

(** The lookup tables.  Each has a link table [books_<name>]. *)
Inductive lookup_table : Type :=
| authors | publishers | subjects | sequences | ebookids.

#[global] Instance lookup_table_eq_dec : EqDecision lookup_table.
Proof. solve_decision. Defined.

(** Tables that have collation that needs removing. *)
Definition COLLATION_TABLES : list lookup_table :=
  [authors; publishers; subjects; sequences].
(** Lookup tables used by KyBook 3. *)
Definition LOOKUP_TABLES : list lookup_table := COLLATION_TABLES ++ [ebookids].

(** The name of a lookup table, as it stands in [LOOKUP_TABLES]. *)
Definition table_name (t : lookup_table) : string :=
  match t with
  | authors => "authors"
  | publishers => "publishers"
  | subjects => "subjects"
  | sequences => "sequences"
  | ebookids => "ebookids"
  end.

(** A row of metadata for a lookup table, as the script gets it from
    Calibre: a pair for authors (name, sort) and identifiers (type, value),
    one value for the other tables.  A value may be [None]. *)
Inductive lookup_value : Type :=
| Pair (first second : option string)
| Single (value : option string).

Module Sql.

(** [text LIKE pattern] of SQLite: [%] stands for any run of characters,
    [_] for any one character, letters match without regard to case. *)
Fixpoint like (pattern text : list ascii) : bool :=
  match pattern with
  | [] => match text with [] => true | _ => false end
  | p :: pattern' =>
      if (p =? "%")%char then
        (fix any_run (t : list ascii) : bool :=
           like pattern' t
           || match t with [] => false | _ :: t' => any_run t' end) text
      else
        match text with
        | [] => false
        | c :: text' =>
            ((p =? "_")%char || (Py.lower_char p =? Py.lower_char c)%char)
            && like pattern' text'
        end
  end.

Definition LIKE (text : option string) (pattern : string) : bool :=
  match text with
  | Some t => like (list_ascii_of_string pattern) (list_ascii_of_string t)
  | None => false
  end.

(** [x = y] where either side may be NULL: true only for equal values. *)
Definition eq_int (x y : option Z) : bool :=
  match x, y with
  | Some a, Some b => a =? b
  | _, _ => false
  end.

Definition eq_text (x : option string) (y : string) : bool :=
  match x with
  | Some a => String.eqb a y
  | None => false
  end.

(** [x NOT IN (values)] is true when [x] differs from every value and no
    value is NULL; when it is false or NULL the row is not selected. *)
Definition NOT_IN (x : Z) (values : list (option Z)) : bool :=
  forallb (fun v => match v with Some y => negb (x =? y) | None => false end) values.

(** A number written in a statement. *)
Inductive number : Type :=
| Int (z : Z)
| Real (f : float).

End Sql.

(* ===================================================================== *)
(** * The replacement templates of [re.sub] *)
(* ===================================================================== *)

Module Re.

(** What [sre_parse.Tokenizer] yields: a character, or a backslash together
    with the character that follows it. *)
Inductive token : Type :=
| Char (c : ascii)
| Escape (c : ascii).

(** The tokens of a template; a backslash at the very end is a [bogus
    escape]. *)
Fixpoint tokens (s : string) : result (list token) :=
  match s with
  | EmptyString => Ok []
  | String c rest =>
      if (c =? "\")%char then
        match rest with
        | EmptyString => Raise ReError
        | String d rest' =>
            match tokens rest' with
            | Ok ts => Ok (Escape d :: ts)
            | Raise e => Raise e
            end
        end
      else
        match tokens rest with
        | Ok ts => Ok (Char c :: ts)
        | Raise e => Raise e
        end
  end.

Definition is_digit (c : ascii) : bool :=
  let n := nat_of_ascii c in (48 <=? n)%nat && (n <=? 57)%nat.

Definition is_octdigit (c : ascii) : bool :=
  let n := nat_of_ascii c in (48 <=? n)%nat && (n <=? 55)%nat.

(** [isspace] of C on a character. *)
Definition is_space (c : ascii) : bool :=
  let n := nat_of_ascii c in (n =? 32)%nat || (9 <=? n)%nat && (n <=? 13)%nat.

(** [sre_parse.isident]. *)
Definition is_ident (c : ascii) : bool :=
  let n := nat_of_ascii c in
  (97 <=? n)%nat && (n <=? 122)%nat || (65 <=? n)%nat && (n <=? 90)%nat
  || (n =? 95)%nat.

(** [sre_parse.isname]. *)
Definition is_name (name : string) : bool :=
  match name with
  | EmptyString => false
  | String c rest =>
      is_ident c
      && forallb (fun d => is_ident d || is_digit d) (list_ascii_of_string rest)
  end.

Definition digit_value (c : ascii) : Z := Z.of_nat (nat_of_ascii c) - 48.

Fixpoint skip_spaces (s : list ascii) : list ascii :=
  match s with
  | c :: rest => if is_space c then skip_spaces rest else s
  | [] => []
  end.

(** The digits at the head of [s], read in base ten onto [acc], and what
    follows them. *)
Fixpoint read_digits (s : list ascii) (acc : Z) : Z * list ascii :=
  match s with
  | c :: rest => if is_digit c then read_digits rest (10 * acc + digit_value c)
                 else (acc, s)
  | [] => (acc, [])
  end.

(** [int(name)] of Python 2 on a text: blanks, a sign, blanks, digits (at
    least one) and blanks; [None] for [ValueError]. *)
Definition int (name : string) : option Z :=
  let s := skip_spaces (list_ascii_of_string name) in
  let (negative, s) :=
    match s with
    | c :: rest => if (c =? "-")%char then (true, rest)
                   else if (c =? "+")%char then (false, rest)
                   else (false, s)
    | [] => (false, [])
    end in
  let s := skip_spaces s in
  match s with
  | c :: _ =>
      if is_digit c then
        let (n, rest) := read_digits s 0 in
        match skip_spaces rest with
        | [] => Some (if negative then - n else n)
        | _ :: _ => None
        end
      else None
  | [] => None
  end.

(** The group that [\g<name>] refers to, in a pattern without named
    groups. *)
Definition group_of_name (name : string) : result Z :=
  match name with
  | EmptyString => Raise ReError                       (* missing group name *)
  | _ =>
      match int name with
      | Some index =>
          if index <? 0 then Raise ReError             (* negative group number *)
          else Ok index
      | None =>
          if is_name name then Raise IndexError        (* unknown group name *)
          else Raise ReError                           (* bad character in group name *)
      end
  end.

(** Where [sre_parse.parse_template] stands between two tokens. *)
Inductive mode : Type :=
| Text                        (* nothing pending *)
| AfterG                      (* [\g] read: [<] must open the name *)
| Name (name : string)        (* inside [\g<...>] *)
| Zero (digits : nat)         (* [\0] read, and so many octal digits after it *)
| Digit (c : ascii)           (* [\c] read, [c] from 1 to 9 *)
| Digits (c d : ascii).       (* [\cd] read *)

Definition text_of (t : token) : string :=
  match t with
  | Char c => String c EmptyString
  | Escape c => String "\" (String c EmptyString)
  end.

(** A token met when nothing is pending. *)
Definition start (t : token) : mode :=
  match t with
  | Escape c =>
      if (c =? "g")%char then AfterG
      else if (c =? "0")%char then Zero 0
      else if is_digit c then Digit c
      else Text
  | Char _ => Text
  end.

Definition two_digits (c d : ascii) : Z := 10 * digit_value c + digit_value d.

(** One token: the mode after it and the groups referred to, or the
    exception raised. *)
Definition step (m : mode) (t : token) : result (mode * list Z) :=
  match m with
  | Text => Ok (start t, [])
  | AfterG =>
      match t with
      | Char "<"%char => Ok (Name EmptyString, [])
      | _ => Raise ReError                             (* missing group name *)
      end
  | Name name =>
      match t with
      | Char ">"%char =>
          match group_of_name name with
          | Ok index => Ok (Text, [index])
          | Raise e => Raise e
          end
      | _ => Ok (Name (name +:+ text_of t), [])
      end
  | Zero digits =>
      match t with
      | Char c =>
          if is_octdigit c && (digits <? 2)%nat then Ok (Zero (S digits), [])
          else Ok (start t, [])
      | Escape _ => Ok (start t, [])
      end
  | Digit c =>
      match t with
      | Char d => if is_digit d then Ok (Digits c d, [])
                  else Ok (start t, [digit_value c])
      | Escape _ => Ok (start t, [digit_value c])
      end
  | Digits c d =>
      match t with
      | Char e =>
          if is_octdigit c && is_octdigit d && is_octdigit e then Ok (Text, [])
          else Ok (start t, [two_digits c d])
      | Escape _ => Ok (start t, [two_digits c d])
      end
  end.

Fixpoint run (m : mode) (ts : list token) : result (list Z) :=
  match ts with
  | [] =>
      match m with
      | Text | Zero _ => Ok []
      | AfterG => Raise ReError                        (* missing group name *)
      | Name _ => Raise ReError                        (* unterminated group name *)
      | Digit c => Ok [digit_value c]
      | Digits c d => Ok [two_digits c d]
      end
  | t :: rest =>
      match step m t with
      | Raise e => Raise e
      | Ok (m', groups) =>
          match run m' rest with
          | Ok more => Ok (groups ++ more)
          | Raise e => Raise e
          end
      end
  end.

(** [sre_parse.parse_template(repl, pattern)], for a pattern without named
    groups: the groups the template refers to. *)
Definition parse_template (repl : string) : result (list Z) :=
  match tokens repl with
  | Ok ts => run Text ts
  | Raise e => Raise e
  end.

(** What [re.sub(pattern, repl, string, 1)] raises, if anything, for a
    pattern with [groups] groups that matches in the string: the template is
    parsed, then expanded, where a group that the pattern does not have is
    an [invalid group reference]. *)
Definition sub_raises (groups : Z) (repl : string) : option exn :=
  match parse_template repl with
  | Raise e => Some e
  | Ok refs => if forallb (fun index => index <=? groups) refs then None
               else Some ReError
  end.

End Re.

(* ===================================================================== *)
(** * class Database *)
(* ===================================================================== *)

Module Database.

(** [quote(?)] of SQLite on a text: single quotes around it, each single
    quote inside it doubled. *)
Fixpoint doubled (s : string) : string :=
  match s with
  | EmptyString => EmptyString
  | String c rest =>
      if (c =? Py.squote)%char then String c (String c (doubled rest))
      else String c (doubled rest)
  end.

Definition quote (value : option string) : string :=
  match value with
  | Some s => String Py.squote (doubled s +:+ String Py.squote EmptyString)
  | None => "NULL"
  end.

(** The loop of [execute] that writes the values into [saved_sql] for the
    log:
    [re.sub(r'(VALUES\(|, | = | LIKE )\?', r'\g<1>' + unicode(quoted_value),
    saved_sql, 1)], once for each value, before the statement is run.  Every
    question mark of the statements of [KyBookDB] follows [VALUES(], a comma
    and a blank, [ = ] or [ LIKE ], so each substitution finds a match and
    expands its template.  [values] are the texts taken from the record; the
    other values of a statement (the md5, a [hexdigest]; the timestamp, the
    text of a number; numbers, images and [None]) are quoted without a
    backslash, and then the template is only [\g<1>] and plain text. *)
Fixpoint log_sql (values : list (option string)) : result unit :=
  match values with
  | [] => Ok tt
  | value :: rest =>
      match Re.sub_raises 1 ("\g<1>" +:+ quote value) with
      | Some e => Raise e
      | None => log_sql rest
      end
  end.

End Database.

Module Kyb.

Record book_row : Type := Book { bid : Z; md5 : string }.

Record metadata_row : Type := Metadata {
  m_bid : Z;
  title : string;
  published : string;
  language : string;
  annotation : option string;
  thumbnail : option Thumb.image;
  aspectratio : float;
  coverhash : option string
}.

Record review_row : Type := Review {
  r_bid : option Z;
  rating : Z;
  r_timestamp : string
}.

(** A row of a lookup table: the key ([aid], [pid], [sid], [qid] or [eid]),
    the columns [midcols] of the table in order, the [ebookid] column the
    script never writes, and the timestamp. *)
Record lookup_row : Type := Lookup {
  xid : Z;
  mid : list string;
  ebookid : option string;
  timestamp : string
}.

(** A row of a link table [books_<name>]; [seqnumber] is used by
    [books_sequences] only. *)
Record link_row : Type := Link {
  l_bid : option Z;
  l_xid : option Z;
  seqnumber : option Sql.number
}.

(** The database as seen through the open connection, and the number of
    times the clock has been read.  The rows of a table are listed in the
    order in which SQLite visits them, by ascending key for a lookup table.
    [self.commit()] leaves what the connection sees as it is and is not
    written out: a row written before a statement that raises is there for
    the connection, uncommitted, and these definitions do not say what
    becomes of it afterwards. *)
Record conn : Type := Conn {
  books : list book_row;
  metadata : list metadata_row;
  reviews : list review_row;
  lookups : lookup_table -> list lookup_row;
  links : lookup_table -> list link_row;
  ticks : nat
}.

(** What belongs to KyBook 3 and to the machine rather than to the script:
    the clock, the constraints declared on tables whose declaration the
    script does not contain, and the cover files. *)
Record env : Type := Env {
  (** [str((datetime.now() - offset).total_seconds())] at the [n]-th reading *)
  now_at : nat -> string;
  (** the uniqueness constraint of [ebookids], besides its key *)
  ebookids_unique : lookup_row -> lookup_row -> bool;
  (** when two rows of a link table cannot both stay *)
  link_conflict : lookup_table -> link_row -> link_row -> bool;
  (** [INSERT OR REPLACE] of one row into [reviews] *)
  reviews_replace : review_row -> list review_row -> result (list review_row);
  (** [Image.open] on the file at a path; [None] when it raises [IOError] *)
  open_cover : string -> option Thumb.image;
  path_join : list string -> string;
  path_dirname : string -> string
}.

(** The attributes of a [KyBookDB] object. *)
Record self : Type := Self { _remove_html : bool; _cal_lib_path : string }.

(** The [CalibreDB] object passed around as [cal_db]: the records of the
    plugin ([cal_data], empty when the script runs on its own) and what the
    queries on Calibre's database return for a book. *)
Record cal_db : Type := CalDb {
  cal_data : list Datum.t;
  query_lookup : lookup_table -> Z -> list lookup_value;
  query_rating : Z -> list Z
}.

(** The [row] handed to [update]: a dict of the plugin or an [sqlite3.Row]. *)
Inductive source_row : Type :=
| DictRow (d : Datum.t)
| SqliteRow (id : Z) (title : string).

Definition M (A : Type) : Type := Eff.M conn A.

Definition set_metadata (rows : list metadata_row) (c : conn) : conn :=
  Conn (books c) rows (reviews c) (lookups c) (links c) (ticks c).
Definition set_reviews (rows : list review_row) (c : conn) : conn :=
  Conn (books c) (metadata c) rows (lookups c) (links c) (ticks c).
Definition set_lookup (t : lookup_table) (rows : list lookup_row) (c : conn) : conn :=
  Conn (books c) (metadata c) (reviews c)
       (fun t' => if decide (t' = t) then rows else lookups c t')
       (links c) (ticks c).
Definition set_link (t : lookup_table) (rows : list link_row) (c : conn) : conn :=
  Conn (books c) (metadata c) (reviews c) (lookups c)
       (fun t' => if decide (t' = t) then rows else links c t')
       (ticks c).

(** [(SELECT bid FROM books WHERE md5 = ?)] used as a value: the [bid] of
    the first such row, NULL when there is none. *)
Definition bid_of_md5 (c : conn) (h : string) : option Z :=
  match List.find (fun b => String.eqb (md5 b) h) (books c) with
  | Some b => Some (bid b)
  | None => None
  end.

End Kyb.

(* ===================================================================== *)
(** * class KyBookDB *)
(* ===================================================================== *)

Module KyBookDB.
Import Eff Kyb.

Section WithEnv.
Variable E : env.

(** [datetime.now()] turned into KyBook's timestamp text. *)
Definition now_timestamp : M string :=
  fun c => (Ok (now_at E (ticks c)),
            Conn (books c) (metadata c) (reviews c) (lookups c) (links c) (S (ticks c))).

(** [tbl = Table(lookup_table)]. *)
Definition tbl (t : lookup_table) : Table.t := Table.init (table_name t).

(** The value a lookup row holds in one of the columns [tbl.midcols]. *)
Definition column (t : lookup_table) (name : string) (r : lookup_row) : option string :=
  Table.position name (Table.split_columns (Table.midcols (tbl t)) EmptyString)
  ≫= fun i => mid r !! i.

(** The column [tbl.namecol] of a lookup row. *)
Definition namecol (t : lookup_table) (r : lookup_row) : option string :=
  column t (Table.namecol (tbl t)) r.

(** The column [tbl.maincol], declared [UNIQUE] by [set_collation], is
    compared as it is once collation has been switched off; [ebookids] is
    not declared there. *)
Definition unique_conflict (t : lookup_table) (r new : lookup_row) : bool :=
  match t with
  | ebookids => ebookids_unique E r new
  | _ => match column t (Table.maincol (tbl t)) r,
               column t (Table.maincol (tbl t)) new with
         | Some a, Some b => String.eqb a b
         | _, _ => false
         end
  end.

(** The key SQLite gives to a row inserted with a NULL key: 1 in an empty
    table, else one more than the largest key in use. *)
Definition next_rowid (rows : list lookup_row) : Z :=
  match rows with
  | [] => 1
  | r :: rest => fold_right Z.max (xid r) (map xid rest) + 1
  end.

(** [UPDATE metadata SET title = ?, published = ?, language = ?,
    annotation = ?, thumbnail = ?, aspectratio = ?, coverhash = ?
    WHERE bid = (SELECT bid FROM books WHERE md5 = ?)]. *)
Definition update_metadata_sql (title published language : string)
    (annotation : option string) (th : Thumb.thumb) (coverhash : option string)
    (h : string) : M unit :=
  fun c =>
    match Database.log_sql [Some title; Some published; Some language; annotation] with
    | Raise e => (Raise e, c)
    | Ok _ =>
        let target := bid_of_md5 c h in
        (Ok tt,
         set_metadata
           (map (fun m => if Sql.eq_int (Some (m_bid m)) target
                          then Metadata (m_bid m) title published language annotation
                                 (Thumb.thumbnail th) (Thumb.aspectratio th) coverhash
                          else m)
                (metadata c)) c)
    end.

(** [DELETE from books_{0} WHERE bid = (SELECT bid FROM books WHERE md5 = ?)]. *)
Definition del_books_links_sql (t : lookup_table) (h : string) : M unit :=
  fun c =>
    let target := bid_of_md5 c h in
    (Ok tt,
     set_link t (List.filter (fun l => negb (Sql.eq_int (l_bid l) target)) (links c t)) c).

(** [DELETE from reviews WHERE bid = (SELECT bid FROM books WHERE md5 = ?)]. *)
Definition del_reviews_sql (h : string) : M unit :=
  fun c =>
    let target := bid_of_md5 c h in
    (Ok tt,
     set_reviews (List.filter (fun r => negb (Sql.eq_int (r_bid r) target)) (reviews c)) c).

(** [INSERT OR REPLACE INTO reviews (bid, rating, timestamp)
    VALUES((SELECT bid FROM books WHERE md5 = ?), ?, ?)]. *)
Definition ins_review_sql (h : string) (rating : Z) (timestamp : string) : M unit :=
  fun c =>
    match reviews_replace E (Review (bid_of_md5 c h) rating timestamp) (reviews c) with
    | Ok rows => (Ok tt, set_reviews rows c)
    | Raise e => (Raise e, c)
    end.

(** A row put into a table whose rows are listed by ascending key, the
    order in which SQLite scans them: before the first row with a larger
    key. *)
Fixpoint insert_by_key (new : lookup_row) (rows : list lookup_row) : list lookup_row :=
  match rows with
  | [] => [new]
  | r :: rest =>
      if xid new <? xid r then new :: r :: rest
      else r :: insert_by_key new rest
  end.

(** [INSERT OR REPLACE INTO {0} ({1}, {2}, timestamp)
    VALUES((SELECT {1} FROM {0} WHERE {3} LIKE ?), {4})], run by [execute]
    with the values [(name,) + midcols + (timestamp,)]: the key is that of
    the first row whose [namecol] is like [name], a new key when there is
    none; the rows with that key or the same unique column are deleted and
    the new row takes its place among the keys. *)
Definition fill_lookups_sql (t : lookup_table) (name : string)
    (midcols : list string) (timestamp : string) : M unit :=
  fun c =>
    match Database.log_sql (map Some (name :: midcols)) with
    | Raise e => (Raise e, c)
    | Ok _ =>
        let rows := lookups c t in
        let key :=
          match List.find (fun r => Sql.LIKE (namecol t r) name) rows with
          | Some r => xid r
          | None => next_rowid rows
          end in
        let new := Lookup key midcols None timestamp in
        let kept :=
          List.filter (fun r => negb (xid r =? key) && negb (unique_conflict t r new))
                      rows in
        (Ok tt, set_lookup t (insert_by_key new kept) c)
    end.

(** One row inserted with [OR REPLACE] into a link table. *)
Definition replace_link (t : lookup_table) (rows : list link_row) (new : link_row)
  : list link_row :=
  List.filter (fun l => negb (link_conflict E t l new)) rows ++ [new].

(** [INSERT OR REPLACE INTO books_{0} (bid, {1}) SELECT books.bid, {0}.{2}
    FROM books, {0} WHERE books.md5 = ? AND {0}.{3} = ?], run by [execute]
    with the values [(md5, name)].  For [sequences] the statement also
    carries [str(seqnumber)]: the text [None] names no column, and SQLite
    refuses the statement. *)
Definition ins_books_links_sql (t : lookup_table)
    (seq : option (option Sql.number)) (h name : string) : M unit :=
  fun c =>
    match Database.log_sql [Some name] with
    | Raise e => (Raise e, c)
    | Ok _ =>
        match seq with
        | Some None => (Raise OperationalError, c)
        | _ =>
            let number := match seq with Some n => n | None => None end in
            let selected :=
              flat_map (fun b =>
                if String.eqb (md5 b) h then
                  map (fun r => Link (Some (bid b)) (Some (xid r)) number)
                      (List.filter (fun r => Sql.eq_text (namecol t r) name)
                                   (lookups c t))
                else [])
                (books c) in
            (Ok tt, set_link t (fold_left (replace_link t) selected (links c t)) c)
        end
    end.

(** [DELETE FROM {0} WHERE {1} NOT IN (SELECT {1} FROM books_{0})]. *)
Definition del_from_lookups_sql (t : lookup_table) : M unit :=
  fun c =>
    let used := map l_xid (links c t) in
    (Ok tt,
     set_lookup t (List.filter (fun r => negb (Sql.NOT_IN (xid r) used)) (lookups c t)) c).

(** [EBOOK_SCHEMES.get(scheme) or '0']. *)
Definition scheme_code (scheme : option string) : string :=
  match scheme ≫= (fun s => EBOOK_SCHEMES !! s) with
  | Some code => if Py.truthy code then code else "0"
  | None => "0"
  end.

(** [cal_datum[tbl.name]]: [None] when [get_metadata] has not added the key. *)
Definition datum_lookup_rows (t : lookup_table) (d : Datum.t)
  : option (list lookup_value) :=
  match t with
  | authors =>
      map (fun p => Pair (Some (fst p)) (Some (snd p))) <$> Datum.authors d
  | publishers => map Single <$> Datum.publishers d
  | subjects => map (fun s => Single (Some s)) <$> Datum.subjects d
  | sequences => map Single <$> Datum.sequences d
  | ebookids =>
      map (fun p => Pair (Some (fst p)) (Some (snd p))) <$> Datum.ebookids d
  end.

(** [seqnumber = cal_datum.get('series_index')] followed by
    [seqnumber = int(seqnumber) if seqnumber else seqnumber]. *)
Definition seqnumber_of (d : Datum.t) : M (option Sql.number) :=
  match Datum.series_index d with
  | None => ret None
  | Some f =>
      if (f =? 0)%float then ret (Some (Sql.Real f))
      else match Thumb.int_of_float f with
           | Ok z => ret (Some (Sql.Int z))
           | Raise e => throw e
           end
  end.

(** The locals [lookup_rows] ([None] while unbound) and [seqnumber] of
    [_ins_book_to_link_tables], which live on from one table to the next. *)
Definition locals : Type := (option (list lookup_value) * option Sql.number)%type.

(** The rows to write for table [t]: from the plugin's records when there
    are any, else from Calibre's database. *)
Definition find_lookup_rows (cdb : cal_db) (cal_bid : Z) (t : lookup_table)
    (v : locals) : M locals :=
  match cal_data cdb with
  | _ :: _ =>
      for_each
        (fun (v : locals) cal_datum =>
           if Datum.id cal_datum =? cal_bid then
             match datum_lookup_rows t cal_datum with
             | None => throw KeyError
             | Some lookup_rows =>
                 match t with
                 | sequences =>
                     seqnumber <- seqnumber_of cal_datum ;;
                     ret (Some lookup_rows, seqnumber)
                 | _ => ret (Some lookup_rows, snd v)
                 end
             end
           else ret v)
        (cal_data cdb) v
  | [] => ret (Some (query_lookup cdb t cal_bid), snd v)
  end.

(** The body of [for lookup_row in lookup_rows]: the two statements, and
    after them [self.commit()], which is reached only when neither raises. *)
Definition ins_lookup_row (t : lookup_table) (seqnumber : option Sql.number)
    (h : string) (lookup_row : lookup_value) : M unit :=
  timestamp <- now_timestamp ;;
  match
    match t, lookup_row with
    | authors, Pair name extra => Some (name, extra)
    | ebookids, Pair scheme value => Some (value, Some (scheme_code scheme))
    | (publishers | subjects | sequences), Single name => Some (name, Some "extra")
    | _, _ => None
    end
  with
  | None => throw TypeError
  | Some (name, extra) =>
      if negb (Py.truthy_opt name) || negb (Py.truthy_opt extra) then ret tt
      else
        let name := default EmptyString name in
        let extra := default EmptyString extra in
        let midcols :=
          match t with
          | authors | ebookids => [extra; name]
          | publishers | subjects | sequences => [name]
          end in
        fill_lookups_sql t name midcols timestamp ;;;
        ins_books_links_sql t
          (match t with sequences => Some seqnumber | _ => None end) h name
  end.

(** [_ins_book_to_link_tables(cal_db, cal_bid, md5)]. *)
Definition _ins_book_to_link_tables (cdb : cal_db) (cal_bid : Z) (h : string) : M unit :=
  _ <- for_each
         (fun (v : locals) lookup_table =>
            v' <- find_lookup_rows cdb cal_bid lookup_table v ;;
            match fst v' with
            | None => throw UnboundLocalError
            | Some lookup_rows =>
                for_each (fun _ lookup_row =>
                            ins_lookup_row lookup_table (snd v') h lookup_row)
                         lookup_rows tt ;;;
                ret v'
            end)
         LOOKUP_TABLES (None, None) ;;
  ret tt.

(** [_del_book_from_link_tables(md5)]. *)
Definition _del_book_from_link_tables (h : string) : M unit :=
  for_each (fun _ lookup_table => del_books_links_sql lookup_table h) LOOKUP_TABLES tt.

(** [_del_book_from_reviews(md5)]. *)
Definition _del_book_from_reviews (h : string) : M unit := del_reviews_sql h.

(** [_ins_book_to_reviews(cal_db, cal_bid, md5)].  With the plugin's records
    [rating] is a number or [None]; otherwise it is the list of rows of a
    query, which SQLite cannot take as a value. *)
Definition _ins_book_to_reviews (cdb : cal_db) (cal_bid : Z) (h : string) : M unit :=
  match cal_data cdb with
  | _ :: _ =>
      bound <- for_each
                 (fun (rating : option (option Z)) cal_datum =>
                    if Datum.id cal_datum =? cal_bid
                    then ret (Some (Datum.rating cal_datum))
                    else ret rating)
                 (cal_data cdb) None ;;
      match bound with
      | None => throw UnboundLocalError
      | Some None | Some (Some 0) => ret tt
      | Some (Some rating) =>
          timestamp <- now_timestamp ;;
          ins_review_sql h rating timestamp
      end
  | [] =>
      match query_rating cdb cal_bid with
      | [] => ret tt
      | _ :: _ => _ <- now_timestamp ;; throw InterfaceError
      end
  end.

(** The file opened by [_get_thumb(row)]. *)
Definition cover_file (s : self) (row : Datum.t) : result string :=
  if Py.truthy (Datum.path row) then
    Ok (path_join E [_cal_lib_path s; Datum.path row; "cover.jpg"])
  else
    match Datum.paths row with
    | first :: _ => Ok (path_join E [path_dirname E first; "cover.jpg"])
    | [] => Raise IndexError
    end.

(** [_get_thumb(row)]. *)
Definition _get_thumb (s : self) (row : Datum.t) : M Thumb.thumb :=
  fun c =>
    match cover_file s row with
    | Raise e => (Raise e, c)
    | Ok file => (Thumb.thumb_of_cover (open_cover E file), c)
    end.

(** [update(cal_db, row, md5)]. *)
Definition update (s : self) (cdb : cal_db) (row : source_row) (h : string) : M unit :=
  match row with
  | SqliteRow _ _ => throw AttributeError
  | DictRow d =>
      let b_id := Datum.id d in
      let title := Datum.title d in
      let language := default EmptyString (Datum.language d) in
      published <- match Datum.pubdate d with
                   | Some (Datum.Datetime isoformat) => ret (Py.prefix 10 isoformat)
                   | Some (Datum.DateStr text) => ret (Py.prefix 10 text)
                   | None => throw TypeError
                   end ;;
      let annotation :=
        if _remove_html s then Some (Markup._remove_html_markup (Datum.comments d))
        else Datum.comments d in
      let coverhash := None in
      th <- _get_thumb s d ;;
      update_metadata_sql title published language annotation th coverhash h ;;;
      _del_book_from_link_tables h ;;;
      _del_book_from_reviews h ;;;
      _ins_book_to_link_tables cdb b_id h ;;;
      _ins_book_to_reviews cdb b_id h
  end.

(** [clean_up()]. *)
Definition clean_up : M unit :=
  for_each (fun _ lookup_table => del_from_lookups_sql lookup_table) LOOKUP_TABLES tt.

End WithEnv.
End KyBookDB.

(* ===================================================================== *)
(** * The world outside: content server, disk, clock *)
(* ===================================================================== *)

Module World.

(** What is sent along with a request. *)
Inductive payload : Type :=
| NoPayload
| Form (fields : list (string * string))
| Multipart (fields : list (string * string))
            (files : list (string * string * string)).

Record request : Type := Request { method : string; url : string; sent_with : payload }.

(** [resp.status], [resp.reason] and [resp.read()]. *)
Record response : Type := Response { status : Z; reason : string; body : string }.

(** A request is answered, or the transport raises. *)
Inductive outcome : Type :=
| Answers (resp : response)
| Fails (e : exn).

(** What the script does to the outside, in order.  Debug-level logging is
    left out. *)
Inductive event : Type :=
| Sent (rq : request) (o : outcome)
| Slept (seconds : Z)
| Logged (level message : string).

(** [net n rq] is what happens to request [rq] when it is the [n]-th request
    of the run; [fs] maps the path of each regular file to its content;
    [now] is [datetime.now().strftime("-%Y%m%d-%H%M%S")]. *)
Record world : Type := World {
  net : nat -> request -> outcome;
  sent : nat;
  fs : gmap string string;
  now : string;
  trace : list event
}.

Definition emit (e : event) (w : world) : world :=
  World (net w) (sent w) (fs w) (now w) (trace w ++ [e]).

Definition set_fs (f : gmap string string) (w : world) : world :=
  World (net w) (sent w) f (now w) (trace w).

(** Computations that change the world and may raise. *)
Definition M (A : Type) : Type := Eff.M world A.

Definition log (level message : string) : M unit :=
  fun w => (Ok tt, emit (Logged level message) w).

Definition sleep (seconds : Z) : M unit :=
  fun w => (Ok tt, emit (Slept seconds) w).

(** One HTTP exchange: [request] followed by [getresponse]. *)
Definition exchange (rq : request) : M response :=
  fun w =>
    let o := net w (sent w) rq in
    let w' := World (net w) (S (sent w)) (fs w) (now w) (trace w ++ [Sent rq o]) in
    match o with
    | Answers resp => (Ok resp, w')
    | Fails e => (Raise e, w')
    end.

(** [open(path, 'rb').read()]. *)
Definition read_file (path : string) : M string :=
  fun w => match fs w !! path with
           | Some contents => (Ok contents, w)
           | None => (Raise IOError, w)
           end.

(** [open(path, 'wb').write(contents)]. *)
Definition write_file (path contents : string) : M unit :=
  fun w => (Ok tt, set_fs (<[path := contents]> (fs w)) w).

(** [os.path.isfile(path) and os.path.getsize(path) > 0]. *)
Definition is_nonempty_file (path : string) : M bool :=
  fun w => (Ok (match fs w !! path with
                | Some contents => Py.truthy contents
                | None => false
                end), w).

(** [shutil.copyfile(src, dst)]. *)
Definition copyfile (src dst : string) : M unit :=
  contents <- read_file src ;; write_file dst contents.

Definition strftime_now : M string := fun w => (Ok (now w), w).

End World.

(* ===================================================================== *)
(** * [os.path]: [posixpath], or [ntpath] on Windows *)
(* ===================================================================== *)

Module OsPath.

(** The module that [os.path] names on the machine that runs the script. *)
Inductive flavour : Type := posixpath | ntpath.

(** The characters that separate the parts of a path: the slash, and for
    [ntpath] the backslash as well. *)
Definition is_sep (os : flavour) (c : ascii) : bool :=
  match os with
  | posixpath => (c =? "/")%char
  | ntpath => (c =? "/")%char || (c =? "\")%char
  end.

Fixpoint has_sep (os : flavour) (s : string) : bool :=
  match s with
  | EmptyString => false
  | String c rest => is_sep os c || has_sep os rest
  end.

(** [p[:i], p[i:]] where [i] is just beyond the last separator of [p]
    ([p.rfind('/') + 1] in [posixpath], the [while] loop of [ntpath]). *)
Fixpoint cut (os : flavour) (p : string) : string * string :=
  match p with
  | EmptyString => (EmptyString, EmptyString)
  | String c rest =>
      if has_sep os rest then
        let (head, tail) := cut os rest in (String c head, tail)
      else if is_sep os c then (String c EmptyString, rest)
      else (EmptyString, p)
  end.

(** [s] is made of separators only ([s == '/' * len(s)] in [posixpath]). *)
Fixpoint all_seps (os : flavour) (s : string) : bool :=
  match s with
  | EmptyString => true
  | String c rest => is_sep os c && all_seps os rest
  end.

(** [s] without the separators at its end ([s.rstrip('/')] in [posixpath],
    the loop on [head2] in [ntpath]). *)
Fixpoint rstrip_seps (os : flavour) (s : string) : string :=
  match s with
  | EmptyString => EmptyString
  | String c rest =>
      match rstrip_seps os rest with
      | EmptyString => if is_sep os c then EmptyString else String c EmptyString
      | stripped => String c stripped
      end
  end.

(** [s[k:]]. *)
Definition from (k : nat) (s : string) : string :=
  String.substring k (String.length s - k) s.

(** Whether [normp[i:i+1] == sep], where [normp] is [p] with each slash
    turned into a backslash. *)
Definition sep_at (p : string) (i : nat) : bool :=
  match String.get i p with
  | Some c => is_sep ntpath c
  | None => false
  end.

(** [normp.find(sep, start)]. *)
Fixpoint find_sep (p : string) (start : nat) : option nat :=
  match p with
  | EmptyString => None
  | String c rest =>
      match start with
      | O => if is_sep ntpath c then Some O else S <$> find_sep rest O
      | S start' => S <$> find_sep rest start'
      end
  end.

(** [ntpath.splitdrive] (Python 2.7.8 and later): a drive letter with its
    colon, or the [\\machine\mountpoint] of a UNC path. *)
Definition splitdrive (p : string) : string * string :=
  if (1 <? String.length p)%nat then
    if sep_at p 0 && sep_at p 1 && negb (sep_at p 2) then
      match find_sep p 2 with
      | None => (EmptyString, p)
      | Some index =>
          match find_sep p (index + 1) with
          | Some index2 =>
              if (index2 =? index + 1)%nat then (EmptyString, p)
              else (Py.prefix index2 p, from index2 p)
          | None => (Py.prefix (String.length p) p, from (String.length p) p)
          end
      end
    else
      match String.get 1 p with
      | Some ":"%char => (Py.prefix 2 p, from 2 p)
      | _ => (EmptyString, p)
      end
  else (EmptyString, p).

(** [os.path.split(p)]. *)
Definition split (os : flavour) (p : string) : string * string :=
  match os with
  | posixpath =>
      let (head, tail) := cut posixpath p in
      if Py.truthy head && negb (all_seps posixpath head)
      then (rstrip_seps posixpath head, tail)
      else (head, tail)
  | ntpath =>
      let (d, p) := splitdrive p in
      let (head, tail) := cut ntpath p in
      let head2 := rstrip_seps ntpath head in
      let head := if Py.truthy head2 then head2 else head in
      (d +:+ head, tail)
  end.

(** [os.path.basename(p)]: [p[p.rfind('/') + 1:]] in [posixpath],
    [split(p)[1]] in [ntpath]. *)
Definition basename (os : flavour) (p : string) : string :=
  match os with
  | posixpath => snd (cut posixpath p)
  | ntpath => snd (split ntpath p)
  end.

End OsPath.

(* ===================================================================== *)
(** * class ContentServer *)
(* ===================================================================== *)

Module ContentServer.
Import Eff World.

(** [_http_conn(method, url, payload)]: no exception is caught here. *)
Definition _http_conn (method url : string) (payload : World.payload) : M response :=
  exchange (Request method url payload).

(** [_post_multipart(url, fields, files, tries)]; [None] is returned when
    no try is left. *)
Fixpoint _post_multipart (url : string) (fields : list (string * string))
    (files : list (string * string * string)) (tries : nat) : M (option response) :=
  match tries with
  | O => ret None
  | S tries' =>
      try_except
        (resp <- exchange (Request "POST" url (Multipart fields files)) ;;
         ret (Some resp))
        (fun ex =>
           sleep 1 ;;;
           _post_multipart url fields files tries')
  end.

(** [file_exists(remote_file)]. *)
Definition file_exists (remote_file : string) : M bool :=
  resp <- _http_conn "HEAD" ("/download?path=" +:+ remote_file) NoPayload ;;
  ret (status resp =? 200).

(** [dir_exists(remote_dir)]. *)
Definition dir_exists (remote_dir : string) : M bool :=
  resp <- _http_conn "HEAD" ("/list?path=" +:+ remote_dir) NoPayload ;;
  ret (status resp =? 200).

(** [delete_path(path)]. *)
Definition delete_path (path : string) : M bool :=
  resp <- _http_conn "POST" "/delete" (Form [("path", path)]) ;;
  ret (status resp =? 200).

(** [download_file(remote_file, local_file)]. *)
Definition download_file (remote_file local_file : string) : M unit :=
  log "info" "Downloading %s to %s" ;;;
  resp <- _http_conn "GET" ("/download?path=" +:+ remote_file) NoPayload ;;
  log "info" (reason resp) ;;;
  if status resp =? 200 then
    write_file local_file (body resp) ;;;
    log "info" "%s written to %s"
  else ret tt.

(** [download_db_file(path, local_path)]. *)
Definition download_db_file (path local_path : string) : M bool :=
  download_file path local_path ;;;
  usable <- is_nonempty_file local_path ;;
  if usable then
    stamp <- strftime_now ;;
    let backup := local_path +:+ stamp in
    copyfile local_path backup ;;;
    log "info" "%s copied to %s" ;;;
    ret true
  else
    log "critical" "No file at %s or it is empty." ;;;
    ret false.

(** [upload_file(local_file, remote_dir, remote_file, del_existing)], on a
    machine whose [os.path] is [os]. *)
Definition upload_file (os : OsPath.flavour) (local_file remote_dir : string)
    (remote_file : option string) (del_existing : bool) : M unit :=
  let url := "/upload" in
  contents <- read_file local_file ;;
  let remote_file :=
    if Py.truthy_opt remote_file then default EmptyString remote_file
    else OsPath.basename os local_file in
  let files := [("files[]", remote_file, contents)] in
  let data := [("path", remote_dir)] in
  (if del_existing then
     let path_to_delete := remote_dir +:+ "/" +:+ remote_file in
     present <- file_exists path_to_delete ;;
     if present then (_ <- delete_path path_to_delete ;; ret tt) else ret tt
   else ret tt) ;;;
  log "info" "Uploading %s to %s%s" ;;;
  resp <- _post_multipart url data files 5 ;;
  match resp with
  | Some r => log "info" (reason r)
  | None => log "info" "Failed!"
  end.

(** [upload_db_file(db_file)]. *)
Definition upload_db_file (os : OsPath.flavour) (db_file : string) : M unit :=
  upload_file os db_file "/$App/" None true.

End ContentServer.

(* ===================================================================== *)
(** * class ContentServer: creating folders *)
(* ===================================================================== *)

Module Paths.
Import Eff World.

(** The [while 1] loop of [_split_path], run for at most [turns] turns;
    [None] when the turns are used up before a [break]. *)
Fixpoint split_loop (os : OsPath.flavour) (turns : nat) (path : string)
    (allparts : list string) : option (list string) :=
  match turns with
  | O => None
  | S turns' =>
      let parts := OsPath.split os path in
      if String.eqb (fst parts) path then Some (fst parts :: allparts)
      else if String.eqb (snd parts) path then Some (snd parts :: allparts)
      else split_loop os turns' (fst parts) (snd parts :: allparts)
  end.

(** [ContentServer._split_path(path)]: every turn that does not break
    shortens [path], so one turn more than its length is enough. *)
Definition _split_path (os : OsPath.flavour) (path : string) : option (list string) :=
  split_loop os (S (String.length path)) path [].

(** The body of the loop of [create_path]; the local [path] is threaded. *)
Definition create_part (path part : string) : M string :=
  let path := path +:+ "/" +:+ part in
  present <- ContentServer.dir_exists path ;;
  if present then ret path
  else
    log "info" "Creating %s" ;;;
    resp <- ContentServer._http_conn "POST" "/create" (Form [("path", path)]) ;;
    log "info" (reason resp) ;;;
    ret path.

(** [ContentServer.create_path(full_path)]. *)
Definition create_path (os : OsPath.flavour) (full_path : string) : M unit :=
  match _split_path os full_path with
  | None => ret tt
  | Some parts => _ <- for_each create_part parts EmptyString ;; ret tt
  end.

End Paths.

(* ===================================================================== *)
(** * Sending the files of a book *)
(* ===================================================================== *)

From Stdlib Require Import DecimalString.

Module Files.
Import Eff World.

(** [str(n)] for an integer. *)
Definition str_of_int (n : Z) : string := NilZero.string_of_int (Z.to_int n).

(** What [get_books_files] yields for a book: a path out of the [paths] of
    the plugin's record (a [str]), or a row [filename], [ext] of Calibre's
    [data] table (an [sqlite3.Row]). *)
Inductive file_row : Type :=
| PathRow (path : string)
| DataRow (filename ext : string).

Section WithEnv.
Variable E : Kyb.env.
Variable os : OsPath.flavour.

(** [CalibreDB.path_from_row(path, row)]: with records of the plugin the row
    is returned as it is; indexing a [str] by a name raises [TypeError]. *)
Definition path_from_row (cal : Kyb.cal_db) (lib_path path : string)
    (row : file_row) : result file_row :=
  match Kyb.cal_data cal with
  | _ :: _ => Ok row
  | [] =>
      match row with
      | DataRow filename ext =>
          let suffix := "." +:+ ext in
          Ok (PathRow (Kyb.path_join E [lib_path; path; filename +:+ suffix]))
      | PathRow _ => Raise TypeError
      end
  end.

(** [CalibreDB.send_book_file_to_cs(c_s, path, row)]; [open] on a value
    that is no string raises [TypeError]. *)
Definition send_book_file_to_cs (cal : Kyb.cal_db) (lib_path path : string)
    (row : file_row) : M unit :=
  match path_from_row cal lib_path path row with
  | Raise e => throw e
  | Ok (DataRow _ _) => throw TypeError
  | Ok (PathRow b_file) =>
      ContentServer.upload_file os b_file "/Books/" None false
  end.

(** The local [c_file] of [send_cover_file_to_cs]; [os.path.dirname] on a
    value that is no string raises [AttributeError]. *)
Definition c_file (s : Kyb.self) (file_path : string) (row : file_row)
  : result string :=
  if Py.truthy file_path then
    Ok (Kyb.path_join E [Kyb._cal_lib_path s; file_path; "cover.jpg"])
  else
    match row with
    | PathRow p => Ok (Kyb.path_join E [Kyb.path_dirname E p; "cover.jpg"])
    | DataRow _ _ => Raise AttributeError
    end.

(** [KyBookDB.send_cover_file_to_cs(c_s, file_path, file_row, md5)], on the
    database [c], which is only read. *)
Definition send_cover_file_to_cs (s : Kyb.self) (c : Kyb.conn)
    (file_path : string) (row : file_row) (md5 : string) : M unit :=
  match Kyb.bid_of_md5 c md5 with
  | None => ret tt
  | Some bid =>
      match c_file s file_path row with
      | Raise e => throw e
      | Ok local =>
          let cs_file := "$" +:+ str_of_int bid +:+ ".jpg" in
          ContentServer.upload_file os local "/$User/covers/" (Some cs_file) true
      end
  end.

End WithEnv.

End Files.

(* ===================================================================== *)
(** * Notions used in the statements *)
(* ===================================================================== *)

(** ** Values that the log of a statement takes as they are *)

(** No backslash in [s]. *)
Definition backslash_free (s : string) : Prop := Py.char_in "\" s = false.

(** A value that is [None] or a text without backslash. *)
Definition plain_value (v : option string) : Prop :=
  match v with
  | Some s => backslash_free s
  | None => True
  end.

(** ** The markup scanner *)

(** What the loop keeps true: the quote flag is only set inside a tag, and
    no angle bracket has been emitted. *)
Definition scanner_ok (st : Markup.scanner) : Prop :=
  (Markup.quote st = true -> Markup.tag st = true)
  /\ Py.char_in "<" (Markup.out st) = false
  /\ Py.char_in ">" (Markup.out st) = false.

(** ** Traces of the content server *)

(** The events of tries that raised: each is followed by a pause of one
    second. *)
Definition failed_tries (rq : World.request) (es : list exn) : list World.event :=
  concat (map (fun e => [World.Sent rq (World.Fails e); World.Slept 1]) es).

(** A request sent with the method [POST], whatever its URL. *)
Definition is_post (ev : World.event) : bool :=
  match ev with
  | World.Sent rq _ => String.eqb (World.method rq) "POST"
  | _ => false
  end.

(** The name under which [upload_file] sends a file. *)
Definition upload_name (os : OsPath.flavour) (local_file : string)
    (remote_file : option string) : string :=
  if Py.truthy_opt remote_file then default EmptyString remote_file
  else OsPath.basename os local_file.

(** The request of one try of the upload. *)
Definition upload_request (remote_dir name contents : string) : World.request :=
  World.Request "POST" "/upload"
    (World.Multipart [("path", remote_dir)] [("files[]", name, contents)]).

(** What precedes the tries of the upload, and the exception that ends the
    call there, if any: nothing without [del_existing]; with it, the probe
    of the remote path and, when the probe is answered with status 200, the
    deletion. *)
Definition before_upload (del_existing : bool) (target : string) (w : World.world)
  : list World.event * option exn :=
  if del_existing then
    let probe := World.Request "HEAD" ("/download?path=" +:+ target) World.NoPayload in
    match World.net w (World.sent w) probe with
    | World.Fails e => ([World.Sent probe (World.Fails e)], Some e)
    | World.Answers found =>
        if World.status found =? 200 then
          let deletion := World.Request "POST" "/delete" (World.Form [("path", target)]) in
          match World.net w (S (World.sent w)) deletion with
          | World.Fails e =>
              ([World.Sent probe (World.Answers found);
                World.Sent deletion (World.Fails e)], Some e)
          | World.Answers deleted =>
              ([World.Sent probe (World.Answers found);
                World.Sent deletion (World.Answers deleted)], None)
          end
        else ([World.Sent probe (World.Answers found)], None)
    end
  else ([], None).

(** The files on disk once [download_file] is through. *)
Definition fs_after_download (w : World.world) (resp : World.response)
    (local_file : string) : gmap string string :=
  if World.status resp =? 200
  then <[local_file := World.body resp]> (World.fs w)
  else World.fs w.

(** ** Tables that a statement leaves alone *)

(** No row of [books] carries the hash [h]. *)
Definition no_book (h : string) (c : Kyb.conn) : Prop :=
  Forall (fun b => Kyb.md5 b <> h) (Kyb.books c).

(** [books], [metadata] and every link table are the same in [c'] as in [c]. *)
Definition same_books_metadata_links (c c' : Kyb.conn) : Prop :=
  Kyb.books c' = Kyb.books c
  /\ Kyb.metadata c' = Kyb.metadata c
  /\ forall t, Kyb.links c' t = Kyb.links c t.

(** No record of the plugin with the id [cal_bid] carries a rating: it is
    [None] or 0. *)
Definition unrated (cdb : Kyb.cal_db) (cal_bid : Z) : Prop :=
  Forall (fun d => Datum.id d = cal_bid ->
                   Datum.rating d = None \/ Datum.rating d = Some 0)
         (Kyb.cal_data cdb).

(** The same for the row handed to [update]. *)
Definition row_unrated (cdb : Kyb.cal_db) (row : Kyb.source_row) : Prop :=
  match row with
  | Kyb.DictRow d => unrated cdb (Datum.id d)
  | Kyb.SqliteRow _ _ => True
  end.

(** Where no book carries [h]: [books] and [reviews] are the same in [c']
    as in [c]. *)
Definition same_books_reviews (h : string) (c c' : Kyb.conn) : Prop :=
  no_book h c -> Kyb.books c' = Kyb.books c /\ Kyb.reviews c' = Kyb.reviews c.

(** A computation that, run where no book carries [h], leaves these tables
    alone, whether it returns or raises. *)
Definition spares {A} (h : string) (m : Kyb.M A) : Prop :=
  forall c, no_book h c -> same_books_metadata_links c (snd (m c)).

(** ** Concrete inputs *)

(** A cover of 100 x 150 pixels. *)
Definition cover_100x150 : Thumb.image := Thumb.Image 100 150.

(** A record of the plugin that lists one language. *)
Definition datum_eng : Datum.t :=
  Datum.Make 1 EmptyString "Dune" None None ["eng"] [] None None [] [] None None []
             None None None None None None.

(** The world in which every request fails at the transport. *)
Definition world_down : World.world :=
  World.World (fun _ _ => World.Fails SocketError) 0 ∅ EmptyString [].

(** A server that cannot be reached, and a machine that holds the database
    file. *)
Definition world_down_with_db : World.world :=
  World.World (fun _ _ => World.Fails SocketError) 0
              (<["/tmp/db.sqlite" := "SQLite format 3"]> ∅) EmptyString [].

(** A server that answers two requests and cannot be reached afterwards. *)
Definition world_lost_after_two : World.world :=
  World.World (fun n _ => if (n <? 2)%nat
                          then World.Answers (World.Response 200 "OK" EmptyString)
                          else World.Fails SocketError)
              0 (<["/tmp/db.sqlite" := "SQLite format 3"]> ∅) EmptyString [].

(** A server that answers every request with status 200 and no content. *)
Definition world_zero_bytes : World.world :=
  World.World (fun _ _ => World.Answers (World.Response 200 "OK" EmptyString))
              0 ∅ "-20190101-120000" [].

(** A machine without cover files, and a KyBook schema in which a link row
    is identified by its two keys and a review by its book. *)
Definition env0 : Kyb.env :=
  Kyb.Env
    (fun _ => "580000000.0")
    (fun _ _ => false)
    (fun _ a b => Sql.eq_int (Kyb.l_bid a) (Kyb.l_bid b)
                  && Sql.eq_int (Kyb.l_xid a) (Kyb.l_xid b))
    (fun new rows =>
       Ok (List.filter (fun r => negb (Sql.eq_int (Kyb.r_bid r) (Kyb.r_bid new))) rows
           ++ [new]))
    (fun _ => None)
    (String.concat "/")
    (fun p => p).

Definition self0 : Kyb.self := Kyb.Self true "/library".

(** The record of the scenario in the specification, as the plugin builds
    it, and as [get_metadata] hands it on. *)
Definition dune_raw : Datum.t :=
  Datum.Make 1 EmptyString "Dune" (Some (Datum.Datetime "1965-08-01T00:00:00+00:00"))
    (Some "<p>Arrakis.</p>") ["eng"] [("Frank Herbert", "Herbert, Frank")]
    (Some "Dune") (Some 1%float) ["sci-fi"; "classic"]
    [("isbn", "9780441013593")] (Some "Ace") None ["/library/Dune/Dune.epub"]
    None None None None None None.

Definition dune : Datum.t := CalibreDB.reshape dune_raw.

Definition calibre0 : Kyb.cal_db :=
  Kyb.CalDb (CalibreDB.get_metadata [dune_raw]) (fun _ _ => []) (fun _ => []).

(** A database without any book, and one that holds the book with hash
    [H1]. *)
Definition conn_empty : Kyb.conn :=
  Kyb.Conn [] [] [] (fun _ => []) (fun _ => []) 0.

Definition conn_h1 : Kyb.conn :=
  Kyb.Conn [Kyb.Book 7 "H1"]
           [Kyb.Metadata 7 "?" EmptyString EmptyString None None 0%float None]
           [] (fun _ => []) (fun _ => []) 0.

(** A database with one book and one link row, neither about [H1]. *)
Definition conn_other : Kyb.conn :=
  Kyb.Conn [Kyb.Book 3 "H0"]
           [Kyb.Metadata 3 "Emma" "1815-12-23" "en" None None 0%float None]
           [] (fun t => match t with
                        | subjects => [Kyb.Lookup 1 ["novel"] None "1.0"]
                        | _ => []
                        end)
           (fun t => match t with
                     | subjects => [Kyb.Link (Some 3) (Some 1) None]
                     | _ => []
                     end) 0.

(** ** What a computation keeps *)

(** [R] relates the state before [m] to the state after it, whether [m]
    returns or raises. *)
Definition keeps {S A} (R : S -> S -> Prop) (m : Eff.M S A) : Prop :=
  forall s, R s (snd (m s)).

(** [books] and [metadata] are the same in [c'] as in [c]. *)
Definition same_books_metadata (c c' : Kyb.conn) : Prop :=
  Kyb.books c' = Kyb.books c /\ Kyb.metadata c' = Kyb.metadata c.

(** [books] is the same in [c'] as in [c]; [metadata] has the same rows in
    the same order but for the content of the rows of the book that carries
    the hash [h]. *)
Definition same_books_other_metadata (h : string) (c c' : Kyb.conn) : Prop :=
  Kyb.books c' = Kyb.books c
  /\ Forall2 (fun m m' =>
                Kyb.m_bid m' = Kyb.m_bid m
                /\ (Kyb.bid_of_md5 c h <> Some (Kyb.m_bid m) -> m' = m))
             (Kyb.metadata c) (Kyb.metadata c').

(** Every table is the same in [c'] as in [c]; the clock may have been
    read. *)
Definition same_tables (c c' : Kyb.conn) : Prop :=
  Kyb.books c' = Kyb.books c
  /\ Kyb.metadata c' = Kyb.metadata c
  /\ Kyb.reviews c' = Kyb.reviews c
  /\ (forall t, Kyb.lookups c' t = Kyb.lookups c t)
  /\ (forall t, Kyb.links c' t = Kyb.links c t).

(** The value handed to [ins_lookup_row] for table [t]: a pair for [authors]
    (name, sort) and [ebookids] (scheme, value), the name alone otherwise. *)
Definition lookup_value_for (t : lookup_table) (name other : option string)
  : lookup_value :=
  match t with
  | authors => Pair name other
  | ebookids => Pair other name
  | publishers | subjects | sequences => Single name
  end.

(** ** More concrete inputs *)

(** A database in which a link row of [books_subjects] has no key. *)
Definition conn_null_key : Kyb.conn :=
  Kyb.Conn [Kyb.Book 3 "H0"] [] []
           (fun t => match t with
                     | subjects => [Kyb.Lookup 1 ["novel"] None "1.0"]
                     | _ => []
                     end)
           (fun t => match t with
                     | subjects => [Kyb.Link (Some 3) None None]
                     | _ => []
                     end) 0.

(** A server that refuses four requests and answers the fifth. *)
Definition world_fifth_try : World.world :=
  World.World (fun n _ => if (n <? 4)%nat then World.Fails SocketError
                          else World.Answers (World.Response 200 "OK" EmptyString))
              0 ∅ EmptyString [].

(** A server that sends a database file, on a machine without files. *)
Definition world_sqlite : World.world :=
  World.World (fun _ _ => World.Answers (World.Response 200 "OK" "SQLite format 3"))
              0 ∅ "-20190101-120000" [].

(** A server that knows no file, and a machine that kept an old snapshot. *)
Definition world_stale : World.world :=
  World.World (fun _ _ => World.Answers (World.Response 404 "Not Found" EmptyString))
              0 (<["/tmp/db.sqlite" := "old snapshot"]> ∅) "-20190101-120000" [].


(** A path segment: not empty, without a separator of the flavour and, for
    [ntpath], without a colon. *)
Definition segment (os : OsPath.flavour) (s : string) : Prop :=
  Py.truthy s = true
  /\ OsPath.has_sep os s = false
  /\ (os = OsPath.ntpath -> Py.char_in ":" s = false).

(** The last character of [s] exists and is no separator. *)
Fixpoint ends_plain (os : OsPath.flavour) (s : string) : bool :=
  match s with
  | EmptyString => false
  | String c EmptyString => negb (OsPath.is_sep os c)
  | String _ rest => ends_plain os rest
  end.

(** [p] is a local path whose last component is [n]: a folder, a slash and
    [n] for [posixpath]; a drive letter with its colon, a folder, a slash or
    backslash and [n] for [ntpath]. *)
Definition names_file (os : OsPath.flavour) (p n : string) : Prop :=
  OsPath.has_sep os n = false
  /\ match os with
     | OsPath.posixpath => exists d, p = d +:+ String "/" n
     | OsPath.ntpath =>
         exists letter d c,
           OsPath.is_sep OsPath.ntpath letter = false
           /\ OsPath.is_sep OsPath.ntpath c = true
           /\ p = String letter (String ":" (d +:+ String c n))
     end.

(** ['/'.join(segs)]. *)
Definition joined (segs : list string) : string := String.concat "/" segs.

(** The folders named by the parts of a path, each below the one before it,
    starting below [path]. *)
Fixpoint folders (path : string) (parts : list string) : list string :=
  match parts with
  | [] => []
  | part :: rest =>
      let path := path +:+ "/" +:+ part in path :: folders path rest
  end.

(** The event of asking whether folder [p] exists, with an answer. *)
Definition is_probe (p : string) (ev : World.event) : Prop :=
  exists resp,
    ev = World.Sent (World.Request "HEAD" ("/list?path=" +:+ p) World.NoPayload)
                    (World.Answers resp).

(** Every [HEAD] request is answered with status 200. *)
Definition all_present (w : World.world) : Prop :=
  forall n rq, World.method rq = "HEAD" ->
    exists resp, World.net w n rq = World.Answers resp /\ World.status resp = 200.

(** Every request is answered, with whatever status. *)
Definition all_answered (w : World.world) : Prop :=
  forall n rq, exists resp, World.net w n rq = World.Answers resp.

(** No request is answered with status 200. *)
Definition all_refused (w : World.world) : Prop :=
  forall n rq, exists resp,
    World.net w n rq = World.Answers resp /\ World.status resp <> 200.

(** The requests of a trace, in order. *)
Definition requests (t : list World.event) : list World.request :=
  flat_map (fun ev => match ev with World.Sent rq _ => [rq] | _ => [] end) t.

(** Asking for folder [p], then asking to create it. *)
Definition probe_and_create (p : string) : list World.request :=
  [World.Request "HEAD" ("/list?path=" +:+ p) World.NoPayload;
   World.Request "POST" "/create" (World.Form [("path", p)])].

(** A server that refuses every request. *)
Definition world_refusing : World.world :=
  World.World (fun _ _ => World.Answers (World.Response 403 "Forbidden" EmptyString))
              0 ∅ EmptyString [].

(** The remote path that [upload_file] asks for and deletes before it sends
    the cover of book [bid]. *)
Definition cover_on_server (bid : Z) : string :=
  "/$User/covers/" +:+ "/" +:+ "$" +:+ Files.str_of_int bid +:+ ".jpg".

(** A machine that holds the cover of the book in [/library/Dune], and a server
    that answers every request with status 200. *)
Definition world_with_cover : World.world :=
  World.World (fun _ _ => World.Answers (World.Response 200 "OK" EmptyString))
              0 (<["/library/Dune/cover.jpg" := "JFIF"]> ∅) EmptyString [].

(** A Windows machine that holds a book file, and a server that answers
    every request with status 200. *)
Definition world_with_book : World.world :=
  World.World (fun _ _ => World.Answers (World.Response 200 "OK" EmptyString))
              0 (<["C:\library\Dune\Dune.epub" := "PK"]> ∅) EmptyString [].
(* ===================================================================== *)
(** * Properties *)
(* ===================================================================== *)

Section MarkupFacts.
Import Markup.

Lemma char_in_snoc c s d :
  Py.char_in c (s +:+ String d EmptyString) = Py.char_in c s || (c =? d)%char.
Proof.
  induction s as [|e s IH]; simpl.
  - now rewrite orb_false_r.
  - now rewrite IH, orb_assoc.
Qed.

Lemma scan_char_ok st char : scanner_ok st -> scanner_ok (scan_char st char).
Proof.
  intros (Hq & Hlt & Hgt). unfold scan_char.
  destruct (char =? "<")%char eqn:Elt, (char =? ">")%char eqn:Egt,
           (quote st) eqn:Eq, (tag st) eqn:Et;
    simpl; rewrite ?orb_true_r, ?orb_false_r, ?andb_true_r, ?andb_false_r; simpl;
    try (specialize (Hq eq_refl); discriminate);
    try (repeat split; simpl; auto; congruence);
    destruct ((char =? Py.dquote)%char || (char =? Py.squote)%char);
    repeat split; simpl; rewrite ?Eq, ?Et, ?char_in_snoc, ?Hlt, ?Hgt; simpl;
    auto; try congruence;
    rewrite Ascii.eqb_sym; assumption.
Qed.

Lemma scan_fold_ok l st :
  scanner_ok st -> scanner_ok (fold_left scan_char l st).
Proof.
  revert st. induction l as [|c l IH]; intros st H; simpl; auto using scan_char_ok.
Qed.

End MarkupFacts.

(** C7: stripping [<p>Hello <b class="x">world</b></p>] gives [Hello world]. *)
Theorem remove_html_markup_hello_world :
  Markup._remove_html_markup
    (Some ("<p>Hello <b class=" +:+ String Py.dquote
             ("x" +:+ String Py.dquote ">world</b></p>")))
  = "Hello world".
Proof. reflexivity. Qed.

(** C10: whatever the input, the output of [_remove_html_markup] holds
    neither [<] nor [>]; the loop keeps the quote flag unset outside a
    tag. *)
Theorem remove_html_markup_no_angle_bracket (string : option String.string) :
  Py.char_in "<" (Markup._remove_html_markup string) = false
  /\ Py.char_in ">" (Markup._remove_html_markup string) = false.
Proof.
  unfold Markup._remove_html_markup.
  destruct string as [s|]; [|now split].
  destruct (negb (Py.truthy s)); [now split|].
  apply (scan_fold_ok (list_ascii_of_string s) Markup.start).
  repeat split; auto; discriminate.
Qed.

(* --------------------------------------------------------------------- *)
(** ** Tables *)

(** The key column and the written columns of each lookup table. *)
Example table_columns :
  map (fun t => (Table.xid (KyBookDB.tbl t), Table.midcols (KyBookDB.tbl t),
                 Table.namecol (KyBookDB.tbl t), Table.maincol (KyBookDB.tbl t)))
      LOOKUP_TABLES
  = [("aid", "namekey, name", "name", "namekey");
     ("pid", "publisher", "publisher", "publisher");
     ("sid", "subject", "subject", "subject");
     ("qid", "sequence", "sequence", "sequence");
     ("eid", "scheme, value", "value", "ebookid")].
Proof. reflexivity. Qed.

(* --------------------------------------------------------------------- *)
(** ** Thumbnails *)

(** C2: on a 100 x 150 cover, whose ratio 1.5 exceeds 105/74, the reduction
    constrains by width and the thumbnail is 74 x 111: higher than the 105
    of the bounding box. *)
Theorem get_thumb_exceeds_box :
  Thumb.taller_than_box 100 150 = false
  /\ Thumb._reduce_image_size cover_100x150 THUMB_HEIGHT THUMB_WIDTH
     = Ok (Thumb.Image 74 111)
  /\ Thumb.thumb_of_cover (Some cover_100x150)
     = Ok (Thumb.Thumbnail (Some (Thumb.Image 74 111)) 1.5%float)
  /\ THUMB_HEIGHT < 111
  /\ 150 * THUMB_WIDTH > 100 * THUMB_HEIGHT.
Proof. repeat split; vm_compute; reflexivity. Qed.

(* --------------------------------------------------------------------- *)
(** ** Records supplied by the plugin *)

(** C5: a record whose [languages] is [['eng']] gets the empty string as
    its [language], not [en]: the test looks for the word [language] among
    the listed languages. *)
Theorem get_metadata_language_eng :
  map Datum.language (CalibreDB.get_metadata [datum_eng]) = [Some EmptyString]
  /\ Py.lower (Py.prefix 2 "eng") = "en".
Proof. split; reflexivity. Qed.

(** The [language] that [get_metadata] writes, for any record. *)
Lemma reshape_language (d : Datum.t) :
  Datum.language (CalibreDB.reshape d)
  = Some (if Py.str_in "language" (Datum.languages d)
          then Py.lower (Py.prefix 2 (hd EmptyString (Datum.languages d)))
          else EmptyString).
Proof.
  unfold CalibreDB.reshape; simpl.
  destruct (Datum.languages d); simpl; [reflexivity|].
  now destruct (_ || _).
Qed.

(* --------------------------------------------------------------------- *)
(** ** Content server *)

Section ContentServerFacts.
Import Eff World ContentServer.

Lemma failed_tries_cons rq e es :
  failed_tries rq (e :: es) = Sent rq (Fails e) :: Slept 1 :: failed_tries rq es.
Proof. reflexivity. Qed.

(** The retry loop, run from any world: the tries that raise come first, each
    with its pause; then either the budget is spent and [None] is returned,
    or one try is answered and its response is returned at once. *)
Lemma post_multipart_run url fields files tries w :
  let rq := Request "POST" url (Multipart fields files) in
  exists es : list exn,
    (forall i e, es !! i = Some e -> net w (sent w + i)%nat rq = Fails e)
    /\ ((length es = tries
         /\ _post_multipart url fields files tries w
            = (Ok None,
               World (net w) (sent w + tries)%nat (fs w) (now w)
                     (trace w ++ failed_tries rq es)))
        \/ (exists resp,
              (length es < tries)%nat
              /\ net w (sent w + length es)%nat rq = Answers resp
              /\ _post_multipart url fields files tries w
                 = (Ok (Some resp),
                    World (net w) (sent w + S (length es))%nat (fs w) (now w)
                          (trace w ++ failed_tries rq es ++ [Sent rq (Answers resp)])))).
Proof.
  intros rq. revert w. induction tries as [|tries IH]; intros w.
  - exists []. split; [intros i e H; discriminate|]. left. split; [reflexivity|].
    destruct w; simpl. unfold ret. simpl. rewrite Nat.add_0_r, app_nil_r. reflexivity.
  - simpl. unfold try_except, bind, exchange. fold rq.
    destruct (net w (sent w) rq) as [resp|e] eqn:Hnet.
    + exists []. split; [intros i e H; discriminate|]. right. exists resp.
      simpl. rewrite Nat.add_0_r. repeat split; [lia|assumption|].
      unfold ret. now rewrite Nat.add_1_r.
    + unfold sleep, emit. simpl.
      set (w1 := World _ _ _ _ _).
      destruct (IH w1) as (es & Hes & Hcases).
      exists (e :: es). split.
      * intros [|i] e' H; simpl in H.
        -- injection H as <-. now rewrite Nat.add_0_r.
        -- specialize (Hes i e' H). simpl in Hes.
           now replace (sent w + S i)%nat with (S (sent w + i)) by lia.
      * destruct Hcases as [(Hlen & Hrun)|(resp & Hlen & Hans & Hrun)].
        -- left. split; [simpl; congruence|]. rewrite Hrun. simpl.
           unfold failed_tries; simpl; rewrite <- ?app_assoc; simpl.
           now replace (sent w + S tries)%nat with (S (sent w + tries)) by lia.
        -- right. exists resp. simpl. split; [lia|]. split.
           ++ simpl in Hans. now replace (sent w + S (length es))%nat with (S (sent w + length es)) by lia.
           ++ rewrite Hrun. simpl. unfold failed_tries; simpl; rewrite <- ?app_assoc; simpl.
              now replace (sent w + S (S (length es)))%nat with (S (sent w + S (length es))) by lia.
Qed.


(** From the [LOG.info('Uploading ...')] line of [upload_file] to its end. *)
Lemma upload_tail data files (w2 : world) :
  let rq := Request "POST" "/upload" (Multipart data files) in
  let out :=
    (log "info" "Uploading %s to %s%s" ;;;
     resp <- _post_multipart "/upload" data files 5 ;;
     match resp with
     | Some r => log "info" (reason r)
     | None => log "info" "Failed!"
     end) w2 in
  exists (es : list exn) (last : list event),
    trace (snd out)
    = trace w2 ++ [Logged "info" "Uploading %s to %s%s"] ++ failed_tries rq es ++ last
    /\ (forall i e, es !! i = Some e -> net w2 (sent w2 + i)%nat rq = Fails e)
    /\ fst out = Ok tt
    /\ ((length es = 5%nat /\ last = [Logged "info" "Failed!"])
        \/ (exists resp,
              (length es < 5)%nat
              /\ net w2 (sent w2 + length es)%nat rq = Answers resp
              /\ last = [Sent rq (Answers resp); Logged "info" (reason resp)])).
Proof.
  intros rq out.
  set (w3 := emit (Logged "info" "Uploading %s to %s%s") w2).
  assert (Eout : out = (resp <- _post_multipart "/upload" data files 5 ;;
                        match resp with
                        | Some r => log "info" (reason r)
                        | None => log "info" "Failed!"
                        end) w3) by reflexivity.
  unfold bind in Eout.
  destruct (post_multipart_run "/upload" data files 5 w3)
    as (es & Hes & [(Hlen & Hrun)|(resp & Hlen & Hans & Hrun)]);
    rewrite Hrun in Eout; unfold log, emit in Eout; simpl in Eout;
    rewrite Eout; exists es; simpl; fold rq.
  - exists [Logged "info" "Failed!"].
    rewrite <- !app_assoc. simpl. repeat split; auto.
  - exists [Sent rq (Answers resp); Logged "info" (reason resp)].
    rewrite <- !app_assoc. simpl. repeat split; auto.
    right. exists resp. auto.
Qed.

End ContentServerFacts.

(** C3, as stated, fails.  With [del_existing] the upload of the database
    file is preceded by a probe and a deletion that are not retried: when the
    server cannot be reached the exception of the probe escapes to the
    caller, and when the server is lost after the deletion six requests are
    sent with [POST], the deletion and five tries of the upload. *)
Lemma upload_file_probe_not_retried :
  ContentServer.upload_db_file OsPath.posixpath "/tmp/db.sqlite" world_down_with_db
  = (Raise SocketError,
     World.World (World.net world_down_with_db) 1 (World.fs world_down_with_db)
       EmptyString
       [World.Sent (World.Request "HEAD" "/download?path=/$App//db.sqlite"
                                  World.NoPayload)
                   (World.Fails SocketError)])
  /\ length (List.filter is_post
               (World.trace
                  (snd (ContentServer.upload_db_file OsPath.posixpath "/tmp/db.sqlite"
                          world_lost_after_two))))
     = 6%nat.
Proof. split; reflexivity. Qed.

(** C3, amended: a call of [upload_file] whose local file can be read.
    What precedes the upload is [before_upload]: with [del_existing] the
    probe and, after status 200, the deletion, each sent once.  When one of
    them raises, its exception escapes and no upload has been tried.
    Otherwise the call returns normally and its events are the log line,
    then one [POST /upload] and a pause of one second for each try that
    raised ([es] lists the exceptions, at most five), then [last]: the log
    line [Failed!] when all five tries raised, or the answered try and the
    log line of its answer, after which nothing is sent. *)
Theorem upload_file_retries (os : OsPath.flavour) (w : World.world)
    (local_file remote_dir : string) (remote_file : option string)
    (del_existing : bool) (contents : string) :
  World.fs w !! local_file = Some contents ->
  let name := upload_name os local_file remote_file in
  let rq := upload_request remote_dir name contents in
  let before := before_upload del_existing (remote_dir +:+ "/" +:+ name) w in
  let n0 := (World.sent w + length (fst before))%nat in
  let out := ContentServer.upload_file os local_file remote_dir remote_file
               del_existing w in
  match snd before with
  | Some e =>
      fst out = Raise e /\ World.trace (snd out) = World.trace w ++ fst before
  | None =>
      fst out = Ok tt
      /\ exists (es : list exn) (last : list World.event),
           World.trace (snd out)
           = World.trace w ++ fst before
               ++ [World.Logged "info" "Uploading %s to %s%s"]
               ++ failed_tries rq es ++ last
           /\ (forall i e, es !! i = Some e ->
                           World.net w (n0 + i)%nat rq = World.Fails e)
           /\ ((length es = 5%nat /\ last = [World.Logged "info" "Failed!"])
               \/ (exists resp,
                     (length es < 5)%nat
                     /\ World.net w (n0 + length es)%nat rq = World.Answers resp
                     /\ last = [World.Sent rq (World.Answers resp);
                                World.Logged "info" (World.reason resp)]))
  end.
Proof.
  intros Hread name rq before n0 out.
  assert (Eout : out = ContentServer.upload_file os local_file remote_dir remote_file
                         del_existing w) by reflexivity.
  clearbody out. unfold ContentServer.upload_file in Eout.
  fold (upload_name os local_file remote_file) in Eout. fold name in Eout.
  unfold Eff.bind at 1 in Eout. unfold World.read_file at 1 in Eout.
  rewrite Hread in Eout.
  assert (Htail : forall (w2 : World.world) (pre : list World.event),
             World.net w2 = World.net w ->
             World.sent w2 = (World.sent w + length pre)%nat ->
             World.trace w2 = World.trace w ++ pre ->
             out = (World.log "info" "Uploading %s to %s%s" ;;;
                    resp <- ContentServer._post_multipart "/upload"
                              [("path", remote_dir)] [("files[]", name, contents)] 5 ;;
                    match resp with
                    | Some r => World.log "info" (World.reason r)
                    | None => World.log "info" "Failed!"
                    end) w2 ->
             fst out = Ok tt
             /\ exists (es : list exn) (last : list World.event),
                  World.trace (snd out)
                  = World.trace w ++ pre
                      ++ [World.Logged "info" "Uploading %s to %s%s"]
                      ++ failed_tries rq es ++ last
                  /\ (forall i e, es !! i = Some e ->
                        World.net w (World.sent w + length pre + i)%nat rq = World.Fails e)
                  /\ ((length es = 5%nat /\ last = [World.Logged "info" "Failed!"])
                      \/ (exists resp,
                            (length es < 5)%nat
                            /\ World.net w (World.sent w + length pre + length es)%nat rq
                               = World.Answers resp
                            /\ last = [World.Sent rq (World.Answers resp);
                                       World.Logged "info" (World.reason resp)]))).
  { clear Eout. intros w2 pre Hnet Hsent Htr ->.
    destruct (upload_tail [("path", remote_dir)] [("files[]", name, contents)] w2)
      as (es & last & Htrace & Hes & Hok & Hcases).
    split; [exact Hok|]. exists es, last. repeat split.
    - rewrite Htrace, Htr, <- !app_assoc. reflexivity.
    - intros i e H. rewrite <- Hnet, <- Hsent. now apply Hes.
    - destruct Hcases as [(Hlen & Hlast)|(resp & Hlen & Hans & Hlast)].
      + left. auto.
      + right. exists resp. rewrite <- Hnet, <- Hsent. auto. }
  subst before n0. unfold before_upload.
  destruct del_existing.
  2:{ cbn [fst snd length].
      apply (Htail w []);
        [reflexivity | cbn [length]; lia | now rewrite app_nil_r | exact Eout]. }
  unfold Eff.bind at 1 in Eout. unfold Eff.bind at 1 in Eout.
  unfold ContentServer.file_exists, ContentServer._http_conn in Eout.
  unfold Eff.bind at 1 in Eout. unfold World.exchange at 1 in Eout.
  set (probe := World.Request "HEAD" _ _) in *.
  destruct (World.net w (World.sent w) probe) as [found|e] eqn:Hhead.
  2:{ cbn [fst snd]. subst out. now split. }
  unfold Eff.ret at 1 in Eout.
  destruct (World.status found =? 200) eqn:Hstatus.
  2:{ unfold Eff.ret at 1 in Eout. cbn [fst snd length].
      eapply (Htail _ [World.Sent probe (World.Answers found)]); [| | |exact Eout];
        cbn [World.net World.sent World.trace length]; auto. lia. }
  unfold ContentServer.delete_path, ContentServer._http_conn in Eout.
  unfold Eff.bind at 1 in Eout. unfold Eff.bind at 1 in Eout.
  unfold World.exchange at 1 in Eout.
  cbn [World.net World.sent World.fs World.now World.trace] in Eout.
  set (deletion := World.Request "POST" "/delete" _) in *.
  destruct (World.net w (S (World.sent w)) deletion) as [deleted|e] eqn:Hdel.
  2:{ cbn [fst snd]. subst out. split; [reflexivity|].
      cbn [snd World.trace]. now rewrite <- app_assoc. }
  unfold Eff.ret at 1 2 in Eout. cbn [fst snd length].
  eapply (Htail _ [World.Sent probe (World.Answers found);
                   World.Sent deletion (World.Answers deleted)]); [| | |exact Eout];
    cbn [World.net World.sent World.trace length]; auto; [lia|].
  now rewrite <- !app_assoc.
Qed.

(** The server cannot be reached and nothing is to be deleted first: five
    tries, each with its pause, then [Failed!], and the call returns. *)
Lemma upload_file_retries_witness :
  let rq := upload_request "/$App/" "db.sqlite" "SQLite format 3" in
  let out := ContentServer.upload_file OsPath.posixpath "/tmp/db.sqlite" "/$App/" None
               false world_down_with_db in
  fst out = Ok tt
  /\ exists (es : list exn) (last : list World.event),
       World.trace (snd out)
       = [] ++ [] ++ [World.Logged "info" "Uploading %s to %s%s"]
            ++ failed_tries rq es ++ last
       /\ (forall i e, es !! i = Some e ->
                       World.net world_down_with_db (0 + 0 + i)%nat rq = World.Fails e)
       /\ ((length es = 5%nat /\ last = [World.Logged "info" "Failed!"])
           \/ (exists resp,
                 (length es < 5)%nat
                 /\ World.net world_down_with_db (0 + 0 + length es)%nat rq
                    = World.Answers resp
                 /\ last = [World.Sent rq (World.Answers resp);
                            World.Logged "info" (World.reason resp)])).
Proof.
  apply (upload_file_retries OsPath.posixpath world_down_with_db "/tmp/db.sqlite"
           "/$App/" None false "SQLite format 3").
  reflexivity.
Defined.

(** C4, as stated, fails: when the transport raises during the probe, the
    exception leaves [file_exists] and [dir_exists]; [False] is not
    returned. *)
Lemma exists_probe_raises :
  fst (ContentServer.file_exists "/Books/dune.epub" world_down) = Raise SocketError
  /\ fst (ContentServer.file_exists "/Books/dune.epub" world_down) <> Ok false
  /\ fst (ContentServer.dir_exists "/$User/covers" world_down) = Raise SocketError
  /\ fst (ContentServer.dir_exists "/$User/covers" world_down) <> Ok false.
Proof. repeat split; try reflexivity; discriminate. Qed.

(** C4, amended: when the probe is answered, [file_exists] and [dir_exists]
    return [True] for status 200 and [False] for any other status; when the
    transport raises, that exception is raised to the caller. *)
Theorem exists_probe_status (w : World.world) (remote : string) :
  fst (ContentServer.file_exists remote w)
  = match World.net w (World.sent w)
            (World.Request "HEAD" ("/download?path=" +:+ remote) World.NoPayload) with
    | World.Answers resp => Ok (World.status resp =? 200)
    | World.Fails e => Raise e
    end
  /\ fst (ContentServer.dir_exists remote w)
     = match World.net w (World.sent w)
               (World.Request "HEAD" ("/list?path=" +:+ remote) World.NoPayload) with
       | World.Answers resp => Ok (World.status resp =? 200)
       | World.Fails e => Raise e
       end.
Proof.
  unfold ContentServer.file_exists, ContentServer.dir_exists,
    ContentServer._http_conn, Eff.bind, World.exchange.
  split.
  - now destruct (World.net w (World.sent w) _).
  - now destruct (World.net w (World.sent w) _).
Qed.

Lemma download_file_run w remote_file local_file resp :
  World.net w (World.sent w)
    (World.Request "GET" ("/download?path=" +:+ remote_file) World.NoPayload)
  = World.Answers resp ->
  fst (ContentServer.download_file remote_file local_file w) = Ok tt
  /\ World.fs (snd (ContentServer.download_file remote_file local_file w))
     = fs_after_download w resp local_file
  /\ World.now (snd (ContentServer.download_file remote_file local_file w)) = World.now w.
Proof.
  intros Hnet.
  unfold ContentServer.download_file, ContentServer._http_conn, fs_after_download,
    Eff.bind, World.log, World.exchange; simpl.
  rewrite Hnet; simpl.
  now destruct (World.status resp =? 200).
Qed.

(** C9: when the download is answered and the local file is then missing
    or empty (as it is after a 200 answer with a zero-byte body),
    [download_db_file] returns [False] and the disk is left as
    [download_file] left it: no backup copy is written. *)
Theorem download_db_file_empty (w : World.world) (path local_path : string)
    (resp : World.response) :
  World.net w (World.sent w)
    (World.Request "GET" ("/download?path=" +:+ path) World.NoPayload)
  = World.Answers resp ->
  (fs_after_download w resp local_path !! local_path = None
   \/ fs_after_download w resp local_path !! local_path = Some EmptyString) ->
  fst (ContentServer.download_db_file path local_path w) = Ok false
  /\ World.fs (snd (ContentServer.download_db_file path local_path w))
     = fs_after_download w resp local_path.
Proof.
  intros Hnet Hlocal.
  destruct (download_file_run w path local_path resp Hnet) as (Hok & Hfs & _).
  destruct (ContentServer.download_file path local_path w) as [r w1] eqn:Edl.
  simpl in Hok, Hfs. subst r.
  unfold ContentServer.download_db_file, Eff.bind. rewrite Edl.
  unfold World.is_nonempty_file. rewrite Hfs.
  destruct Hlocal as [-> | ->]; simpl; rewrite Hfs; auto.
Qed.

Lemma download_db_file_empty_witness :
  fst (ContentServer.download_db_file "/$App/db.sqlite" "/tmp/db.sqlite" world_zero_bytes)
  = Ok false
  /\ World.fs (snd (ContentServer.download_db_file "/$App/db.sqlite" "/tmp/db.sqlite"
                      world_zero_bytes))
     = fs_after_download world_zero_bytes (World.Response 200 "OK" EmptyString)
         "/tmp/db.sqlite".
Proof.
  apply (download_db_file_empty world_zero_bytes "/$App/db.sqlite" "/tmp/db.sqlite"
           (World.Response 200 "OK" EmptyString)).
  - reflexivity.
  - right. vm_compute. reflexivity.
Defined.

(** After a 200 answer with a zero-byte body the only file written is the
    local file itself, empty. *)
Lemma download_db_file_zero_bytes w path local_path resp :
  World.net w (World.sent w)
    (World.Request "GET" ("/download?path=" +:+ path) World.NoPayload)
  = World.Answers resp ->
  World.status resp = 200 -> World.body resp = EmptyString ->
  ContentServer.download_db_file path local_path w
  = (Ok false,
     World.World (World.net w) (S (World.sent w))
       (<[local_path := EmptyString]> (World.fs w)) (World.now w)
       (World.trace w ++
        [World.Logged "info" "Downloading %s to %s";
         World.Sent (World.Request "GET" ("/download?path=" +:+ path) World.NoPayload)
           (World.Answers resp);
         World.Logged "info" (World.reason resp);
         World.Logged "info" "%s written to %s";
         World.Logged "critical" "No file at %s or it is empty."])).
Proof.
  intros Hnet Hstatus Hbody.
  unfold ContentServer.download_db_file, ContentServer.download_file,
    ContentServer._http_conn, Eff.bind, World.log, World.exchange,
    World.write_file, World.is_nonempty_file, World.emit, World.set_fs; simpl.
  rewrite Hnet, Hstatus, Hbody; simpl.
  rewrite lookup_insert_eq; simpl. rewrite <- !app_assoc. reflexivity.
Qed.

(* --------------------------------------------------------------------- *)
(** ** KyBook 3's database: what a statement leaves alone *)

Section Frame.
Import Eff Kyb KyBookDB.
Variable E : env.
Variable h : string.

Lemma same_refl c : same_books_metadata_links c c.
Proof. now repeat split. Qed.

Lemma same_trans c1 c2 c3 :
  same_books_metadata_links c1 c2 -> same_books_metadata_links c2 c3 ->
  same_books_metadata_links c1 c3.
Proof.
  intros (Hb & Hm & Hl) (Hb' & Hm' & Hl'). repeat split; intros; congruence.
Qed.

Lemma no_book_same c c' : same_books_metadata_links c c' -> no_book h c -> no_book h c'.
Proof. intros (Hb & _). unfold no_book. now rewrite Hb. Qed.

Lemma spares_ret {A} (a : A) : spares h (ret a).
Proof. intros c _. apply same_refl. Qed.

Lemma spares_throw {A} (e : exn) : spares h (@throw conn A e).
Proof. intros c _. apply same_refl. Qed.

Lemma spares_bind {A B} (m : M A) (k : A -> M B) :
  spares h m -> (forall a, spares h (k a)) -> spares h (bind m k).
Proof.
  intros Hm Hk c Hc. unfold bind. specialize (Hm c Hc).
  destruct (m c) as [[a|e] c1]; simpl in *; [|assumption].
  eapply same_trans; [eassumption|]. apply Hk. eapply no_book_same; eassumption.
Qed.

Lemma spares_for_each {A V} (body : V -> A -> M V) (l : list A) (v : V) :
  (forall v x, spares h (body v x)) -> spares h (for_each body l v).
Proof.
  intros Hbody. revert v. induction l as [|x l IH]; intros v; simpl.
  - apply spares_ret.
  - apply spares_bind; auto.
Qed.

Lemma bid_of_md5_none c : no_book h c -> bid_of_md5 c h = None.
Proof.
  unfold no_book, bid_of_md5. induction (books c) as [|b l IH]; intros Hc; simpl.
  - reflexivity.
  - inversion Hc as [|? ? Hb Hl]; subst.
    destruct (String.eqb_spec (md5 b) h); [contradiction|]. now apply IH.
Qed.

Lemma filter_all {A} (f : A -> bool) (l : list A) :
  (forall x, f x = true) -> List.filter f l = l.
Proof.
  intros Hf. induction l as [|x l IH]; simpl; [reflexivity|].
  now rewrite Hf, IH.
Qed.

Lemma eq_int_null x : Sql.eq_int x None = false.
Proof. now destruct x. Qed.

Lemma spares_now_timestamp : spares h (now_timestamp E).
Proof. intros c _. now repeat split. Qed.

Lemma spares_update_metadata_sql t p l a th ch :
  spares h (update_metadata_sql t p l a th ch h).
Proof.
  intros c Hc. unfold update_metadata_sql.
  destruct (Database.log_sql _); [|apply same_refl].
  simpl. repeat split; auto.
  rewrite (bid_of_md5_none c Hc). apply map_id.
Qed.

Lemma spares_del_books_links_sql t : spares h (del_books_links_sql t h).
Proof.
  intros c Hc. unfold del_books_links_sql; simpl. repeat split; auto.
  intros t'. rewrite (bid_of_md5_none c Hc). unfold set_link; simpl.
  destruct (decide (t' = t)) as [->|]; [|reflexivity].
  apply filter_all. intros x. now rewrite eq_int_null.
Qed.

Lemma spares_del_reviews_sql : spares h (del_reviews_sql h).
Proof. intros c _. now repeat split. Qed.

Lemma spares_ins_review_sql r ts : spares h (ins_review_sql E h r ts).
Proof.
  intros c _. unfold ins_review_sql.
  destruct (reviews_replace E _ _); now repeat split.
Qed.

Lemma spares_fill_lookups_sql t name midcols ts :
  spares h (fill_lookups_sql E t name midcols ts).
Proof.
  intros c _. unfold fill_lookups_sql.
  destruct (Database.log_sql _); now repeat split.
Qed.

Lemma no_book_selects_nothing {B} (g : book_row -> list B) (l : list book_row) :
  Forall (fun b => md5 b <> h) l ->
  flat_map (fun b => if String.eqb (md5 b) h then g b else []) l = [].
Proof.
  induction 1 as [|b l Hb _ IH]; simpl; [reflexivity|].
  destruct (String.eqb_spec (md5 b) h); [contradiction|]. exact IH.
Qed.

Lemma spares_ins_books_links_sql t seq name :
  spares h (ins_books_links_sql E t seq h name).
Proof.
  intros c Hc. unfold ins_books_links_sql.
  destruct (Database.log_sql _); [|apply same_refl].
  destruct seq as [[n|]|]; simpl; try apply same_refl;
    repeat split; auto; intros t'; unfold set_link; simpl;
    (destruct (decide (t' = t)) as [->|]; [|reflexivity]);
    now rewrite (no_book_selects_nothing _ _ Hc).
Qed.


Create HintDb spares.
#[local] Hint Resolve spares_now_timestamp spares_update_metadata_sql
  spares_del_books_links_sql spares_del_reviews_sql spares_ins_review_sql
  spares_fill_lookups_sql spares_ins_books_links_sql : spares.

(** Goes through binds, loops and case distinctions down to the statements. *)
Ltac spare :=
  repeat first
    [ solve [auto with spares]
    | apply spares_ret | apply spares_throw
    | apply spares_bind | apply spares_for_each
    | progress cbv beta zeta
    | match goal with
      | |- forall _, _ => intro
      | |- spares _ (match ?x with _ => _ end) => destruct x
      | |- spares _ (if ?b then _ else _) => destruct b
      | |- spares _ (let (_, _) := ?x in _) => destruct x
      end ].

Lemma spares_seqnumber_of d : spares h (seqnumber_of d).
Proof. unfold seqnumber_of. spare. Qed.

Lemma spares_find_lookup_rows cdb cal_bid t v :
  spares h (find_lookup_rows cdb cal_bid t v).
Proof. unfold find_lookup_rows. pose proof spares_seqnumber_of. spare. Qed.

Lemma spares_ins_lookup_row t seq lookup_row :
  spares h (ins_lookup_row E t seq h lookup_row).
Proof. unfold ins_lookup_row. spare. Qed.

Lemma spares_ins_book_to_link_tables cdb cal_bid :
  spares h (_ins_book_to_link_tables E cdb cal_bid h).
Proof.
  unfold _ins_book_to_link_tables.
  pose proof spares_find_lookup_rows. pose proof spares_ins_lookup_row. spare.
Qed.

Lemma spares_del_book_from_link_tables : spares h (_del_book_from_link_tables h).
Proof. unfold _del_book_from_link_tables. spare. Qed.

Lemma spares_ins_book_to_reviews cdb cal_bid :
  spares h (_ins_book_to_reviews E cdb cal_bid h).
Proof. unfold _ins_book_to_reviews. spare. Qed.

Lemma spares_get_thumb s d : spares h (_get_thumb E s d).
Proof.
  intros c _. unfold _get_thumb. destruct (cover_file E s d); apply same_refl.
Qed.

Lemma spares_update s cdb row : spares h (update E s cdb row h).
Proof.
  unfold update, _del_book_from_reviews.
  pose proof spares_get_thumb. pose proof spares_ins_book_to_link_tables.
  pose proof spares_del_book_from_link_tables. pose proof spares_ins_book_to_reviews.
  spare.
Qed.

End Frame.

(* --------------------------------------------------------------------- *)
(** ** A concrete setting *)

(** The scenario of the specification: the book with hash [H1] is there. *)
Example update_dune :
  let c := snd (KyBookDB.update env0 self0 calibre0 (Kyb.DictRow dune) "H1" conn_h1) in
  fst (KyBookDB.update env0 self0 calibre0 (Kyb.DictRow dune) "H1" conn_h1) = Ok tt
  /\ Kyb.metadata c
     = [Kyb.Metadata 7 "Dune" "1965-08-01" EmptyString (Some "Arrakis.") None 0%float None]
  /\ map Kyb.mid (Kyb.lookups c subjects) = [["sci-fi"]; ["classic"]]
  /\ Kyb.links c subjects
     = [Kyb.Link (Some 7) (Some 1) None; Kyb.Link (Some 7) (Some 2) None]
  /\ map Kyb.mid (Kyb.lookups c sequences) = [["Dune"]]
  /\ Kyb.links c sequences = [Kyb.Link (Some 7) (Some 1) (Some (Sql.Int 1))]
  /\ map Kyb.mid (Kyb.lookups c ebookids) = [["10"; "9780441013593"]]
  /\ map Kyb.mid (Kyb.lookups c authors) = [["Herbert, Frank"; "Frank Herbert"]].
Proof. vm_compute. repeat split. Qed.

(* --------------------------------------------------------------------- *)
(** ** [update] when no book carries the hash *)

(** C1, as stated, fails: in a database without any book, [update] with the
    record of Dune adds a row to [authors] (and to the other lookup
    tables). *)
Lemma update_unmatched_fills_lookups :
  no_book "H1" conn_empty
  /\ Kyb.lookups (snd (KyBookDB.update env0 self0 calibre0 (Kyb.DictRow dune) "H1"
                        conn_empty)) authors
     = [Kyb.Lookup 1 ["Herbert, Frank"; "Frank Herbert"] None "580000000.0"]
  /\ Kyb.lookups (snd (KyBookDB.update env0 self0 calibre0 (Kyb.DictRow dune) "H1"
                        conn_empty)) authors
     <> Kyb.lookups conn_empty authors.
Proof.
  split; [constructor|]. split; [vm_compute; reflexivity|].
  vm_compute. discriminate.
Qed.

(* --------------------------------------------------------------------- *)
(** ** [clean_up] *)

Lemma filter_twice {A} (f : A -> bool) (l : list A) :
  List.filter f (List.filter f l) = List.filter f l.
Proof.
  induction l as [|x l IH]; simpl; [reflexivity|].
  destruct (f x) eqn:Hx; simpl; [rewrite Hx, IH|]; auto.
Qed.

(** What [clean_up] does: it returns, keeps in each lookup table the rows
    whose key is not [NOT IN] the link table, and changes nothing else. *)
Lemma clean_up_run (c : Kyb.conn) :
  fst (KyBookDB.clean_up c) = Ok tt
  /\ Kyb.books (snd (KyBookDB.clean_up c)) = Kyb.books c
  /\ Kyb.metadata (snd (KyBookDB.clean_up c)) = Kyb.metadata c
  /\ Kyb.reviews (snd (KyBookDB.clean_up c)) = Kyb.reviews c
  /\ Kyb.links (snd (KyBookDB.clean_up c)) = Kyb.links c
  /\ forall t,
       Kyb.lookups (snd (KyBookDB.clean_up c)) t
       = List.filter
           (fun r => negb (Sql.NOT_IN (Kyb.xid r) (map Kyb.l_xid (Kyb.links c t))))
           (Kyb.lookups c t).
Proof.
  repeat split. intros t. destruct t; reflexivity.
Qed.

(** C6: a second [clean_up] leaves every table as the first left it, and
    so deletes no row. *)
Theorem clean_up_twice (c : Kyb.conn) :
  let c1 := snd (KyBookDB.clean_up c) in
  let c2 := snd (KyBookDB.clean_up c1) in
  fst (KyBookDB.clean_up c1) = Ok tt
  /\ Kyb.books c2 = Kyb.books c1
  /\ Kyb.metadata c2 = Kyb.metadata c1
  /\ Kyb.reviews c2 = Kyb.reviews c1
  /\ (forall t, Kyb.links c2 t = Kyb.links c1 t)
  /\ (forall t, Kyb.lookups c2 t = Kyb.lookups c1 t)
  /\ (forall t, length (Kyb.lookups c2 t) = length (Kyb.lookups c1 t)).
Proof.
  intros c1 c2.
  assert (Hlook : forall t, Kyb.lookups c2 t = Kyb.lookups c1 t).
  { intros t. subst c2.
    destruct (clean_up_run c1) as (_ & _ & _ & _ & _ & ->).
    subst c1.
    destruct (clean_up_run c) as (_ & _ & _ & _ & -> & ->).
    apply filter_twice. }
  repeat split; auto. intros t. now rewrite Hlook.
Qed.

(* --------------------------------------------------------------------- *)
(** ** The log of a statement *)

Lemma append_cons (c : ascii) (s t : string) :
  String c s +:+ t = String c (s +:+ t).
Proof. reflexivity. Qed.

Lemma char_in_append (c : ascii) (s t : string) :
  Py.char_in c (s +:+ t) = Py.char_in c s || Py.char_in c t.
Proof.
  induction s as [|d s IH]; [reflexivity|].
  rewrite append_cons. cbn [Py.char_in]. now rewrite IH, orb_assoc.
Qed.

Section LogSql.

Lemma tokens_plain (s : string) :
  backslash_free s -> Re.tokens s = Ok (map Re.Char (list_ascii_of_string s)).
Proof.
  unfold backslash_free. induction s as [|c s IH]; [reflexivity|].
  cbn [Py.char_in]. intros [Hc Hs]%orb_false_iff.
  cbn [Re.tokens list_ascii_of_string map]. rewrite Ascii.eqb_sym in Hc.
  now rewrite Hc, (IH Hs).
Qed.

Lemma run_text_plain (l : list ascii) : Re.run Re.Text (map Re.Char l) = Ok [].
Proof. induction l as [|c l IH]; [reflexivity|]. cbn [map Re.run Re.step Re.start]. now rewrite IH. Qed.

Lemma doubled_plain (s : string) : backslash_free s -> backslash_free (Database.doubled s).
Proof.
  unfold backslash_free. induction s as [|c s IH]; [reflexivity|].
  cbn [Py.char_in Database.doubled]. intros [Hc Hs]%orb_false_iff.
  destruct (c =? Py.squote)%char; cbn [Py.char_in]; now rewrite ?Hc, (IH Hs).
Qed.

Lemma quote_plain (v : option string) : plain_value v -> backslash_free (Database.quote v).
Proof.
  destruct v as [s|]; [|reflexivity]. intros Hs. unfold backslash_free, Database.quote.
  cbn [Py.char_in]. rewrite char_in_append, (doubled_plain s Hs). reflexivity.
Qed.

(** A template made of [\g<1>] and text without backslash is expanded. *)
Lemma sub_raises_plain (q : string) :
  backslash_free q -> Re.sub_raises 1 ("\g<1>" +:+ q) = None.
Proof.
  intros Hq. unfold Re.sub_raises, Re.parse_template.
  change ("\g<1>" +:+ q)
    with (String "\" (String "g" (String "<" (String "1" (String ">" q))))).
  assert (Htokens : Re.tokens (String "\" (String "g" (String "<" (String "1" (String ">" q)))))
                    = Ok (Re.Escape "g" :: Re.Char "<" :: Re.Char "1" :: Re.Char ">"
                            :: map Re.Char (list_ascii_of_string q))).
  { cbn [Re.tokens]. change ("\" =? "\")%char with true.
    change ("<" =? "\")%char with false. change ("1" =? "\")%char with false.
    change (">" =? "\")%char with false. cbv iota. now rewrite (tokens_plain q Hq). }
  rewrite Htokens.
  assert (Hrun : forall rest,
             Re.run Re.Text (Re.Escape "g" :: Re.Char "<" :: Re.Char "1" :: Re.Char ">"
                               :: rest)
             = match Re.run Re.Text rest with
               | Ok more => Ok (1 :: more)
               | Raise e => Raise e
               end).
  { intros rest. cbn [Re.run].
    change (Re.step Re.Text (Re.Escape "g")) with (Ok (Re.AfterG, @nil Z)). cbv iota beta.
    change (Re.step Re.AfterG (Re.Char "<")) with (Ok (Re.Name EmptyString, @nil Z)).
    cbv iota beta.
    change (Re.step (Re.Name EmptyString) (Re.Char "1")) with (Ok (Re.Name "1", @nil Z)).
    cbv iota beta.
    change (Re.step (Re.Name "1") (Re.Char ">")) with (Ok (Re.Text, [1])).
    cbv iota beta.
    now destruct (Re.run Re.Text rest). }
  now rewrite Hrun, run_text_plain.
Qed.

Lemma log_sql_plain (values : list (option string)) :
  Forall plain_value values -> Database.log_sql values = Ok tt.
Proof.
  induction 1 as [|v values Hv _ IH]; [reflexivity|].
  cbn [Database.log_sql]. now rewrite (sub_raises_plain _ (quote_plain v Hv)).
Qed.

End LogSql.

(* --------------------------------------------------------------------- *)
(** ** Identifiers *)

(** The code of each scheme. *)
Lemma scheme_code_table (scheme : string) :
  KyBookDB.scheme_code (Some scheme)
  = if String.eqb scheme "isbn" then "10"
    else if String.eqb scheme "amazon" || String.eqb scheme "asin" then "15"
    else if String.eqb scheme "oclc" then "12"
    else "0".
Proof.
  unfold KyBookDB.scheme_code, EBOOK_SCHEMES; simpl.
  destruct (String.eqb_spec scheme "isbn") as [->|Hisbn]; [reflexivity|].
  rewrite lookup_insert_ne by congruence.
  destruct (String.eqb_spec scheme "amazon") as [->|Hamazon]; [reflexivity|].
  rewrite lookup_insert_ne by congruence.
  destruct (String.eqb_spec scheme "asin") as [->|Hasin]; [reflexivity|].
  rewrite lookup_insert_ne by congruence.
  destruct (String.eqb_spec scheme "oclc") as [->|Hoclc]; [reflexivity|].
  rewrite lookup_insert_ne by congruence.
  reflexivity.
Qed.

(** The code of a scheme is not empty and holds no backslash. *)
Lemma scheme_code_plain (scheme : option string) :
  Py.truthy (KyBookDB.scheme_code scheme) = true
  /\ backslash_free (KyBookDB.scheme_code scheme).
Proof.
  destruct scheme as [s|]; [|now split].
  rewrite scheme_code_table.
  now destruct (String.eqb s "isbn"), (String.eqb s "amazon" || String.eqb s "asin"),
               (String.eqb s "oclc").
Qed.

Section WrittenRows.
Import Eff Kyb KyBookDB.
Variable E : env.

Lemma In_insert_by_key (new r : lookup_row) (rows : list lookup_row) :
  In r (insert_by_key new rows) <-> r = new \/ In r rows.
Proof.
  induction rows as [|x rows IH]; cbn [insert_by_key].
  - simpl. intuition congruence.
  - destruct (xid new <? xid x); simpl in *; rewrite ?IH; intuition congruence.
Qed.

(** The rows of a lookup table after [fill_lookups_sql]: rows that were
    there, and at most one more, with the values of the statement. *)
Lemma fill_lookups_rows t name midcols ts c r :
  In r (lookups (snd (fill_lookups_sql E t name midcols ts c)) t) ->
  In r (lookups c t) \/ (mid r = midcols /\ timestamp r = ts).
Proof.
  unfold fill_lookups_sql. destruct (Database.log_sql _); [|now left].
  cbn [snd lookups set_lookup]. destruct (decide (t = t)) as [_|]; [|congruence].
  intros [->|Hin%filter_In]%In_insert_by_key; [now right|now left].
Qed.

(** When the log takes the values, the row is written. *)
Lemma fill_lookups_writes t name midcols ts c :
  Forall plain_value (map Some (name :: midcols)) ->
  exists key,
    fst (fill_lookups_sql E t name midcols ts c) = Ok tt
    /\ In (Lookup key midcols None ts)
          (lookups (snd (fill_lookups_sql E t name midcols ts c)) t).
Proof.
  intros Hplain. unfold fill_lookups_sql. rewrite (log_sql_plain _ Hplain).
  eexists. split; [reflexivity|].
  cbn [snd lookups set_lookup]. destruct (decide (t = t)) as [_|]; [|congruence].
  apply In_insert_by_key. now left.
Qed.

(** The link statement writes no lookup table. *)
Lemma ins_books_links_lookups t seq h name c :
  lookups (snd (ins_books_links_sql E t seq h name c)) = lookups c.
Proof.
  unfold ins_books_links_sql. destruct (Database.log_sql _); [|reflexivity].
  now destruct seq as [[n|]|].
Qed.

End WrittenRows.

(** C8: the rows that writing an identifier leaves in [ebookids] are the
    rows that were there and rows whose columns [scheme, value] are the code
    of the scheme and the value; the code is 10 for isbn, 15 for amazon and
    asin, 12 for oclc and 0 for any other scheme.  Such a row is written for
    every identifier whose value is not empty and holds no backslash. *)
Theorem ebookids_scheme_code (E : Kyb.env) (seqnumber : option Sql.number)
    (md5 scheme value : string) (c : Kyb.conn) :
  let c' := snd (KyBookDB.ins_lookup_row E ebookids seqnumber md5
                   (Pair (Some scheme) (Some value)) c) in
  (forall r, In r (Kyb.lookups c' ebookids) ->
             In r (Kyb.lookups c ebookids)
             \/ Kyb.mid r = [KyBookDB.scheme_code (Some scheme); value])
  /\ (Py.truthy value = true -> backslash_free value ->
      exists key timestamp,
        In (Kyb.Lookup key [KyBookDB.scheme_code (Some scheme); value] None timestamp)
           (Kyb.lookups c' ebookids))
  /\ KyBookDB.scheme_code (Some scheme)
     = (if String.eqb scheme "isbn" then "10"
        else if String.eqb scheme "amazon" || String.eqb scheme "asin" then "15"
        else if String.eqb scheme "oclc" then "12"
        else "0").
Proof.
  intros c'. split; [|split; [|apply scheme_code_table]].
  - intros r. subst c'. unfold KyBookDB.ins_lookup_row, Eff.bind, KyBookDB.now_timestamp.
    cbn [Py.truthy_opt default].
    destruct (negb (Py.truthy value) || negb (Py.truthy (KyBookDB.scheme_code (Some scheme))));
      [now left|].
    match goal with
    | |- context [KyBookDB.fill_lookups_sql E ebookids ?n ?m ?ts ?c1] =>
        pose proof (fill_lookups_rows E ebookids n m ts c1 r) as Hfill;
        destruct (KyBookDB.fill_lookups_sql E ebookids n m ts c1) as [[[]|e] c2]
    end; cbn [fst snd] in *.
    + rewrite ins_books_links_lookups. intros [Hin|[Hmid _]]%Hfill; [now left|now right].
    + intros [Hin|[Hmid _]]%Hfill; [now left|now right].
  - intros Hvalue Hplain. subst c'.
    unfold KyBookDB.ins_lookup_row, Eff.bind, KyBookDB.now_timestamp.
    cbn [Py.truthy_opt default]. rewrite Hvalue.
    destruct (scheme_code_plain (Some scheme)) as [Hcode Hcodeplain]. rewrite Hcode.
    cbn [negb orb].
    match goal with
    | |- context [KyBookDB.fill_lookups_sql E ebookids ?n ?m ?ts ?c1] =>
        destruct (fill_lookups_writes E ebookids n m ts c1) as (key & Hok & Hin);
          [repeat constructor; assumption|];
        destruct (KyBookDB.fill_lookups_sql E ebookids n m ts c1) as [[[]|e] c2];
          [|discriminate]
    end.
    cbn [fst snd] in *. rewrite ins_books_links_lookups. eauto.
Qed.

Lemma ebookids_scheme_code_witness :
  let c' := snd (KyBookDB.ins_lookup_row env0 ebookids None "H1"
                   (Pair (Some "isbn") (Some "9780441013593")) conn_h1) in
  (exists key timestamp,
      In (Kyb.Lookup key [KyBookDB.scheme_code (Some "isbn"); "9780441013593"]
            None timestamp)
         (Kyb.lookups c' ebookids))
  /\ KyBookDB.scheme_code (Some "isbn") = "10".
Proof.
  destruct (ebookids_scheme_code env0 None "H1" "isbn" "9780441013593" conn_h1)
    as (_ & Hwritten & Hcode).
  split; [apply Hwritten; reflexivity|exact Hcode].
Defined.

(* ===================================================================== *)
(** * Further properties *)
(* ===================================================================== *)

(* --------------------------------------------------------------------- *)
(** ** Markup *)

Section MarkupMore.
Import Markup.

Lemma list_ascii_of_append (s t : string) :
  list_ascii_of_string (s +:+ t) = list_ascii_of_string s ++ list_ascii_of_string t.
Proof.
  induction s as [|c s IH]; [reflexivity|].
  rewrite append_cons. simpl. now rewrite IH.
Qed.

Lemma append_empty_r (s : string) : s +:+ EmptyString = s.
Proof. induction s as [|c s IH]; [reflexivity|]. now rewrite append_cons, IH. Qed.

Lemma append_snoc_cons (s : string) (c : ascii) (t : string) :
  (s +:+ String c EmptyString) +:+ t = s +:+ String c t.
Proof. induction s as [|d s IH]; [reflexivity|]. now rewrite !append_cons, IH. Qed.

(** Outside a tag, text without angle brackets is copied to the output. *)
Lemma scan_plain (s : string) (out0 : string) :
  Py.char_in "<" s = false -> Py.char_in ">" s = false ->
  fold_left scan_char (list_ascii_of_string s) (Scanner false false out0)
  = Scanner false false (out0 +:+ s).
Proof.
  revert out0. induction s as [|c s IH]; intros out0 Hlt Hgt;
    cbn [list_ascii_of_string fold_left].
  - now rewrite append_empty_r.
  - cbn [Py.char_in] in Hlt, Hgt. apply orb_false_iff in Hlt as [Hc1 Hlt].
    apply orb_false_iff in Hgt as [Hc2 Hgt].
    rewrite Ascii.eqb_sym in Hc1. rewrite Ascii.eqb_sym in Hc2.
    unfold scan_char at 2. cbn [quote tag out negb andb]. rewrite Hc1, Hc2.
    cbn [negb andb]. rewrite andb_false_r.
    rewrite IH by assumption. now rewrite append_snoc_cons.
Qed.

(** Inside a tag that is never closed nothing more is emitted. *)
Lemma scan_unclosed (t : string) (q : bool) (out0 : string) :
  Py.char_in ">" t = false ->
  out (fold_left scan_char (list_ascii_of_string t) (Scanner true q out0)) = out0.
Proof.
  revert q. induction t as [|c t IH]; intros q Hgt;
    cbn [list_ascii_of_string fold_left]; [reflexivity|].
  cbn [Py.char_in] in Hgt. apply orb_false_iff in Hgt as [Hc Hgt].
  rewrite Ascii.eqb_sym in Hc.
  unfold scan_char at 2. cbn [quote tag out]. rewrite Hc. cbn [andb negb].
  destruct ((c =? "<")%char && negb q); [now apply IH|].
  rewrite andb_true_r.
  destruct ((c =? Py.dquote)%char || (c =? Py.squote)%char); now apply IH.
Qed.

End MarkupMore.

(** X1: a text that holds neither [<] nor [>] comes out of
    [_remove_html_markup] unchanged. *)
Theorem remove_html_markup_plain_text (s : string) :
  Py.char_in "<" s = false -> Py.char_in ">" s = false ->
  Markup._remove_html_markup (Some s) = s.
Proof.
  intros Hlt Hgt. unfold Markup._remove_html_markup.
  destruct s as [|c s]; [reflexivity|]. cbn [Py.truthy negb].
  unfold Markup.start. now rewrite (scan_plain (String c s) EmptyString Hlt Hgt).
Qed.

Lemma remove_html_markup_plain_text_witness :
  Markup._remove_html_markup (Some "Dune, by Frank Herbert") = "Dune, by Frank Herbert".
Proof. apply (remove_html_markup_plain_text "Dune, by Frank Herbert"); reflexivity. Defined.

(** X2: stripping twice gives what stripping once gives. *)
Theorem remove_html_markup_idempotent (string : option String.string) :
  Markup._remove_html_markup (Some (Markup._remove_html_markup string))
  = Markup._remove_html_markup string.
Proof.
  assert (H : Py.char_in "<" (Markup._remove_html_markup string) = false
              /\ Py.char_in ">" (Markup._remove_html_markup string) = false).
  { unfold Markup._remove_html_markup.
    destruct string as [s|]; [|now split].
    destruct (negb (Py.truthy s)); [now split|].
    apply (scan_fold_ok (list_ascii_of_string s) Markup.start).
    repeat split; auto; discriminate. }
  destruct H as [Hlt Hgt].
  unfold Markup._remove_html_markup at 1.
  destruct (Markup._remove_html_markup string) as [|c s] eqn:E; [reflexivity|].
  cbn [Py.truthy negb]. unfold Markup.start.
  now rewrite (scan_plain (String c s) EmptyString Hlt Hgt).
Qed.

(** X3: a tag that is opened and never closed swallows the rest of the
    text: after bracket-free text [s], a [<] followed by any text [t]
    without [>] leaves just [s]. *)
Theorem remove_html_markup_unclosed_tag (s t : string) :
  Py.char_in "<" s = false -> Py.char_in ">" s = false ->
  Py.char_in ">" t = false ->
  Markup._remove_html_markup (Some (s +:+ String "<" t)) = s.
Proof.
  intros Hlt Hgt Ht. unfold Markup._remove_html_markup.
  assert (Htruthy : Py.truthy (s +:+ String "<" t) = true) by now destruct s.
  rewrite Htruthy. cbn [negb].
  rewrite list_ascii_of_append, fold_left_app. unfold Markup.start.
  rewrite (scan_plain s EmptyString Hlt Hgt). simpl.
  unfold Markup.scan_char at 2. simpl.
  now rewrite scan_unclosed.
Qed.

Lemma remove_html_markup_unclosed_tag_witness :
  Markup._remove_html_markup (Some ("Arrakis " +:+ String "<" "b and the spice")) = "Arrakis ".
Proof.
  apply (remove_html_markup_unclosed_tag "Arrakis " "b and the spice"); reflexivity.
Defined.

(* --------------------------------------------------------------------- *)
(** ** Thumbnails *)

Lemma floor_ratio_below_two (w h : Z) :
  0 < w -> 0 <= h < 2 * w -> h / w = 0 \/ h / w = 1.
Proof.
  intros Hw Hh.
  assert (0 <= h / w) by (apply Z.div_pos; lia).
  assert (h / w < 2) by (apply Z.div_lt_upper_bound; lia).
  lia.
Qed.

(** X4: an image less than twice as high as wide is never constrained by
    height: the test of [_reduce_image_size] fails for it, and whenever the
    reduction returns an image, that image is [thumb_width] wide. *)
Theorem reduce_image_size_by_width (w h thumb_height thumb_width : Z) :
  0 < w -> 0 <= h < 2 * w ->
  Thumb.taller_than_box w h = false
  /\ forall img,
       Thumb._reduce_image_size (Thumb.Image w h) thumb_height thumb_width = Ok img ->
       Thumb.width img = thumb_width.
Proof.
  intros Hw Hh.
  assert (Htest : Thumb.taller_than_box w h = false).
  { unfold Thumb.taller_than_box.
    destruct (floor_ratio_below_two w h Hw Hh) as [-> | ->]; vm_compute; reflexivity. }
  split; [exact Htest|].
  intros img. unfold Thumb._reduce_image_size. cbn [Thumb.width Thumb.height].
  rewrite Htest.
  destruct (w =? 0); [discriminate|].
  destruct (Thumb.float_div _ _); [|discriminate].
  destruct (Thumb.int_of_float _); [|discriminate].
  now intros [= <-].
Qed.

Lemma reduce_image_size_by_width_witness :
  Thumb.taller_than_box 600 900 = false
  /\ forall img,
       Thumb._reduce_image_size (Thumb.Image 600 900) THUMB_HEIGHT THUMB_WIDTH = Ok img ->
       Thumb.width img = THUMB_WIDTH.
Proof. apply (reduce_image_size_by_width 600 900 THUMB_HEIGHT THUMB_WIDTH); lia. Defined.

Lemma small_width_not_zero (w : Z) :
  0 < w <= THUMB_WIDTH ->
  (Thumb.float_of_int w * 1.0 =? 0)%float = false.
Proof.
  intros Hw.
  assert (Hall : forallb (fun n => negb (Thumb.float_of_int (Z.of_nat n) * 1.0 =? 0)%float)
                         (seq 1 74) = true) by (vm_compute; reflexivity).
  rewrite forallb_forall in Hall.
  specialize (Hall (Z.to_nat w)).
  rewrite Z2Nat.id in Hall by lia.
  apply negb_true_iff, Hall, in_seq. unfold THUMB_WIDTH in Hw. lia.
Qed.

(** X5: a cover that already fits the box of 74 x 105 is not resized: the
    thumbnail is the cover itself and the aspect ratio is its height over
    its width. *)
Theorem thumb_of_cover_within_box (w h : Z) :
  0 < w <= THUMB_WIDTH -> 0 <= h <= THUMB_HEIGHT ->
  Thumb.thumb_of_cover (Some (Thumb.Image w h))
  = Ok (Thumb.Thumbnail (Some (Thumb.Image w h))
          (Thumb.float_of_int h / (Thumb.float_of_int w * 1.0))%float).
Proof.
  intros Hw Hh. unfold Thumb.thumb_of_cover. cbn [Thumb.width Thumb.height].
  replace (THUMB_WIDTH <? w) with false by (symmetry; apply Z.ltb_ge; lia).
  replace (THUMB_HEIGHT <? h) with false by (symmetry; apply Z.ltb_ge; lia).
  cbn [orb Thumb.width Thumb.height]. unfold Thumb.float_div.
  now rewrite small_width_not_zero.
Qed.

Lemma thumb_of_cover_within_box_witness :
  Thumb.thumb_of_cover (Some (Thumb.Image 60 90))
  = Ok (Thumb.Thumbnail (Some (Thumb.Image 60 90))
          (Thumb.float_of_int 90 / (Thumb.float_of_int 60 * 1.0))%float).
Proof. apply (thumb_of_cover_within_box 60 90); unfold THUMB_WIDTH, THUMB_HEIGHT; lia. Defined.

(* --------------------------------------------------------------------- *)
(** ** Records supplied by the plugin *)

Lemma reshape_twice (d : Datum.t) :
  CalibreDB.reshape (CalibreDB.reshape d) = CalibreDB.reshape d.
Proof. reflexivity. Qed.

(** X6: [get_metadata] is called once in each of the two passes, on the same
    records; the second call leaves them as the first did. *)
Theorem get_metadata_twice (_cal_data : list Datum.t) :
  CalibreDB.get_metadata (CalibreDB.get_metadata _cal_data)
  = CalibreDB.get_metadata _cal_data.
Proof.
  unfold CalibreDB.get_metadata. rewrite map_map.
  apply map_ext. intros d. apply reshape_twice.
Qed.

(* --------------------------------------------------------------------- *)
(** ** KyBook 3's database: what [update] never touches *)

Section Keeps.
Context {S : Type} (R : S -> S -> Prop) `{!Reflexive R} `{!Transitive R}.

Lemma keeps_ret {A} (a : A) : keeps R (@Eff.ret S A a).
Proof. intros s. simpl. reflexivity. Qed.

Lemma keeps_throw {A} (e : exn) : keeps R (@Eff.throw S A e).
Proof. intros s. simpl. reflexivity. Qed.

Lemma keeps_bind {A B} (m : Eff.M S A) (k : A -> Eff.M S B) :
  keeps R m -> (forall a, keeps R (k a)) -> keeps R (Eff.bind m k).
Proof.
  intros Hm Hk s. unfold Eff.bind. specialize (Hm s).
  destruct (m s) as [[a|e] s1]; simpl in *; [|assumption].
  etransitivity; [eassumption|]. apply Hk.
Qed.

Lemma keeps_for_each {A V} (body : V -> A -> Eff.M S V) (l : list A) (v : V) :
  (forall v x, keeps R (body v x)) -> keeps R (Eff.for_each body l v).
Proof.
  intros Hbody. revert v. induction l as [|x l IH]; intros v; simpl.
  - apply keeps_ret.
  - apply keeps_bind; auto.
Qed.

End Keeps.

#[local] Instance same_books_metadata_refl : Reflexive same_books_metadata.
Proof. intros c. now split. Qed.

#[local] Instance same_books_metadata_trans : Transitive same_books_metadata.
Proof. intros c1 c2 c3 [Hb Hm] [Hb' Hm']. split; congruence. Qed.

#[local] Instance same_tables_refl : Reflexive same_tables.
Proof. intros c. now repeat split. Qed.

#[local] Instance same_tables_trans : Transitive same_tables.
Proof.
  intros c1 c2 c3 (Hb & Hm & Hr & Hlo & Hli) (Hb' & Hm' & Hr' & Hlo' & Hli').
  repeat split; intros; congruence.
Qed.

Create HintDb keeps.

(** Goes through binds, loops and case distinctions down to the
    statements, for any relation that is kept. *)
Ltac keep :=
  repeat first
    [ solve [auto with keeps]
    | apply keeps_ret | apply keeps_throw
    | apply keeps_bind | apply keeps_for_each
    | progress cbv beta zeta
    | match goal with
      | |- Reflexive _ => apply _
      | |- Transitive _ => apply _
      | |- forall _, _ => intro
      | |- keeps _ (match ?x with _ => _ end) => destruct x
      | |- keeps _ (if ?b then _ else _) => destruct b
      | |- keeps _ (let (_, _) := ?x in _) => destruct x
      end ].

Section BooksMetadata.
Import Eff Kyb KyBookDB.
Variable E : env.

Abbreviation kept := (keeps same_books_metadata).

Lemma kept_now_timestamp : kept (now_timestamp E).
Proof. intros c. now split. Qed.

Lemma kept_del_books_links_sql t h : kept (del_books_links_sql t h).
Proof. intros c. now split. Qed.

Lemma kept_del_reviews_sql h : kept (del_reviews_sql h).
Proof. intros c. now split. Qed.

Lemma kept_ins_review_sql h r ts : kept (ins_review_sql E h r ts).
Proof.
  intros c. unfold ins_review_sql. destruct (reviews_replace E _ _); now split.
Qed.

Lemma kept_fill_lookups_sql t name midcols ts : kept (fill_lookups_sql E t name midcols ts).
Proof. intros c. unfold fill_lookups_sql. destruct (Database.log_sql _); now split. Qed.

Lemma kept_ins_books_links_sql t seq h name : kept (ins_books_links_sql E t seq h name).
Proof.
  intros c. unfold ins_books_links_sql.
  destruct (Database.log_sql _); [|now split]. destruct seq as [[n|]|]; now split.
Qed.

Lemma kept_get_thumb s d : kept (_get_thumb E s d).
Proof. intros c. unfold _get_thumb. destruct (cover_file E s d); now split. Qed.

#[local] Hint Resolve kept_now_timestamp kept_del_books_links_sql kept_del_reviews_sql
  kept_ins_review_sql kept_fill_lookups_sql kept_ins_books_links_sql kept_get_thumb
  : keeps.

Lemma kept_seqnumber_of d : kept (seqnumber_of d).
Proof. unfold seqnumber_of. keep. Qed.

Lemma kept_find_lookup_rows cdb cal_bid t v : kept (find_lookup_rows cdb cal_bid t v).
Proof. unfold find_lookup_rows. pose proof kept_seqnumber_of. keep. Qed.

Lemma kept_ins_lookup_row t seq h lookup_row : kept (ins_lookup_row E t seq h lookup_row).
Proof. unfold ins_lookup_row. keep. Qed.

Lemma kept_ins_book_to_link_tables cdb cal_bid h :
  kept (_ins_book_to_link_tables E cdb cal_bid h).
Proof.
  unfold _ins_book_to_link_tables.
  pose proof kept_find_lookup_rows. pose proof kept_ins_lookup_row. keep.
Qed.

Lemma kept_del_book_from_link_tables h : kept (_del_book_from_link_tables h).
Proof.
  unfold _del_book_from_link_tables. apply keeps_for_each; try apply _.
  intros _ t. apply kept_del_books_links_sql.
Qed.

Lemma kept_ins_book_to_reviews cdb cal_bid h : kept (_ins_book_to_reviews E cdb cal_bid h).
Proof. unfold _ins_book_to_reviews. keep. Qed.

Lemma kept_del_book_from_reviews h : kept (_del_book_from_reviews h).
Proof. apply kept_del_reviews_sql. Qed.

End BooksMetadata.

Section OtherMetadata.
Import Eff Kyb KyBookDB.
Variable E : env.
Variable h : string.

Lemma Forall2_diagonal {A} (P : A -> A -> Prop) (l : list A) :
  (forall x, P x x) -> Forall2 P l l.
Proof. intros HP. induction l; constructor; auto. Qed.

#[local] Instance same_books_other_metadata_refl :
  Reflexive (same_books_other_metadata h).
Proof.
  intros c. split; [reflexivity|]. apply Forall2_diagonal. now split.
Qed.

Lemma bid_of_md5_books c c' : books c' = books c -> bid_of_md5 c' h = bid_of_md5 c h.
Proof. unfold bid_of_md5. now intros ->. Qed.

#[local] Instance same_books_other_metadata_trans :
  Transitive (same_books_other_metadata h).
Proof.
  intros c1 c2 c3 [Hb H12] [Hb' H23]. split; [congruence|].
  rewrite (bid_of_md5_books c1 c2 Hb) in H23.
  revert H23. generalize (metadata c3).
  induction H12 as [|m m' l l' [Hid Hm] _ IH]; intros l3 H23;
    inversion H23 as [|? m'' ? l'' [Hid' Hm'] Hrest]; subst; constructor.
  - split; [congruence|]. intros Hne. rewrite Hm', Hm; auto. now rewrite Hid.
  - now apply IH.
Qed.

Lemma keeps_more {A} (m : M A) :
  keeps same_books_metadata m -> keeps (same_books_other_metadata h) m.
Proof.
  intros Hm c. destruct (Hm c) as [Hb Hmeta]. split; [exact Hb|].
  rewrite Hmeta. apply Forall2_diagonal. now split.
Qed.

Lemma kept_update_metadata_sql t p l a th ch :
  keeps (same_books_other_metadata h) (update_metadata_sql t p l a th ch h).
Proof.
  intros c. unfold update_metadata_sql.
  destruct (Database.log_sql _); [|reflexivity].
  split; [reflexivity|]. simpl.
  induction (metadata c) as [|m rows IH]; simpl; constructor; auto.
  destruct (bid_of_md5 c h) as [b|]; simpl; [|auto].
  destruct (Z.eqb_spec (m_bid m) b); simpl; split; auto; congruence.
Qed.

Lemma kept_update s cdb row :
  keeps (same_books_other_metadata h) (update E s cdb row h).
Proof.
  unfold update.
  pose proof (fun d => keeps_more (_get_thumb E s d) (kept_get_thumb E s d)).
  pose proof (keeps_more _ (kept_del_book_from_link_tables h)).
  pose proof (keeps_more _ (kept_del_book_from_reviews h)).
  pose proof (fun b => keeps_more _ (kept_ins_book_to_link_tables E cdb b h)).
  pose proof (fun b => keeps_more _ (kept_ins_book_to_reviews E cdb b h)).
  pose proof kept_update_metadata_sql.
  keep.
Qed.

End OtherMetadata.

(** X7: whatever the record and the hash, and whether it returns or raises,
    [update] leaves [books] as it was, adds or removes no row of [metadata],
    and changes no row of [metadata] but those of the book that carries the
    hash. *)
Theorem update_books_and_other_metadata (E : Kyb.env) (s : Kyb.self) (cdb : Kyb.cal_db)
    (row : Kyb.source_row) (md5 : string) (c : Kyb.conn) :
  let c' := snd (KyBookDB.update E s cdb row md5 c) in
  Kyb.books c' = Kyb.books c
  /\ Forall2 (fun m m' =>
                Kyb.m_bid m' = Kyb.m_bid m
                /\ (Kyb.bid_of_md5 c md5 <> Some (Kyb.m_bid m) -> m' = m))
             (Kyb.metadata c) (Kyb.metadata c').
Proof. exact (kept_update E md5 s cdb row c). Qed.

(* --------------------------------------------------------------------- *)
(** ** KyBook 3's database: link tables *)

Lemma eq_int_some (x : option Z) (b : Z) : Sql.eq_int x (Some b) = true <-> x = Some b.
Proof.
  destruct x as [a|]; simpl; [|split; discriminate].
  rewrite Z.eqb_eq. split; congruence.
Qed.

Lemma del_book_from_link_tables_run (h : string) (c : Kyb.conn) :
  fst (KyBookDB._del_book_from_link_tables h c) = Ok tt
  /\ same_books_metadata c (snd (KyBookDB._del_book_from_link_tables h c))
  /\ Kyb.reviews (snd (KyBookDB._del_book_from_link_tables h c)) = Kyb.reviews c
  /\ Kyb.lookups (snd (KyBookDB._del_book_from_link_tables h c)) = Kyb.lookups c
  /\ forall t,
       Kyb.links (snd (KyBookDB._del_book_from_link_tables h c)) t
       = List.filter (fun l => negb (Sql.eq_int (Kyb.l_bid l) (Kyb.bid_of_md5 c h)))
                     (Kyb.links c t).
Proof. repeat split. intros t. destruct t; reflexivity. Qed.

(** X8: for the book that carries the hash, [_del_book_from_link_tables]
    removes from every link table the rows of that book and no other row. *)
Theorem del_book_from_link_tables_exact (h : string) (c : Kyb.conn) (b : Z) :
  Kyb.bid_of_md5 c h = Some b ->
  fst (KyBookDB._del_book_from_link_tables h c) = Ok tt
  /\ forall t l,
       In l (Kyb.links (snd (KyBookDB._del_book_from_link_tables h c)) t)
       <-> In l (Kyb.links c t) /\ Kyb.l_bid l <> Some b.
Proof.
  intros Hb.
  destruct (del_book_from_link_tables_run h c) as (Hok & _ & _ & _ & Hlinks).
  split; [exact Hok|]. intros t l. rewrite Hlinks, filter_In, Hb, negb_true_iff.
  rewrite <- not_true_iff_false, eq_int_some. reflexivity.
Qed.

Lemma del_book_from_link_tables_exact_witness :
  fst (KyBookDB._del_book_from_link_tables "H0" conn_other) = Ok tt
  /\ forall t l,
       In l (Kyb.links (snd (KyBookDB._del_book_from_link_tables "H0" conn_other)) t)
       <-> In l (Kyb.links conn_other t) /\ Kyb.l_bid l <> Some 3.
Proof. apply (del_book_from_link_tables_exact "H0" conn_other 3). reflexivity. Defined.

(* --------------------------------------------------------------------- *)
(** ** KyBook 3's database: writing one value *)

(** X9: a value whose name is [None] or empty is skipped, and so is an
    author whose sort name is: [ins_lookup_row] reads the clock, returns
    and writes nothing, whatever [seqnumber] is. *)
Theorem ins_lookup_row_skips (E : Kyb.env) (t : lookup_table)
    (seqnumber : option Sql.number) (md5 : string) (name other : option string)
    (c : Kyb.conn) :
  Py.truthy_opt name = false \/ (t = authors /\ Py.truthy_opt other = false) ->
  KyBookDB.ins_lookup_row E t seqnumber md5 (lookup_value_for t name other) c
  = (Ok tt,
     Kyb.Conn (Kyb.books c) (Kyb.metadata c) (Kyb.reviews c) (Kyb.lookups c)
              (Kyb.links c) (S (Kyb.ticks c))).
Proof.
  intros [Hname | [-> Hother]].
  - destruct t; unfold KyBookDB.ins_lookup_row, Eff.bind, KyBookDB.now_timestamp;
      cbn [lookup_value_for]; rewrite Hname; reflexivity.
  - unfold KyBookDB.ins_lookup_row, Eff.bind, KyBookDB.now_timestamp.
    cbn [lookup_value_for]. rewrite Hother, orb_true_r. reflexivity.
Qed.

Lemma ins_lookup_row_skips_witness :
  KyBookDB.ins_lookup_row env0 sequences None "H1" (lookup_value_for sequences None None)
    conn_h1
  = (Ok tt,
     Kyb.Conn (Kyb.books conn_h1) (Kyb.metadata conn_h1) (Kyb.reviews conn_h1)
              (Kyb.lookups conn_h1) (Kyb.links conn_h1) (S (Kyb.ticks conn_h1))).
Proof.
  apply (ins_lookup_row_skips env0 sequences None "H1" None None conn_h1).
  left. reflexivity.
Defined.

Section FillThenLink.
Import Eff Kyb KyBookDB.
Variable E : env.

(** The rows selected by [INSERT ... SELECT ... FROM books, {0}] end with the
    row made of the last book that carries the hash and the last lookup
    row. *)
Lemma selected_ends_with (h : string) (f g : book_row -> list link_row)
    (last : book_row -> link_row) (l : list book_row) :
  (forall b, f b = g b ++ [last b]) ->
  (exists b, In b l /\ md5 b = h) ->
  exists pre b,
    In b l /\ md5 b = h
    /\ flat_map (fun b => if String.eqb (md5 b) h then f b else []) l = pre ++ [last b].
Proof.
  intros Hf. induction l as [|b l IH]; intros (b0 & Hin & Hb0); [destruct Hin|].
  simpl.
  destruct (existsb (fun b => String.eqb (md5 b) h) l) eqn:Hrest.
  - apply existsb_exists in Hrest as (b1 & Hin1 & Hb1).
    apply String.eqb_eq in Hb1.
    destruct (IH (ex_intro _ b1 (conj Hin1 Hb1))) as (pre & b2 & Hin2 & Hb2 & Heq).
    exists ((if String.eqb (md5 b) h then f b else []) ++ pre), b2.
    repeat split; auto. now rewrite Heq, app_assoc.
  - assert (Hnone : flat_map (fun b => if String.eqb (md5 b) h then f b else []) l = []).
    { clear -Hrest. induction l as [|b l IH]; [reflexivity|].
      simpl in *. apply orb_false_iff in Hrest as [Hb Hl].
      now rewrite Hb, IH. }
    assert (Hb : md5 b = h).
    { destruct Hin as [->|Hin]; [assumption|].
      exfalso. apply not_true_iff_false in Hrest. apply Hrest.
      apply existsb_exists. exists b0. split; [assumption|]. now apply String.eqb_eq. }
    exists (g b), b. repeat split; auto.
    apply String.eqb_eq in Hb. now rewrite Hb, Hnone, app_nil_r, Hf.
Qed.

Lemma fold_replace_link_last t (pre : list link_row) (x : link_row) rows :
  In x (fold_left (replace_link E t) (pre ++ [x]) rows).
Proof.
  rewrite fold_left_app. simpl. unfold replace_link at 1.
  apply in_or_app. right. now left.
Qed.

Lemma eq_text_some (x : option string) (y : string) :
  Sql.eq_text x y = true -> x = Some y.
Proof. destruct x as [a|]; [|discriminate]. simpl. now intros ->%String.eqb_eq. Qed.

(** The two statements run for a value that the log takes: a row of the
    lookup table is then found by its name and linked to the book. *)
Lemma fill_then_link t name midcols ts (seq : option (option Sql.number)) h c :
  Forall plain_value (map Some (name :: midcols)) ->
  (forall key, namecol t (Lookup key midcols None ts) = Some name) ->
  seq <> Some None ->
  (exists b, In b (books c) /\ md5 b = h) ->
  let out := (fill_lookups_sql E t name midcols ts ;;;
              ins_books_links_sql E t seq h name) c in
  fst out = Ok tt
  /\ exists r b,
       In b (books c) /\ md5 b = h
       /\ In r (lookups (snd out) t) /\ namecol t r = Some name
       /\ In (Link (Some (bid b)) (Some (xid r))
                   (match seq with Some n => n | None => None end))
             (links (snd out) t).
Proof.
  intros Hplain Hname Hseq Hbook out.
  assert (Eout : out = (fill_lookups_sql E t name midcols ts ;;;
                        ins_books_links_sql E t seq h name) c) by reflexivity.
  clearbody out. unfold bind, fill_lookups_sql in Eout.
  rewrite (log_sql_plain _ Hplain) in Eout.
  set (key := match List.find _ (lookups c t) with Some r => xid r | None => _ end) in Eout.
  set (new := Lookup key midcols None ts) in Eout.
  set (kept_rows := List.filter _ (lookups c t)) in Eout.
  unfold ins_books_links_sql in Eout.
  assert (Hlog : Database.log_sql [Some name] = Ok tt).
  { apply log_sql_plain. constructor; [|constructor]. now inversion Hplain. }
  rewrite Hlog in Eout.
  cbn [books lookups links set_lookup] in Eout.
  destruct (decide (t = t)) as [_|Hne]; [|congruence].
  set (number := match seq with Some n => n | None => None end) in *.
  set (rows := List.filter (fun r => Sql.eq_text (namecol t r) name)
                           (insert_by_key new kept_rows)) in Eout.
  assert (Hnew : In new rows).
  { apply filter_In. split; [apply In_insert_by_key; now left|].
    unfold new. rewrite Hname. simpl. apply String.eqb_refl. }
  assert (Hrows : rows <> []) by (intros E0; rewrite E0 in Hnew; destruct Hnew).
  set (r := List.last rows new).
  assert (Hr : In r rows).
  { subst r. rewrite (app_removelast_last new Hrows) at 2.
    apply in_or_app. right. now left. }
  assert (Hsel : exists pre b,
             In b (books c) /\ md5 b = h
             /\ flat_map
                  (fun b => if String.eqb (md5 b) h
                            then map (fun r => Link (Some (bid b)) (Some (xid r)) number) rows
                            else [])
                  (books c)
                = pre ++ [Link (Some (bid b)) (Some (xid r)) number]).
  { apply (selected_ends_with h _
             (fun b => map (fun r => Link (Some (bid b)) (Some (xid r)) number)
                           (removelast rows))
             (fun b => Link (Some (bid b)) (Some (xid r)) number)); [|exact Hbook].
    intros b. rewrite (app_removelast_last new Hrows) at 1. now rewrite map_app. }
  destruct Hsel as (pre & b & Hin & Hb & Hsel).
  apply filter_In in Hr as [Hrin Hrname]. apply eq_text_some in Hrname.
  destruct seq as [[n|]|]; [| congruence |];
    subst out; cbn [fst snd lookups links set_link set_lookup];
    (destruct (decide (t = t)) as [_|Hne]; [|congruence]);
    (split; [reflexivity|]); exists r, b; repeat split; auto;
    subst number; cbv beta iota in Hsel; rewrite Hsel; apply fold_replace_link_last.
Qed.

End FillThenLink.

(** X10: when a book carries the hash, a value with a non-empty name (and,
    for an author, a non-empty sort name; for a series, a sequence number),
    these texts holding no backslash, ends up written and linked: the call
    returns normally, the lookup table holds a row whose name column is the
    name, and the link table holds a row that joins a book carrying the hash
    to that row. *)
Theorem ins_lookup_row_links (E : Kyb.env) (t : lookup_table)
    (seqnumber : option Sql.number) (md5 name other : string) (c : Kyb.conn) :
  (exists b, In b (Kyb.books c) /\ Kyb.md5 b = md5) ->
  Py.truthy name = true ->
  backslash_free name ->
  (t = authors -> Py.truthy other = true /\ backslash_free other) ->
  (t = sequences -> seqnumber <> None) ->
  let out := KyBookDB.ins_lookup_row E t seqnumber md5
               (lookup_value_for t (Some name) (Some other)) c in
  fst out = Ok tt
  /\ exists r l b,
       In b (Kyb.books c) /\ Kyb.md5 b = md5
       /\ In r (Kyb.lookups (snd out) t) /\ KyBookDB.namecol t r = Some name
       /\ In l (Kyb.links (snd out) t)
       /\ Kyb.l_bid l = Some (Kyb.bid b) /\ Kyb.l_xid l = Some (Kyb.xid r)
       /\ (t = sequences -> Kyb.seqnumber l = seqnumber).
Proof.
  intros Hbook Hname Hplain Hother Hseq out.
  set (c1 := Kyb.Conn (Kyb.books c) (Kyb.metadata c) (Kyb.reviews c) (Kyb.lookups c)
                      (Kyb.links c) (S (Kyb.ticks c))).
  set (ts := Kyb.now_at E (Kyb.ticks c)).
  assert (Hrun : forall midcols seq,
             Forall plain_value (map Some (name :: midcols)) ->
             (forall key, KyBookDB.namecol t (Kyb.Lookup key midcols None ts) = Some name) ->
             seq <> Some None ->
             (t = sequences -> seq = Some seqnumber) ->
             out = (KyBookDB.fill_lookups_sql E t name midcols ts ;;;
                    KyBookDB.ins_books_links_sql E t seq md5 name) c1 ->
             fst out = Ok tt
             /\ exists r l b,
                  In b (Kyb.books c) /\ Kyb.md5 b = md5
                  /\ In r (Kyb.lookups (snd out) t) /\ KyBookDB.namecol t r = Some name
                  /\ In l (Kyb.links (snd out) t)
                  /\ Kyb.l_bid l = Some (Kyb.bid b) /\ Kyb.l_xid l = Some (Kyb.xid r)
                  /\ (t = sequences -> Kyb.seqnumber l = seqnumber)).
  { intros midcols seq Hvalues Hcol Hsome Hseq' ->.
    destruct (fill_then_link E t name midcols ts seq md5 c1 Hvalues Hcol Hsome Hbook)
      as (Hok & r & b & Hin & Hb & Hrow & Hrname & Hlink).
    split; [exact Hok|].
    exists r,
           (Kyb.Link (Some (Kyb.bid b)) (Some (Kyb.xid r))
              (match seq with Some n => n | None => None end)), b.
    repeat split; auto.
    intros Ht. simpl. now rewrite (Hseq' Ht). }
  destruct (scheme_code_plain (Some other)) as [Hcode Hcodeplain].
  destruct t;
    [ apply (Hrun [other; name] None)
    | apply (Hrun [name] None)
    | apply (Hrun [name] None)
    | apply (Hrun [name] (Some seqnumber))
    | apply (Hrun [KyBookDB.scheme_code (Some other); name] None) ];
    try (intros; reflexivity); try discriminate;
    try (repeat constructor; solve [assumption | apply (Hother eq_refl)]);
    try (subst out;
         unfold KyBookDB.ins_lookup_row, Eff.bind at 1, KyBookDB.now_timestamp;
         cbn [lookup_value_for Py.truthy_opt default]; fold c1; fold ts;
         rewrite ?Hname, ?Hcode, ?(proj1 (Hother eq_refl)); reflexivity).
  intros Hnone. injection Hnone as Hnone. now apply Hseq.
Qed.

Lemma ins_lookup_row_links_witness :
  let out := KyBookDB.ins_lookup_row env0 subjects None "H1"
               (lookup_value_for subjects (Some "sci-fi") (Some EmptyString)) conn_h1 in
  fst out = Ok tt
  /\ exists r l b,
       In b (Kyb.books conn_h1) /\ Kyb.md5 b = "H1"
       /\ In r (Kyb.lookups (snd out) subjects) /\ KyBookDB.namecol subjects r = Some "sci-fi"
       /\ In l (Kyb.links (snd out) subjects)
       /\ Kyb.l_bid l = Some (Kyb.bid b) /\ Kyb.l_xid l = Some (Kyb.xid r)
       /\ (subjects = sequences -> Kyb.seqnumber l = None).
Proof.
  apply (ins_lookup_row_links env0 subjects None "H1" "sci-fi" EmptyString conn_h1).
  - exists (Kyb.Book 7 "H1"). split; [now left|reflexivity].
  - reflexivity.
  - reflexivity.
  - discriminate.
  - discriminate.
Defined.

(** X11: when [seqnumber] is [None] (no [series_index], or a run on
    Calibre's database, which never sets it), writing a series whose name is
    not empty and holds no backslash raises [OperationalError] at the link
    statement.  By then the statement before it has put the series into
    [sequences] as the open connection sees it; the [commit] that follows
    the two statements is not reached.  The link tables are as they were. *)
Theorem ins_lookup_row_series_without_number (E : Kyb.env) (md5 : string)
    (name : string) (c : Kyb.conn) :
  Py.truthy name = true ->
  backslash_free name ->
  let out := KyBookDB.ins_lookup_row E sequences None md5 (Single (Some name)) c in
  fst out = Raise OperationalError
  /\ (exists key timestamp,
        In (Kyb.Lookup key [name] None timestamp) (Kyb.lookups (snd out) sequences))
  /\ forall t, Kyb.links (snd out) t = Kyb.links c t.
Proof.
  intros Hname Hplain out. subst out.
  unfold KyBookDB.ins_lookup_row, Eff.bind, KyBookDB.now_timestamp.
  cbn [Py.truthy_opt]. rewrite Hname. cbn [negb orb default Py.truthy]. unfold id.
  assert (Hvalues : Forall plain_value (map Some [name; name]))
    by (repeat constructor; assumption).
  assert (Hvalue : Forall plain_value [Some name]) by (repeat constructor; assumption).
  unfold KyBookDB.fill_lookups_sql, KyBookDB.ins_books_links_sql.
  rewrite (log_sql_plain _ Hvalues).
  cbn [fst snd Kyb.lookups Kyb.links Kyb.set_lookup].
  rewrite (log_sql_plain _ Hvalue).
  cbn [fst snd Kyb.lookups Kyb.links Kyb.set_lookup].
  repeat split.
  eexists _, _. destruct (decide (sequences = sequences)); [|congruence].
  apply In_insert_by_key. now left.
Qed.

Lemma ins_lookup_row_series_without_number_witness :
  let out := KyBookDB.ins_lookup_row env0 sequences None "H1" (Single (Some "Dune")) conn_h1 in
  fst out = Raise OperationalError
  /\ (exists key timestamp,
        In (Kyb.Lookup key ["Dune"] None timestamp) (Kyb.lookups (snd out) sequences))
  /\ forall t, Kyb.links (snd out) t = Kyb.links conn_h1 t.
Proof.
  apply (ins_lookup_row_series_without_number env0 "H1" "Dune" conn_h1); reflexivity.
Defined.

(* --------------------------------------------------------------------- *)
(** ** KyBook 3's database: [clean_up] row by row *)

Lemma NOT_IN_false (x : Z) (values : list (option Z)) :
  Sql.NOT_IN x values = false
  <-> exists v, In v values /\ (v = None \/ v = Some x).
Proof.
  unfold Sql.NOT_IN. induction values as [|v values IH]; simpl.
  - split; [discriminate|]. now intros (v & [] & _).
  - rewrite andb_false_iff, IH. split.
    + intros [Hv | (w & Hin & Hw)].
      * exists v. split; [now left|].
        destruct v as [y|]; [|now left]. right.
        apply negb_false_iff, Z.eqb_eq in Hv. now subst.
      * exists w. split; [now right|assumption].
    + intros (w & [<- | Hin] & Hw).
      * left. destruct Hw as [-> | ->]; [reflexivity|].
        apply negb_false_iff, Z.eqb_refl.
      * right. exists w. split; assumption.
Qed.

(** X12: when no row of the link table has a NULL key, [clean_up] keeps in
    the lookup table exactly the rows that some link row refers to. *)
Theorem clean_up_keeps_referenced (c : Kyb.conn) (t : lookup_table)
    (r : Kyb.lookup_row) :
  Forall (fun l => Kyb.l_xid l <> None) (Kyb.links c t) ->
  In r (Kyb.lookups (snd (KyBookDB.clean_up c)) t)
  <-> In r (Kyb.lookups c t)
      /\ exists l, In l (Kyb.links c t) /\ Kyb.l_xid l = Some (Kyb.xid r).
Proof.
  intros Hnull.
  destruct (clean_up_run c) as (_ & _ & _ & _ & _ & Hlook).
  rewrite Hlook, filter_In, negb_true_iff, NOT_IN_false.
  split; intros [Hin Href]; (split; [exact Hin|]).
  - destruct Href as (v & Hv & Hcase). apply in_map_iff in Hv as (l & <- & Hl).
    exists l. split; [exact Hl|].
    destruct Hcase as [Hnone|Hsome]; [|exact Hsome].
    rewrite List.Forall_forall in Hnull. now destruct (Hnull l Hl).
  - destruct Href as (l & Hl & Hx). exists (Kyb.l_xid l).
    split; [now apply in_map|now right].
Qed.

Lemma clean_up_keeps_referenced_witness :
  In (Kyb.Lookup 1 ["novel"] None "1.0")
     (Kyb.lookups (snd (KyBookDB.clean_up conn_other)) subjects)
  <-> In (Kyb.Lookup 1 ["novel"] None "1.0") (Kyb.lookups conn_other subjects)
      /\ exists l, In l (Kyb.links conn_other subjects) /\ Kyb.l_xid l = Some 1.
Proof.
  apply (clean_up_keeps_referenced conn_other subjects (Kyb.Lookup 1 ["novel"] None "1.0")).
  repeat constructor. discriminate.
Defined.

(** X13: when a row of the link table has a NULL key, [NOT IN] is true of
    no row and [clean_up] deletes nothing from the lookup table. *)
Theorem clean_up_null_key (c : Kyb.conn) (t : lookup_table) :
  (exists l, In l (Kyb.links c t) /\ Kyb.l_xid l = None) ->
  Kyb.lookups (snd (KyBookDB.clean_up c)) t = Kyb.lookups c t.
Proof.
  intros (l & Hl & Hnull).
  destruct (clean_up_run c) as (_ & _ & _ & _ & _ & ->).
  apply filter_all. intros r. apply negb_true_iff, NOT_IN_false.
  exists None. split; [|now left]. rewrite <- Hnull. now apply in_map.
Qed.

Lemma clean_up_null_key_witness :
  Kyb.lookups (snd (KyBookDB.clean_up conn_null_key)) subjects
  = Kyb.lookups conn_null_key subjects.
Proof.
  apply (clean_up_null_key conn_null_key subjects).
  exists (Kyb.Link (Some 3) None None). split; [now left|reflexivity].
Defined.

(** X14: after [update] for a hash that no book carries, followed by
    [clean_up], no lookup row is left that no link row refers to: what
    [update] wrote into the lookup tables for the unknown book stays only
    where a link row that was already there refers to its key. *)
Theorem update_unmatched_then_clean_up (E : Kyb.env) (s : Kyb.self) (cdb : Kyb.cal_db)
    (row : Kyb.source_row) (md5 : string) (c : Kyb.conn) :
  no_book md5 c ->
  (forall t, Forall (fun l => Kyb.l_xid l <> None) (Kyb.links c t)) ->
  let c1 := snd (KyBookDB.update E s cdb row md5 c) in
  let c2 := snd (KyBookDB.clean_up c1) in
  (forall t, Kyb.links c2 t = Kyb.links c t)
  /\ forall t r,
       In r (Kyb.lookups c2 t) ->
       exists l, In l (Kyb.links c t) /\ Kyb.l_xid l = Some (Kyb.xid r).
Proof.
  intros Hc Hnull c1 c2.
  destruct (spares_update E md5 s cdb row c Hc) as (_ & _ & Hlinks). fold c1 in Hlinks.
  destruct (clean_up_run c1) as (_ & _ & _ & _ & Hl2 & Hlook). fold c2 in Hl2, Hlook.
  split.
  - intros t. now rewrite Hl2, Hlinks.
  - intros t r. rewrite Hlook, filter_In, negb_true_iff, NOT_IN_false, Hlinks.
    intros (_ & v & Hv & Hcase). apply in_map_iff in Hv as (l & <- & Hl).
    exists l. split; [exact Hl|].
    destruct Hcase as [Hnone|Hsome]; [|exact Hsome].
    specialize (Hnull t). rewrite List.Forall_forall in Hnull. now destruct (Hnull l Hl).
Qed.

Lemma update_unmatched_then_clean_up_witness :
  let c1 := snd (KyBookDB.update env0 self0 calibre0 (Kyb.DictRow dune) "H1" conn_other) in
  let c2 := snd (KyBookDB.clean_up c1) in
  (forall t, Kyb.links c2 t = Kyb.links conn_other t)
  /\ forall t r,
       In r (Kyb.lookups c2 t) ->
       exists l, In l (Kyb.links conn_other t) /\ Kyb.l_xid l = Some (Kyb.xid r).
Proof.
  apply (update_unmatched_then_clean_up env0 self0 calibre0 (Kyb.DictRow dune) "H1"
           conn_other).
  - repeat constructor. discriminate.
  - intros t. destruct t; repeat constructor. discriminate.
Defined.

(* --------------------------------------------------------------------- *)
(** ** KyBook 3's database: the records of the plugin *)

Section PluginRecords.
Import Eff Kyb KyBookDB.
Variable E : env.

(** A loop over the records that finds none with the wanted id leaves its
    locals and the database as they were. *)
Lemma for_each_no_record {V} (body : V -> Datum.t -> M V) (cal_bid : Z)
    (data : list Datum.t) (v : V) (c : conn) :
  (forall v d, Datum.id d <> cal_bid -> body v d = ret v) ->
  Forall (fun d => Datum.id d <> cal_bid) data ->
  for_each body data v c = (Ok v, c).
Proof.
  intros Hbody Hdata. induction Hdata as [|d data Hd _ IH]; [reflexivity|].
  simpl. unfold bind. now rewrite (Hbody v d Hd).
Qed.

(** The rating bound by the loop of [_ins_book_to_reviews]: that of the last
    record with the wanted id. *)
Lemma rating_loop (cal_bid : Z) (data : list Datum.t) (bound : option (option Z))
    (c : conn) :
  for_each (fun (rating : option (option Z)) cal_datum =>
              if Datum.id cal_datum =? cal_bid
              then ret (Some (Datum.rating cal_datum))
              else ret rating) data bound c
  = (Ok (fold_left (fun rating d => if Datum.id d =? cal_bid
                                    then Some (Datum.rating d) else rating)
                   data bound), c).
Proof.
  revert bound. induction data as [|d data IH]; intros bound; [reflexivity|].
  simpl. unfold bind. destruct (Datum.id d =? cal_bid); simpl; apply IH.
Qed.

Lemma find_lookup_rows_no_record cdb cal_bid t v c :
  cal_data cdb <> [] ->
  Forall (fun d => Datum.id d <> cal_bid) (cal_data cdb) ->
  find_lookup_rows cdb cal_bid t v c = (Ok v, c).
Proof.
  intros Hdata Hnone. unfold find_lookup_rows.
  destruct (cal_data cdb) as [|d0 data]; [congruence|].
  apply for_each_no_record with (cal_bid := cal_bid); [|exact Hnone].
  intros v' d Hd. apply Z.eqb_neq in Hd. now rewrite Hd.
Qed.

End PluginRecords.

(** X15: when the plugin's records hold none with the wanted id, the locals
    [lookup_rows] and [rating] are never bound: [_ins_book_to_link_tables]
    and [_ins_book_to_reviews] raise [UnboundLocalError] and write
    nothing. *)
Theorem ins_book_unknown_id (E : Kyb.env) (cdb : Kyb.cal_db) (cal_bid : Z)
    (md5 : string) (c : Kyb.conn) :
  Kyb.cal_data cdb <> [] ->
  Forall (fun d => Datum.id d <> cal_bid) (Kyb.cal_data cdb) ->
  KyBookDB._ins_book_to_link_tables E cdb cal_bid md5 c = (Raise UnboundLocalError, c)
  /\ KyBookDB._ins_book_to_reviews E cdb cal_bid md5 c = (Raise UnboundLocalError, c).
Proof.
  intros Hdata Hnone. split.
  - unfold KyBookDB._ins_book_to_link_tables, LOOKUP_TABLES, COLLATION_TABLES.
    cbn [app Eff.for_each]. unfold Eff.bind.
    now rewrite (find_lookup_rows_no_record cdb cal_bid authors (None, None) c Hdata Hnone).
  - unfold KyBookDB._ins_book_to_reviews.
    destruct (Kyb.cal_data cdb) as [|d0 data] eqn:Edata; [congruence|].
    unfold Eff.bind.
    rewrite (for_each_no_record _ cal_bid (d0 :: data) None c); [reflexivity| |exact Hnone].
    intros v d Hd. apply Z.eqb_neq in Hd. now rewrite Hd.
Qed.

Lemma ins_book_unknown_id_witness :
  KyBookDB._ins_book_to_link_tables env0 calibre0 2 "H1" conn_h1
  = (Raise UnboundLocalError, conn_h1)
  /\ KyBookDB._ins_book_to_reviews env0 calibre0 2 "H1" conn_h1
     = (Raise UnboundLocalError, conn_h1).
Proof.
  apply (ins_book_unknown_id env0 calibre0 2 "H1" conn_h1).
  - discriminate.
  - repeat constructor. discriminate.
Defined.

(** X16: a book whose records all have no rating ([None] or 0) gets no
    review: [_ins_book_to_reviews] returns without reading the clock or
    writing a row. *)
Theorem ins_book_to_reviews_unrated (E : Kyb.env) (cdb : Kyb.cal_db) (cal_bid : Z)
    (md5 : string) (c : Kyb.conn) :
  (exists d, In d (Kyb.cal_data cdb) /\ Datum.id d = cal_bid) ->
  Forall (fun d => Datum.id d = cal_bid ->
                   Datum.rating d = None \/ Datum.rating d = Some 0)
         (Kyb.cal_data cdb) ->
  KyBookDB._ins_book_to_reviews E cdb cal_bid md5 c = (Ok tt, c).
Proof.
  intros (d & Hin & Hid) Hall. unfold KyBookDB._ins_book_to_reviews.
  destruct (Kyb.cal_data cdb) as [|d0 data] eqn:Edata; [destruct Hin|].
  unfold Eff.bind. rewrite rating_loop.
  assert (Hbound : forall l bound,
             Forall (fun d => Datum.id d = cal_bid ->
                              Datum.rating d = None \/ Datum.rating d = Some 0) l ->
             (bound = Some None \/ bound = Some (Some 0)
              \/ (bound = None /\ exists d, In d l /\ Datum.id d = cal_bid)) ->
             let r := fold_left (fun rating d => if Datum.id d =? cal_bid
                                                 then Some (Datum.rating d) else rating)
                                l bound in
             r = Some None \/ r = Some (Some 0)).
  { clear. induction l as [|d l IH]; intros bound Hl Hb; simpl.
    - destruct Hb as [Hb|[Hb|(_ & d & [] & _)]]; auto.
    - inversion Hl as [|? ? Hd Hrest]; subst. apply IH; [exact Hrest|].
      destruct (Z.eqb_spec (Datum.id d) cal_bid) as [Heq|Hne].
      + destruct (Hd Heq) as [-> | ->]; auto.
      + destruct Hb as [Hb|[Hb|(Hb & d' & [<-|Hin'] & Hid')]]; auto; [congruence|].
        right; right. split; [exact Hb|]. now exists d'. }
  destruct (Hbound (d0 :: data) None Hall) as [-> | ->]; [|reflexivity|reflexivity].
  right; right. split; [reflexivity|]. now exists d.
Qed.

Lemma ins_book_to_reviews_unrated_witness :
  KyBookDB._ins_book_to_reviews env0 calibre0 1 "H1" conn_h1 = (Ok tt, conn_h1).
Proof.
  apply (ins_book_to_reviews_unrated env0 calibre0 1 "H1" conn_h1).
  - exists dune. split; [now left|reflexivity].
  - repeat constructor.
Defined.

(* --------------------------------------------------------------------- *)
(** ** [update] when no book carries the hash *)

Section UnmatchedReviews.
Import Eff Kyb KyBookDB.
Variable E : env.
Variable h : string.

#[local] Instance same_books_reviews_refl : Reflexive (same_books_reviews h).
Proof. intros c _. now split. Qed.

#[local] Instance same_books_reviews_trans : Transitive (same_books_reviews h).
Proof.
  intros c1 c2 c3 H12 H23 Hc. destruct (H12 Hc) as [Hb Hr].
  assert (Hc2 : no_book h c2) by (unfold no_book; now rewrite Hb).
  destruct (H23 Hc2) as [Hb' Hr']. split; congruence.
Qed.

Abbreviation unreviewed := (keeps (same_books_reviews h)).

Lemma unreviewed_now_timestamp : unreviewed (now_timestamp E).
Proof. intros c _. now split. Qed.

Lemma unreviewed_update_metadata_sql t p l a th ch :
  unreviewed (update_metadata_sql t p l a th ch h).
Proof.
  intros c _. unfold update_metadata_sql. destruct (Database.log_sql _); now split.
Qed.

Lemma unreviewed_del_books_links_sql t : unreviewed (del_books_links_sql t h).
Proof. intros c _. now split. Qed.

Lemma unreviewed_del_reviews_sql : unreviewed (del_reviews_sql h).
Proof.
  intros c Hc. unfold del_reviews_sql. cbn [snd books reviews set_reviews].
  split; [reflexivity|]. rewrite (bid_of_md5_none h c Hc).
  apply filter_all. intros x. now rewrite eq_int_null.
Qed.

Lemma unreviewed_fill_lookups_sql t name midcols ts :
  unreviewed (fill_lookups_sql E t name midcols ts).
Proof. intros c _. unfold fill_lookups_sql. destruct (Database.log_sql _); now split. Qed.

Lemma unreviewed_ins_books_links_sql t seq name :
  unreviewed (ins_books_links_sql E t seq h name).
Proof.
  intros c _. unfold ins_books_links_sql.
  destruct (Database.log_sql _); [|now split]. destruct seq as [[n|]|]; now split.
Qed.

Lemma unreviewed_get_thumb s d : unreviewed (_get_thumb E s d).
Proof. intros c _. unfold _get_thumb. destruct (cover_file E s d); now split. Qed.

#[local] Hint Resolve unreviewed_now_timestamp unreviewed_update_metadata_sql
  unreviewed_del_books_links_sql unreviewed_del_reviews_sql unreviewed_fill_lookups_sql
  unreviewed_ins_books_links_sql unreviewed_get_thumb : keeps.

Lemma unreviewed_seqnumber_of d : unreviewed (seqnumber_of d).
Proof. unfold seqnumber_of. keep. Qed.

Lemma unreviewed_find_lookup_rows cdb cal_bid t v :
  unreviewed (find_lookup_rows cdb cal_bid t v).
Proof. unfold find_lookup_rows. pose proof unreviewed_seqnumber_of. keep. Qed.

Lemma unreviewed_ins_lookup_row t seq lookup_row :
  unreviewed (ins_lookup_row E t seq h lookup_row).
Proof. unfold ins_lookup_row. keep. Qed.

Lemma unreviewed_ins_book_to_link_tables cdb cal_bid :
  unreviewed (_ins_book_to_link_tables E cdb cal_bid h).
Proof.
  unfold _ins_book_to_link_tables.
  pose proof unreviewed_find_lookup_rows. pose proof unreviewed_ins_lookup_row. keep.
Qed.

Lemma unreviewed_del_book_from_link_tables : unreviewed (_del_book_from_link_tables h).
Proof.
  unfold _del_book_from_link_tables. apply keeps_for_each; try apply _.
  intros _ t. apply unreviewed_del_books_links_sql.
Qed.

(** The rating bound by the loop over records none of which is rated. *)
Lemma unrated_bound (cal_bid : Z) (data : list Datum.t) (bound : option (option Z)) :
  Forall (fun d => Datum.id d = cal_bid ->
                   Datum.rating d = None \/ Datum.rating d = Some 0) data ->
  bound = None \/ bound = Some None \/ bound = Some (Some 0) ->
  let r := fold_left (fun rating d => if Datum.id d =? cal_bid
                                      then Some (Datum.rating d) else rating)
                     data bound in
  r = None \/ r = Some None \/ r = Some (Some 0).
Proof.
  revert bound. induction data as [|d data IH]; intros bound Hall Hb; simpl; [exact Hb|].
  inversion Hall as [|? ? Hd Hrest]; subst. apply IH; [exact Hrest|].
  destruct (Z.eqb_spec (Datum.id d) cal_bid) as [Heq|Hne]; [|exact Hb].
  destruct (Hd Heq) as [-> | ->]; auto.
Qed.

(** Without a rating no review is written. *)
Lemma unreviewed_ins_book_to_reviews cdb cal_bid :
  unrated cdb cal_bid -> unreviewed (_ins_book_to_reviews E cdb cal_bid h).
Proof.
  intros Hall c _. unfold _ins_book_to_reviews. unfold unrated in Hall.
  destruct (cal_data cdb) as [|d0 data].
  - destruct (query_rating cdb cal_bid); now split.
  - unfold bind. rewrite rating_loop.
    destruct (unrated_bound cal_bid (d0 :: data) None Hall) as [-> | [-> | ->]];
      auto; now split.
Qed.

Lemma unreviewed_update s cdb row :
  row_unrated cdb row -> unreviewed (update E s cdb row h).
Proof.
  intros Hrow. unfold update, _del_book_from_reviews.
  pose proof unreviewed_ins_book_to_link_tables.
  pose proof unreviewed_del_book_from_link_tables.
  destruct row as [d|id title]; [|keep].
  pose proof (unreviewed_ins_book_to_reviews cdb (Datum.id d) Hrow).
  keep.
Qed.

End UnmatchedReviews.

(** C1, amended: when no row of [books] carries the hash, [update] leaves
    [books], [metadata] and every link table [books_<name>] as they were,
    whether it returns or raises; it leaves [reviews] as it was as well when
    the record carries no rating. *)
Theorem update_unmatched_spares (E : Kyb.env) (s : Kyb.self) (cdb : Kyb.cal_db)
    (row : Kyb.source_row) (md5 : string) (c : Kyb.conn) :
  Forall (fun b => Kyb.md5 b <> md5) (Kyb.books c) ->
  let c' := snd (KyBookDB.update E s cdb row md5 c) in
  Kyb.books c' = Kyb.books c
  /\ Kyb.metadata c' = Kyb.metadata c
  /\ (forall t, Kyb.links c' t = Kyb.links c t)
  /\ (row_unrated cdb row -> Kyb.reviews c' = Kyb.reviews c).
Proof.
  intros Hc c'. destruct (spares_update E md5 s cdb row c Hc) as (Hb & Hm & Hl).
  repeat split; auto.
  intros Hrow. exact (proj2 (unreviewed_update E md5 s cdb row Hrow c Hc)).
Qed.

Lemma update_unmatched_spares_witness :
  let c' := snd (KyBookDB.update env0 self0 calibre0 (Kyb.DictRow dune) "H1" conn_other) in
  Kyb.books c' = Kyb.books conn_other
  /\ Kyb.metadata c' = Kyb.metadata conn_other
  /\ (forall t, Kyb.links c' t = Kyb.links conn_other t)
  /\ Kyb.reviews c' = Kyb.reviews conn_other.
Proof.
  destruct (update_unmatched_spares env0 self0 calibre0 (Kyb.DictRow dune) "H1"
              conn_other)
    as (Hbooks & Hmetadata & Hlinks & Hreviews).
  - repeat constructor. discriminate.
  - split; [exact Hbooks|]. split; [exact Hmetadata|]. split; [exact Hlinks|].
    apply Hreviews. constructor; [intros _; left; reflexivity|constructor].
Defined.

(* --------------------------------------------------------------------- *)
(** ** Content server: retries and downloads *)

Lemma failed_tries_length rq es : length (failed_tries rq es) = (2 * length es)%nat.
Proof. unfold failed_tries. induction es as [|e es IH]; simpl; [reflexivity|]. lia. Qed.

(** X17: when the first [k] tries raise and the next one is answered, with
    [k] below the budget, [_post_multipart] returns that answer after
    exactly [k] failed tries, each followed by its pause, and one more
    request. *)
Theorem post_multipart_answered (url : string) (fields : list (string * string))
    (files : list (string * string * string)) (tries k : nat) (w : World.world)
    (resp : World.response) :
  let rq := World.Request "POST" url (World.Multipart fields files) in
  (k < tries)%nat ->
  (forall i, (i < k)%nat -> exists e, World.net w (World.sent w + i)%nat rq = World.Fails e) ->
  World.net w (World.sent w + k)%nat rq = World.Answers resp ->
  exists es,
    length es = k
    /\ ContentServer._post_multipart url fields files tries w
       = (Ok (Some resp),
          World.World (World.net w) (World.sent w + S k)%nat (World.fs w) (World.now w)
            (World.trace w ++ failed_tries rq es
               ++ [World.Sent rq (World.Answers resp)])).
Proof.
  intros rq Hk Hfail Hans.
  destruct (post_multipart_run url fields files tries w)
    as (es & Hes & [(Hlen & Hrun)|(resp' & Hlen & Hans' & Hrun)]); fold rq in Hes.
  - destruct (lookup_lt_is_Some_2 es k) as [e He]; [lia|].
    specialize (Hes k e He). congruence.
  - fold rq in Hans'.
    assert (Hlenk : length es = k).
    { destruct (Nat.lt_trichotomy (length es) k) as [Hlt|[Heq|Hgt]]; [|exact Heq|].
      - destruct (Hfail (length es) Hlt) as [e He]. congruence.
      - destruct (lookup_lt_is_Some_2 es k) as [e He]; [lia|].
        specialize (Hes k e He). congruence. }
    exists es. split; [exact Hlenk|].
    rewrite Hlenk in Hans', Hrun. rewrite Hrun. fold rq. congruence.
Qed.

(** A server that refuses four requests and answers the fifth. *)
Lemma post_multipart_answered_witness :
  exists es,
    length es = 4%nat
    /\ ContentServer._post_multipart "/upload" [] [] 5 world_fifth_try
       = (Ok (Some (World.Response 200 "OK" EmptyString)),
          World.World (World.net world_fifth_try) 5 ∅ EmptyString
            (failed_tries (World.Request "POST" "/upload" (World.Multipart [] [])) es
               ++ [World.Sent (World.Request "POST" "/upload" (World.Multipart [] []))
                     (World.Answers (World.Response 200 "OK" EmptyString))])).
Proof.
  apply (post_multipart_answered "/upload" [] [] 5 4 world_fifth_try
           (World.Response 200 "OK" EmptyString)).
  - lia.
  - intros i Hi. exists SocketError.
    destruct i as [|[|[|[|i]]]]; try reflexivity. lia.
  - reflexivity.
Defined.

(** X18: [download_file] writes the local file only on status 200, and then
    writes exactly the body; any other answer leaves the disk as it was, and
    so does a transport error, which is raised to the caller. *)
Theorem download_file_disk (w : World.world) (remote_file local_file : string) :
  let out := ContentServer.download_file remote_file local_file w in
  match World.net w (World.sent w)
          (World.Request "GET" ("/download?path=" +:+ remote_file) World.NoPayload) with
  | World.Answers resp =>
      fst out = Ok tt
      /\ World.fs (snd out)
         = (if World.status resp =? 200
            then <[local_file := World.body resp]> (World.fs w)
            else World.fs w)
  | World.Fails e => fst out = Raise e /\ World.fs (snd out) = World.fs w
  end.
Proof.
  intros out. subst out.
  unfold ContentServer.download_file, ContentServer._http_conn,
    Eff.bind, World.log, World.exchange; simpl.
  destruct (World.net w (World.sent w) _) as [resp|e]; simpl; [|now split].
  now destruct (World.status resp =? 200).
Qed.

(** X19: when the download is answered with status 200 and a non-empty
    body, [download_db_file] returns [True]; the local file and its backup,
    named after the local file and the time, both hold the body. *)
Theorem download_db_file_backup (w : World.world) (path local_path : string)
    (resp : World.response) :
  World.net w (World.sent w)
    (World.Request "GET" ("/download?path=" +:+ path) World.NoPayload)
  = World.Answers resp ->
  World.status resp = 200 ->
  Py.truthy (World.body resp) = true ->
  let out := ContentServer.download_db_file path local_path w in
  fst out = Ok true
  /\ World.fs (snd out) !! local_path = Some (World.body resp)
  /\ World.fs (snd out) !! (local_path +:+ World.now w) = Some (World.body resp).
Proof.
  intros Hnet Hstatus Hbody out.
  destruct (download_file_run w path local_path resp Hnet) as (Hok & Hfs & Hnow).
  unfold fs_after_download in Hfs. rewrite Hstatus in Hfs. simpl in Hfs.
  subst out.
  destruct (ContentServer.download_file path local_path w) as [r w1] eqn:Edl.
  simpl in Hok, Hfs, Hnow. subst r.
  unfold ContentServer.download_db_file, Eff.bind. rewrite Edl.
  unfold World.is_nonempty_file, World.strftime_now, World.copyfile, Eff.bind,
    World.read_file, World.write_file, World.log, Eff.ret.
  rewrite Hfs, lookup_insert_eq, Hbody. simpl.
  rewrite Hfs, lookup_insert_eq. simpl. rewrite Hnow, Hfs.
  repeat split.
  - destruct (decide (local_path +:+ World.now w = local_path)) as [->|Hne].
    + now rewrite lookup_insert_eq.
    + rewrite lookup_insert_ne; [apply lookup_insert_eq | exact Hne].
  - now rewrite lookup_insert_eq.
Qed.

Lemma download_db_file_backup_witness :
  let out := ContentServer.download_db_file "/$App/db.sqlite" "/tmp/db.sqlite" world_sqlite in
  fst out = Ok true
  /\ World.fs (snd out) !! "/tmp/db.sqlite" = Some "SQLite format 3"
  /\ World.fs (snd out) !! ("/tmp/db.sqlite" +:+ World.now world_sqlite)
     = Some "SQLite format 3".
Proof.
  apply (download_db_file_backup world_sqlite "/$App/db.sqlite" "/tmp/db.sqlite"
           (World.Response 200 "OK" "SQLite format 3")); reflexivity.
Defined.

(** X20: a download that is answered with another status than 200 does not
    make [download_db_file] fail when a non-empty local file is left from an
    earlier run: that file is backed up and [True] is returned. *)
Theorem download_db_file_stale (w : World.world) (path local_path old : string)
    (resp : World.response) :
  World.net w (World.sent w)
    (World.Request "GET" ("/download?path=" +:+ path) World.NoPayload)
  = World.Answers resp ->
  World.status resp <> 200 ->
  World.fs w !! local_path = Some old ->
  Py.truthy old = true ->
  let out := ContentServer.download_db_file path local_path w in
  fst out = Ok true
  /\ World.fs (snd out) = <[local_path +:+ World.now w := old]> (World.fs w).
Proof.
  intros Hnet Hstatus Hold Htruthy out.
  destruct (download_file_run w path local_path resp Hnet) as (Hok & Hfs & Hnow).
  unfold fs_after_download in Hfs.
  apply Z.eqb_neq in Hstatus. rewrite Hstatus in Hfs.
  subst out.
  destruct (ContentServer.download_file path local_path w) as [r w1] eqn:Edl.
  simpl in Hok, Hfs, Hnow. subst r.
  unfold ContentServer.download_db_file, Eff.bind. rewrite Edl.
  unfold World.is_nonempty_file, World.strftime_now, World.copyfile, Eff.bind,
    World.read_file, World.write_file, World.log, Eff.ret.
  rewrite Hfs, Hold, Htruthy. simpl. rewrite Hfs, Hold. simpl. rewrite Hnow, Hfs.
  now split.
Qed.

Lemma download_db_file_stale_witness :
  let out := ContentServer.download_db_file "/$App/db.sqlite" "/tmp/db.sqlite" world_stale in
  fst out = Ok true
  /\ World.fs (snd out)
     = <["/tmp/db.sqlite" +:+ World.now world_stale := "old snapshot"]> (World.fs world_stale).
Proof.
  apply (download_db_file_stale world_stale "/$App/db.sqlite" "/tmp/db.sqlite"
           "old snapshot" (World.Response 404 "Not Found" EmptyString));
    try reflexivity. discriminate.
Defined.

(* --------------------------------------------------------------------- *)
(** ** Content server: uploads *)

(** X21: when the local file cannot be read, [upload_file] raises [IOError]
    before anything is sent, and before anything is logged at info level: the
    world is left as it was. *)
Theorem upload_file_missing (os : OsPath.flavour) (w : World.world)
    (local_file remote_dir : string) (remote_file : option string)
    (del_existing : bool) :
  World.fs w !! local_file = None ->
  ContentServer.upload_file os local_file remote_dir remote_file del_existing w
  = (Raise IOError, w).
Proof.
  intros Hmissing. unfold ContentServer.upload_file, Eff.bind at 1, World.read_file.
  now rewrite Hmissing.
Qed.

Lemma upload_file_missing_witness :
  ContentServer.upload_file OsPath.posixpath "/library/Dune/Dune.epub" "/Books/" None
    false world_down
  = (Raise IOError, world_down).
Proof.
  apply (upload_file_missing OsPath.posixpath world_down "/library/Dune/Dune.epub"
           "/Books/" None false).
  reflexivity.
Defined.

Section PathFacts.
Import OsPath.

Lemma has_sep_append (os : flavour) (s t : string) :
  has_sep os (s +:+ t) = has_sep os s || has_sep os t.
Proof.
  induction s as [|d s IH]; [reflexivity|].
  rewrite append_cons. cbn [has_sep]. now rewrite IH, orb_assoc.
Qed.

(** A path without separator is all tail. *)
Lemma cut_plain (os : flavour) (s : string) :
  has_sep os s = false -> cut os s = (EmptyString, s).
Proof.
  destruct s as [|c s]; [reflexivity|]. cbn [has_sep cut].
  intros [Hc Hs]%orb_false_iff. now rewrite Hs, Hc.
Qed.

(** The cut is after the last separator. *)
Lemma cut_last (os : flavour) (a s : string) (c : ascii) :
  is_sep os c = true -> has_sep os s = false ->
  cut os (a +:+ String c s) = (a +:+ String c EmptyString, s).
Proof.
  intros Hc Hs. induction a as [|d a IH].
  - change (EmptyString +:+ String c s) with (String c s).
    cbn [cut]. now rewrite Hs, Hc.
  - rewrite !append_cons. cbn [cut].
    rewrite has_sep_append. cbn [has_sep]. rewrite Hc.
    cbn [orb]. rewrite orb_true_r. now rewrite IH.
Qed.

Lemma cut_concat (os : flavour) (p : string) :
  fst (cut os p) +:+ snd (cut os p) = p.
Proof.
  induction p as [|c p IH]; [reflexivity|]. cbn [cut].
  destruct (has_sep os p).
  - destruct (cut os p) as [head tail]. cbn [fst snd] in *. now rewrite append_cons, IH.
  - destruct (is_sep os c); reflexivity.
Qed.

End PathFacts.

Section SplitPath.
Import OsPath Paths.

Lemma length_append (s t : string) :
  String.length (s +:+ t) = (String.length s + String.length t)%nat.
Proof. induction s as [|c s IH]; [reflexivity|]. rewrite append_cons. simpl. now rewrite IH. Qed.

Lemma rstrip_shorter (os : flavour) (s : string) :
  (String.length (rstrip_seps os s) <= String.length s)%nat.
Proof.
  induction s as [|c s IH]; [reflexivity|]. cbn [rstrip_seps].
  destruct (rstrip_seps os s) as [|d r]; [destruct (is_sep os c)|]; simpl in *; lia.
Qed.

(** Stripping that removes nothing. *)
Lemma rstrip_same_length (os : flavour) (s : string) :
  String.length (rstrip_seps os s) = String.length s -> rstrip_seps os s = s.
Proof.
  induction s as [|c s IH]; [reflexivity|]. cbn [rstrip_seps].
  pose proof (rstrip_shorter os s) as Hle.
  destruct (rstrip_seps os s) as [|d r] eqn:Er.
  - destruct (is_sep os c); simpl; intros Heq; [lia|].
    destruct s; [reflexivity|simpl in Heq; lia].
  - simpl. intros Heq. f_equal. apply IH. simpl in *. lia.
Qed.

Lemma from_zero (s : string) : from 0 s = s.
Proof.
  unfold from. rewrite Nat.sub_0_r.
  induction s as [|c s IH]; [reflexivity|]. simpl. now rewrite IH.
Qed.

Lemma from_succ (k : nat) (c : ascii) (s : string) : from (S k) (String c s) = from k s.
Proof. reflexivity. Qed.

Lemma prefix_from (k : nat) (p : string) : Py.prefix k p +:+ from k p = p.
Proof.
  revert k. induction p as [|c p IH]; intros [|k]; try reflexivity.
  - change (Py.prefix 0 (String c p)) with EmptyString.
    change (EmptyString +:+ from 0 (String c p)) with (from 0 (String c p)).
    apply from_zero.
  - rewrite from_succ.
    change (Py.prefix (S k) (String c p)) with (String c (Py.prefix k p)).
    now rewrite append_cons, IH.
Qed.

Lemma splitdrive_concat (p : string) :
  fst (splitdrive p) +:+ snd (splitdrive p) = p.
Proof.
  unfold splitdrive.
  destruct (1 <? String.length p)%nat; [|reflexivity].
  destruct (sep_at p 0 && sep_at p 1 && negb (sep_at p 2)).
  - destruct (find_sep p 2) as [index|]; [|reflexivity].
    destruct (find_sep p (index + 1)) as [index2|]; [|apply prefix_from].
    destruct (index2 =? index + 1)%nat; [reflexivity|apply prefix_from].
  - destruct (String.get 1 p) as [c|]; [|reflexivity].
    destruct (Ascii.eqb_spec c ":") as [->|Hc].
    + apply prefix_from.
    + destruct c as [[] [] [] [] [] [] [] []]; try reflexivity. congruence.
Qed.

(** A turn that does not find its head equal to the path shortens it. *)
Lemma split_head_shorter (os : flavour) (p : string) :
  fst (split os p) <> p -> (String.length (fst (split os p)) < String.length p)%nat.
Proof.
  destruct os; unfold split.
  - pose proof (cut_concat posixpath p) as Hcat.
    destruct (cut posixpath p) as [head tail]. cbn [fst snd] in Hcat.
    assert (Hlen : String.length p = (String.length head + String.length tail)%nat)
      by now rewrite <- Hcat, length_append.
    pose proof (rstrip_shorter posixpath head) as Hle.
    destruct (Py.truthy head && negb (all_seps posixpath head)); cbn [fst]; intros Hne.
    + destruct (Nat.eq_dec (String.length (rstrip_seps posixpath head)) (String.length p))
        as [Heq|]; [|lia].
      exfalso. apply Hne.
      assert (Htail : tail = EmptyString) by (destruct tail; [reflexivity|simpl in Hlen; lia]).
      subst tail. rewrite append_empty_r in Hcat. subst head.
      now apply rstrip_same_length.
    + destruct tail as [|c tail]; [|simpl in Hlen; lia].
      rewrite append_empty_r in Hcat. congruence.
  - pose proof (splitdrive_concat p) as Hdrive.
    destruct (splitdrive p) as [d rest]. cbn [fst snd] in Hdrive.
    pose proof (cut_concat ntpath rest) as Hcat.
    destruct (cut ntpath rest) as [head tail]. cbn [fst snd] in Hcat |- *.
    assert (Hlen : String.length p
                   = (String.length d + (String.length head + String.length tail))%nat)
      by now rewrite <- Hdrive, <- Hcat, !length_append.
    pose proof (rstrip_shorter ntpath head) as Hle.
    intros Hne. rewrite length_append.
    assert (Hhead : (String.length (if Py.truthy (rstrip_seps ntpath head)
                                    then rstrip_seps ntpath head else head)
                     <= String.length head)%nat)
      by (destruct (Py.truthy (rstrip_seps ntpath head)); lia).
    destruct (Nat.eq_dec
                (String.length d
                 + String.length (if Py.truthy (rstrip_seps ntpath head)
                                  then rstrip_seps ntpath head else head))%nat
                (String.length p)) as [Heq|]; [|lia].
    exfalso. apply Hne.
    assert (Htail : tail = EmptyString) by (destruct tail; [reflexivity|simpl in Hlen; lia]).
    subst tail. rewrite append_empty_r in Hcat. subst rest.
    rewrite <- Hdrive. f_equal.
    destruct (Py.truthy (rstrip_seps ntpath head)); [|reflexivity].
    apply rstrip_same_length. simpl in Hlen. lia.
Qed.

Lemma split_loop_ends (os : flavour) (turns : nat) (path : string)
    (allparts : list string) :
  (String.length path < turns)%nat ->
  exists parts, split_loop os turns path allparts = Some parts.
Proof.
  revert path allparts. induction turns as [|turns IH]; intros path allparts Hlen; [lia|].
  cbn [split_loop].
  destruct (String.eqb_spec (fst (split os path)) path) as [|Hne]; [eauto|].
  destruct (String.eqb (snd (split os path)) path); [eauto|].
  apply IH. pose proof (split_head_shorter os path Hne). lia.
Qed.

(** No drive is found in a path that holds no colon and does not begin
    with two separators. *)
Lemma splitdrive_none (p : string) :
  Py.char_in ":" p = false -> sep_at p 0 && sep_at p 1 = false ->
  splitdrive p = (EmptyString, p).
Proof.
  intros Hcolon Hstart. unfold splitdrive. rewrite Hstart. cbn [andb].
  destruct (1 <? String.length p)%nat; [|reflexivity].
  destruct p as [|a [|b p]]; try reflexivity.
  cbn [String.get]. cbn [Py.char_in] in Hcolon.
  apply orb_false_iff in Hcolon as [_ Hcolon].
  apply orb_false_iff in Hcolon as [Hb _].
  apply Ascii.eqb_neq in Hb.
  destruct b as [[] [] [] [] [] [] [] []]; try reflexivity. congruence.
Qed.

End SplitPath.

(** X22: a file uploaded without a remote name goes up under the last
    component of its local path, as if that name had been given: for a
    [posixpath] machine and a path [d + '/' + n], for an [ntpath] machine
    and a path made of a drive letter, a colon, a folder, a slash or
    backslash and [n], where [n] holds no separator. *)
Theorem upload_file_default_name (os : OsPath.flavour) (w : World.world)
    (p n remote_dir : string) (del_existing : bool) :
  names_file os p n ->
  ContentServer.upload_file os p remote_dir None del_existing w
  = ContentServer.upload_file os p remote_dir (Some n) del_existing w.
Proof.
  intros [Hn Hp]. unfold ContentServer.upload_file.
  assert (Hname : OsPath.basename os p = n).
  { destruct os.
    - destruct Hp as (d & ->). unfold OsPath.basename.
      now rewrite (cut_last OsPath.posixpath d n "/" eq_refl Hn).
    - destruct Hp as (letter & d & c & Hletter & Hc & ->).
      unfold OsPath.basename, OsPath.split, OsPath.splitdrive.
      cbn [String.length Nat.ltb Nat.leb]. unfold OsPath.sep_at at 1.
      cbn [String.get]. rewrite Hletter. cbn [andb String.get].
      unfold Py.prefix. cbn [substring]. rewrite !from_succ, from_zero.
      now rewrite (cut_last OsPath.ntpath d n c Hc Hn). }
  cbn [Py.truthy_opt default]. rewrite Hname.
  destruct (Py.truthy n); reflexivity.
Qed.

Lemma upload_file_default_name_witness :
  ContentServer.upload_file OsPath.ntpath "C:\library\Dune\Dune.epub" "/Books/" None
    false world_zero_bytes
  = ContentServer.upload_file OsPath.ntpath "C:\library\Dune\Dune.epub" "/Books/"
      (Some "Dune.epub") false world_zero_bytes.
Proof.
  apply (upload_file_default_name OsPath.ntpath world_zero_bytes
           "C:\library\Dune\Dune.epub" "Dune.epub" "/Books/" false).
  split; [reflexivity|]. exists "C"%char, "\library\Dune", "\"%char.
  repeat split.
Defined.

(** X23: the loop of [_split_path] ends for every path, with [posixpath] and
    with [ntpath]: a result is reached within one turn more than the path
    has characters. *)
Theorem split_path_returns (os : OsPath.flavour) (path : string) :
  exists parts, Paths._split_path os path = Some parts.
Proof. apply split_loop_ends. lia. Qed.

Section RoundTrip.
Import OsPath Paths.

Lemma ends_plain_strip (os : flavour) (a : string) (c : ascii) :
  is_sep os c = true -> ends_plain os a = true ->
  rstrip_seps os (a +:+ String c EmptyString) = a
  /\ all_seps os (a +:+ String c EmptyString) = false.
Proof.
  intros Hc. induction a as [|d a IH]; [discriminate|].
  destruct a as [|e a].
  - cbn [ends_plain]. intros Hd%negb_true_iff.
    change (String d EmptyString +:+ String c EmptyString)
      with (String d (String c EmptyString)).
    cbn [rstrip_seps all_seps]. rewrite Hc, Hd. now split.
  - intros H. change (ends_plain os (String e a) = true) in H.
    destruct (IH H) as [Hs Ha]. rewrite append_cons.
    cbn [rstrip_seps all_seps]. rewrite Hs, Ha. split; [reflexivity|apply andb_false_r].
Qed.

Lemma ends_plain_nonempty (os : flavour) (a : string) :
  ends_plain os a = true -> Py.truthy a = true.
Proof. now destruct a. Qed.

Lemma ends_plain_append (os : flavour) (a s : string) :
  Py.truthy s = true -> ends_plain os (a +:+ s) = ends_plain os s.
Proof.
  intros Hs. induction a as [|c a IH]; [reflexivity|].
  rewrite append_cons. destruct (a +:+ s) eqn:E.
  - destruct a; [change (s = EmptyString) in E; now subst|discriminate].
  - exact IH.
Qed.

Lemma plain_ends_plain (os : flavour) (s : string) :
  Py.truthy s = true -> has_sep os s = false -> ends_plain os s = true.
Proof.
  intros Ht Hs. induction s as [|c s IH]; [discriminate|].
  cbn [has_sep] in Hs. apply orb_false_iff in Hs as [Hc Hs].
  destruct s as [|d s].
  - cbn [ends_plain]. now rewrite Hc.
  - now apply IH.
Qed.

(** One turn of the loop on a path that ends in a separator and [s], where
    no drive is found. *)
Lemma split_last (os : flavour) (a s : string) (c : ascii) :
  is_sep os c = true -> ends_plain os a = true -> has_sep os s = false ->
  (os = ntpath -> splitdrive (a +:+ String c s) = (EmptyString, a +:+ String c s)) ->
  split os (a +:+ String c s) = (a, s).
Proof.
  intros Hc Ha Hs Hdrive.
  destruct (ends_plain_strip os a c Hc Ha) as [Hstrip Hall].
  assert (Ht : Py.truthy (a +:+ String c EmptyString) = true)
    by (destruct a; [discriminate|reflexivity]).
  destruct os; unfold split.
  - rewrite (cut_last posixpath a s c Hc Hs). now rewrite Ht, Hall, Hstrip.
  - rewrite (Hdrive eq_refl), (cut_last ntpath a s c Hc Hs). rewrite Hstrip.
    now rewrite (ends_plain_nonempty ntpath a Ha).
Qed.

(** A path without separator, where no drive is found, is its own tail. *)
Lemma split_plain (os : flavour) (s : string) :
  has_sep os s = false ->
  (os = ntpath -> splitdrive s = (EmptyString, s)) ->
  split os s = (EmptyString, s).
Proof.
  intros Hs Hdrive. destruct os; unfold split.
  - now rewrite (cut_plain posixpath s Hs).
  - now rewrite (Hdrive eq_refl), (cut_plain ntpath s Hs).
Qed.

Lemma eqb_longer_l (a t : string) (c : ascii) : String.eqb a (a +:+ String c t) = false.
Proof.
  apply String.eqb_neq. intros E. apply (f_equal String.length) in E.
  rewrite length_append in E. simpl in E. lia.
Qed.

Lemma eqb_longer_r (a t : string) (c : ascii) : String.eqb t (a +:+ String c t) = false.
Proof.
  apply String.eqb_neq. intros E. apply (f_equal String.length) in E.
  rewrite length_append in E. simpl in E. lia.
Qed.

Lemma string_append_assoc (a b c : string) : (a +:+ b) +:+ c = a +:+ (b +:+ c).
Proof. induction a as [|d a IH]; [reflexivity|]. now rewrite !append_cons, IH. Qed.

Lemma joined_snoc (segs : list string) (s : string) :
  segs <> [] -> joined (segs ++ [s]) = joined segs +:+ String "/" s.
Proof.
  induction segs as [|x segs IH]; [congruence|]. intros _.
  destruct segs as [|y segs]; [reflexivity|].
  change (joined ((x :: y :: segs) ++ [s]))
    with (x +:+ "/" +:+ joined ((y :: segs) ++ [s])).
  rewrite IH by discriminate.
  change (joined (x :: y :: segs)) with (x +:+ "/" +:+ joined (y :: segs)).
  now rewrite !string_append_assoc.
Qed.

Lemma slash_is_sep (os : flavour) : is_sep os "/" = true.
Proof. now destruct os. Qed.

Lemma joined_ends_plain (os : flavour) (segs : list string) :
  segs <> [] -> Forall (segment os) segs -> ends_plain os (joined segs) = true.
Proof.
  destruct segs as [|x segs _] using rev_ind; [congruence|]. intros _ Hall.
  apply Forall_app in Hall as [_ Hx]. apply Forall_inv in Hx.
  destruct Hx as (Ht & Hs & _).
  destruct segs as [|y segs]; [now apply plain_ends_plain|].
  rewrite joined_snoc by discriminate.
  rewrite ends_plain_append by reflexivity.
  destruct x as [|c x]; [discriminate|].
  change (ends_plain os (String "/" (String c x))) with (ends_plain os (String c x)).
  now apply plain_ends_plain.
Qed.

(** What [ntpath] needs to find no drive in a relative path of segments. *)
Lemma joined_no_colon (segs : list string) :
  Forall (segment ntpath) segs -> Py.char_in ":" (joined segs) = false.
Proof.
  induction segs as [|x segs IH]; [reflexivity|]. intros Hall.
  pose proof (Forall_inv Hall) as (_ & _ & Hx). apply Forall_inv_tail in Hall.
  destruct segs as [|y segs]; [now apply Hx|].
  change (joined (x :: y :: segs)) with (x +:+ "/" +:+ joined (y :: segs)).
  rewrite !char_in_append, (Hx eq_refl), (IH Hall). reflexivity.
Qed.

Lemma joined_starts_plain (segs : list string) :
  segs <> [] -> Forall (segment ntpath) segs -> sep_at (joined segs) 0 = false.
Proof.
  destruct segs as [|x segs]; [congruence|]. intros _ Hall.
  pose proof (Forall_inv Hall) as (Ht & Hs & _).
  destruct x as [|c x]; [discriminate|].
  cbn [has_sep] in Hs. apply orb_false_iff in Hs as [Hc _].
  destruct segs as [|y segs].
  - change (joined [String c x]) with (String c x). unfold sep_at. cbn [String.get].
    exact Hc.
  - change (joined (String c x :: y :: segs))
      with (String c (x +:+ "/" +:+ joined (y :: segs))).
    unfold sep_at. cbn [String.get]. exact Hc.
Qed.

Lemma joined_driveless (os : flavour) (segs : list string) :
  segs <> [] -> Forall (segment os) segs ->
  os = ntpath -> splitdrive (joined segs) = (EmptyString, joined segs).
Proof.
  intros Hne Hall ->. apply splitdrive_none.
  - now apply joined_no_colon.
  - now rewrite joined_starts_plain.
Qed.

Lemma rooted_driveless (os : flavour) (segs : list string) :
  segs <> [] -> Forall (segment os) segs ->
  os = ntpath ->
  splitdrive (String "/" (joined segs)) = (EmptyString, String "/" (joined segs)).
Proof.
  intros Hne Hall ->. apply splitdrive_none.
  - cbn [Py.char_in]. now rewrite joined_no_colon.
  - pose proof (joined_starts_plain segs Hne Hall) as Hstart.
    unfold sep_at in *. destruct (joined segs) as [|c j]; [reflexivity|].
    cbn [String.get] in *. rewrite Hstart. apply andb_false_r.
Qed.

Lemma Forall_segment_front (os : flavour) (segs : list string) (s : string) :
  Forall (segment os) (segs ++ [s]) -> Forall (segment os) segs /\ segment os s.
Proof.
  intros Hall. apply Forall_app in Hall as [Hsegs Hs]. split; [exact Hsegs|].
  now apply Forall_inv in Hs.
Qed.

(** The loop on a relative path gives back the segments. *)
Lemma split_loop_joined (os : flavour) (segs : list string) :
  segs <> [] -> Forall (segment os) segs ->
  forall turns allparts,
    (String.length (joined segs) < turns)%nat ->
    split_loop os turns (joined segs) allparts = Some (segs ++ allparts).
Proof.
  induction segs as [|s segs IH] using rev_ind; [congruence|].
  intros _ Hall turns allparts Hlen.
  pose proof (joined_driveless os (segs ++ [s]) ltac:(now destruct segs) Hall) as Hdrive.
  apply Forall_segment_front in Hall as [Hsegs (Ht & Hs & Hcolon)].
  destruct turns as [|turns]; [lia|]. cbn [split_loop].
  destruct segs as [|y segs].
  - change (joined ([] ++ [s])) with s in *.
    rewrite (split_plain os s Hs Hdrive). cbn [fst snd].
    destruct s as [|c s]; [discriminate|].
    change (String.eqb EmptyString (String c s)) with false. cbv iota.
    now rewrite String.eqb_refl.
  - rewrite joined_snoc in * by discriminate.
    rewrite (split_last os _ s "/" (slash_is_sep os)
               (joined_ends_plain os (y :: segs) ltac:(discriminate) Hsegs) Hs Hdrive).
    cbn [fst snd]. rewrite eqb_longer_l, eqb_longer_r.
    rewrite IH; [now rewrite <- app_assoc|discriminate|exact Hsegs|].
    rewrite length_append in Hlen. simpl in Hlen. lia.
Qed.

(** The loop on an absolute path gives back the root and the segments. *)
Lemma split_loop_rooted (os : flavour) (segs : list string) :
  segs <> [] -> Forall (segment os) segs ->
  forall turns allparts,
    (String.length (String "/" (joined segs)) < turns)%nat ->
    split_loop os turns (String "/" (joined segs)) allparts
    = Some ("/" :: segs ++ allparts).
Proof.
  induction segs as [|s segs IH] using rev_ind; [congruence|].
  intros _ Hall turns allparts Hlen.
  pose proof (rooted_driveless os (segs ++ [s]) ltac:(now destruct segs) Hall) as Hdrive.
  apply Forall_segment_front in Hall as [Hsegs (Ht & Hs & Hcolon)].
  destruct turns as [|turns]; [lia|]. cbn [split_loop].
  destruct segs as [|y segs].
  - change (joined ([] ++ [s])) with s in *.
    assert (Hsplit : split os (String "/" s) = ("/", s)).
    { destruct os; unfold split.
      - change (String "/" s) with (EmptyString +:+ String "/" s).
        rewrite (cut_last posixpath EmptyString s "/" eq_refl Hs). reflexivity.
      - rewrite (Hdrive eq_refl).
        change (String "/" s) with (EmptyString +:+ String "/" s).
        rewrite (cut_last ntpath EmptyString s "/" eq_refl Hs). reflexivity. }
    rewrite Hsplit. cbn [fst snd].
    destruct s as [|c s]; [discriminate|].
    assert (E1 : String.eqb "/" (String "/" (String c s)) = false)
      by (apply String.eqb_neq; discriminate).
    assert (E2 : String.eqb (String c s) (String "/" (String c s)) = false).
    { apply String.eqb_neq. intros E. apply (f_equal String.length) in E. simpl in E. lia. }
    rewrite E1, E2.
    destruct turns as [|turns]; [simpl in Hlen; lia|].
    cbn [split_loop]. now destruct os.
  - rewrite joined_snoc in * by discriminate.
    rewrite <- append_cons in *.
    rewrite (split_last os _ s "/" (slash_is_sep os)); [| |exact Hs|exact Hdrive].
    + cbn [fst snd]. rewrite eqb_longer_l, eqb_longer_r.
      rewrite IH; [now rewrite <- app_assoc|discriminate|exact Hsegs|].
      rewrite length_append in Hlen. cbn [String.length] in Hlen |- *. lia.
    + change (String "/" (joined (y :: segs))) with ("/" +:+ joined (y :: segs)).
      rewrite ends_plain_append;
        [now apply joined_ends_plain|].
      apply (ends_plain_nonempty os). now apply joined_ends_plain.
Qed.

End RoundTrip.

(** X24: a relative path made of segments joined by single slashes is split
    by [_split_path] into exactly these segments, in order.  A segment is
    not empty and holds no slash; with [ntpath] it holds no backslash and no
    colon either. *)
Theorem split_path_of_joined (os : OsPath.flavour) (segs : list string) :
  segs <> [] -> Forall (segment os) segs ->
  Paths._split_path os (joined segs) = Some segs.
Proof.
  intros Hne Hall. unfold Paths._split_path.
  rewrite split_loop_joined by (auto; lia). now rewrite app_nil_r.
Qed.

Lemma split_path_of_joined_witness :
  Paths._split_path OsPath.ntpath "$User/covers" = Some ["$User"; "covers"].
Proof.
  apply (split_path_of_joined OsPath.ntpath ["$User"; "covers"]); [discriminate|].
  repeat constructor.
Defined.

(** X25: for an absolute path the first part is the root itself:
    [_split_path('/' + '/'.join(segs))] is ['/'] followed by the segments,
    with [posixpath] and with [ntpath]. *)
Theorem split_path_of_rooted (os : OsPath.flavour) (segs : list string) :
  segs <> [] -> Forall (segment os) segs ->
  Paths._split_path os (String "/" (joined segs)) = Some ("/" :: segs).
Proof.
  intros Hne Hall. unfold Paths._split_path.
  rewrite split_loop_rooted by (auto; lia). now rewrite app_nil_r.
Qed.

Lemma split_path_of_rooted_witness :
  Paths._split_path OsPath.ntpath "/Books/new" = Some ["/"; "Books"; "new"].
Proof.
  apply (split_path_of_rooted OsPath.ntpath ["Books"; "new"]); [discriminate|].
  repeat constructor.
Defined.

Section CreatePath.
Import Eff World Paths.

Lemma create_part_present (path part : string) (w : world) :
  all_present w ->
  exists resp,
    create_part path part w
    = (Ok (path +:+ "/" +:+ part),
       World (net w) (S (sent w)) (fs w) (now w)
             (trace w ++ [Sent (Request "HEAD" ("/list?path=" +:+ path +:+ "/" +:+ part)
                                         NoPayload) (Answers resp)])).
Proof.
  intros Hall.
  destruct (Hall (sent w) (Request "HEAD" ("/list?path=" +:+ path +:+ "/" +:+ part)
                                    NoPayload) eq_refl) as (resp & Hnet & Hst).
  exists resp.
  unfold create_part, ContentServer.dir_exists, ContentServer._http_conn, exchange, bind, ret.
  rewrite Hnet, Hst. reflexivity.
Qed.

Lemma create_part_refused (path part : string) (w : world) :
  all_refused w ->
  exists r1 r2,
    create_part path part w
    = (Ok (path +:+ "/" +:+ part),
       World (net w) (S (S (sent w))) (fs w) (now w)
             (trace w
              ++ [Sent (Request "HEAD" ("/list?path=" +:+ path +:+ "/" +:+ part)
                                NoPayload) (Answers r1);
                  Logged "info" "Creating %s";
                  Sent (Request "POST" "/create"
                                (Form [("path", path +:+ "/" +:+ part)])) (Answers r2);
                  Logged "info" (reason r2)])).
Proof.
  intros Hall.
  destruct (Hall (sent w) (Request "HEAD" ("/list?path=" +:+ path +:+ "/" +:+ part)
                                    NoPayload)) as (r1 & Hnet1 & Hst1).
  destruct (Hall (S (sent w)) (Request "POST" "/create"
                                        (Form [("path", path +:+ "/" +:+ part)])))
    as (r2 & Hnet2 & _).
  exists r1, r2.
  unfold create_part, ContentServer.dir_exists, ContentServer._http_conn, exchange,
    log, emit, bind, ret.
  rewrite Hnet1. cbn [net sent fs now trace fst snd].
  apply Z.eqb_neq in Hst1. rewrite Hst1. cbn [net sent fs now trace fst snd].
  rewrite Hnet2. cbn [net sent fs now trace fst snd].
  now rewrite <- !app_assoc.
Qed.

Lemma create_loop_present (parts : list string) :
  forall path w, all_present w ->
    exists last new,
      for_each create_part parts path w
      = (Ok last, World (net w) (sent w + length parts)%nat (fs w) (now w) (trace w ++ new))
      /\ Forall2 is_probe (folders path parts) new.
Proof.
  induction parts as [|part parts IH]; intros path w Hall.
  - exists path, []. split; [|constructor].
    cbn [for_each ret length]. rewrite Nat.add_0_r, app_nil_r. now destruct w.
  - destruct (create_part_present path part w Hall) as (resp & Hpart).
    cbn [for_each]. unfold bind at 1. rewrite Hpart.
    match goal with |- context [for_each _ _ ?p ?w1] =>
      destruct (IH p w1) as (last & new & Hrun & Hnew); [exact Hall|]; rewrite Hrun
    end.
    cbn [net sent fs now trace length].
    eexists last, (_ :: new). split.
    + rewrite <- app_assoc. cbn [app]. do 2 f_equal. lia.
    + constructor; [now exists resp|exact Hnew].
Qed.

Lemma create_loop_refused (parts : list string) :
  forall path w, all_refused w ->
    exists last new,
      for_each create_part parts path w
      = (Ok last, World (net w) (sent w + 2 * length parts)%nat (fs w) (now w)
                        (trace w ++ new))
      /\ requests new = flat_map probe_and_create (folders path parts).
Proof.
  induction parts as [|part parts IH]; intros path w Hall.
  - exists path, []. split; [|reflexivity].
    cbn [for_each ret length]. rewrite Nat.mul_0_r, Nat.add_0_r, app_nil_r. now destruct w.
  - destruct (create_part_refused path part w Hall) as (r1 & r2 & Hpart).
    cbn [for_each]. unfold bind at 1. rewrite Hpart.
    match goal with |- context [for_each _ _ ?p ?w1] =>
      destruct (IH p w1) as (last & new & Hrun & Hnew); [exact Hall|]; rewrite Hrun
    end.
    cbn [net sent fs now trace length].
    eexists last, (_ :: _ :: _ :: _ :: new). split.
    + rewrite <- app_assoc. cbn [app]. do 2 f_equal. lia.
    + unfold requests in *. cbn [flat_map folders app]. rewrite Hnew. reflexivity.
Qed.

End CreatePath.

(** X26: when the server reports every folder as present, [create_path]
    only asks: it returns normally, sends one [HEAD /list] request for each
    part of the path (for the folder that the parts up to it name), in
    order, sends nothing else, logs nothing and leaves the local files
    alone. *)
Theorem create_path_existing (os : OsPath.flavour) (full_path : string)
    (parts : list string) (w : World.world) :
  Paths._split_path os full_path = Some parts ->
  all_present w ->
  let out := Paths.create_path os full_path w in
  fst out = Ok tt
  /\ World.fs (snd out) = World.fs w
  /\ exists new, World.trace (snd out) = World.trace w ++ new
                 /\ Forall2 is_probe (folders EmptyString parts) new.
Proof.
  intros Hparts Hall out.
  destruct (create_loop_present parts EmptyString w Hall) as (last & new & Hrun & Hnew).
  assert (Eout : out = (Ok tt, snd (Eff.for_each Paths.create_part parts EmptyString w))).
  { subst out. unfold Paths.create_path. rewrite Hparts. unfold Eff.bind. now rewrite Hrun. }
  rewrite Eout, Hrun. cbn [fst snd World.fs World.trace]. eauto.
Qed.

Lemma create_path_existing_witness :
  let out := Paths.create_path OsPath.ntpath "$User/covers" world_zero_bytes in
  fst out = Ok tt
  /\ World.fs (snd out) = World.fs world_zero_bytes
  /\ exists new, World.trace (snd out) = World.trace world_zero_bytes ++ new
                 /\ Forall2 is_probe (folders EmptyString ["$User"; "covers"]) new.
Proof.
  apply (create_path_existing OsPath.ntpath "$User/covers" ["$User"; "covers"] world_zero_bytes).
  - reflexivity.
  - intros n rq _. eexists. split; reflexivity.
Defined.

(** X27: [create_path] never looks at the answer to [/create]: when no
    request is answered with status 200, it still returns normally, having
    sent for each part of the path, in order, the [HEAD /list] request and
    the [POST /create] request for its folder, and nothing else. *)
Theorem create_path_refused (os : OsPath.flavour) (full_path : string)
    (parts : list string) (w : World.world) :
  Paths._split_path os full_path = Some parts ->
  all_refused w ->
  let out := Paths.create_path os full_path w in
  fst out = Ok tt
  /\ World.fs (snd out) = World.fs w
  /\ exists new, World.trace (snd out) = World.trace w ++ new
                 /\ requests new
                    = flat_map probe_and_create (folders EmptyString parts).
Proof.
  intros Hparts Hall out.
  destruct (create_loop_refused parts EmptyString w Hall) as (last & new & Hrun & Hnew).
  assert (Eout : out = (Ok tt, snd (Eff.for_each Paths.create_part parts EmptyString w))).
  { subst out. unfold Paths.create_path. rewrite Hparts. unfold Eff.bind. now rewrite Hrun. }
  rewrite Eout, Hrun. cbn [fst snd World.fs World.trace]. eauto.
Qed.

Lemma create_path_refused_witness :
  let out := Paths.create_path OsPath.ntpath "$User/covers" world_refusing in
  fst out = Ok tt
  /\ World.fs (snd out) = World.fs world_refusing
  /\ exists new, World.trace (snd out) = World.trace world_refusing ++ new
                 /\ requests new
                    = flat_map probe_and_create (folders EmptyString ["$User"; "covers"]).
Proof.
  apply (create_path_refused OsPath.ntpath "$User/covers" ["$User"; "covers"] world_refusing).
  - reflexivity.
  - intros n rq. eexists. split; [reflexivity|discriminate].
Defined.

(* --------------------------------------------------------------------- *)
(** ** Sending covers and book files *)

Section SendFiles.
Import Eff World ContentServer.

(** A multipart request that is answered at the first try. *)
Lemma post_multipart_first url fields files tries resp (w : world) :
  net w (sent w) (Request "POST" url (Multipart fields files)) = Answers resp ->
  _post_multipart url fields files (S tries) w
  = (Ok (Some resp),
     World (net w) (S (sent w)) (fs w) (now w)
           (trace w ++ [Sent (Request "POST" url (Multipart fields files))
                             (Answers resp)])).
Proof.
  intros Hnet. cbn [_post_multipart]. unfold try_except, bind, exchange, ret.
  now rewrite Hnet.
Qed.

Lemma bind_ok {S A B} (m : Eff.M S A) (k : A -> Eff.M S B) (s s' : S) (a : A) :
  m s = (Ok a, s') -> bind m k s = k a s'.
Proof. intros H. unfold bind. now rewrite H. Qed.

Lemma file_exists_run (p : string) (r : response) (w : world) :
  net w (sent w) (Request "HEAD" ("/download?path=" +:+ p) NoPayload) = Answers r ->
  file_exists p w
  = (Ok (status r =? 200),
     World (net w) (S (sent w)) (fs w) (now w)
           (trace w ++ [Sent (Request "HEAD" ("/download?path=" +:+ p) NoPayload)
                             (Answers r)])).
Proof.
  intros H. unfold file_exists, _http_conn, bind, exchange, ret. now rewrite H.
Qed.

Lemma delete_path_run (p : string) (r : response) (w : world) :
  net w (sent w) (Request "POST" "/delete" (Form [("path", p)])) = Answers r ->
  delete_path p w
  = (Ok (status r =? 200),
     World (net w) (S (sent w)) (fs w) (now w)
           (trace w ++ [Sent (Request "POST" "/delete" (Form [("path", p)]))
                             (Answers r)])).
Proof.
  intros H. unfold delete_path, _http_conn, bind, exchange, ret. now rewrite H.
Qed.

End SendFiles.

(** X28: a book that KyBook 3 knows and whose cover file cannot be read
    stops [send_cover_file_to_cs] with [IOError], before anything is asked
    of the server. *)
Theorem send_cover_file_missing (E : Kyb.env) (os : OsPath.flavour) (s : Kyb.self)
    (c : Kyb.conn)
    (file_path : string) (row : Files.file_row) (md5 : string) (bid : Z)
    (local : string) (w : World.world) :
  Kyb.bid_of_md5 c md5 = Some bid ->
  Files.c_file E s file_path row = Ok local ->
  World.fs w !! local = None ->
  Files.send_cover_file_to_cs E os s c file_path row md5 w = (Raise IOError, w).
Proof.
  intros Hbid Hfile Hfs. unfold Files.send_cover_file_to_cs. rewrite Hbid, Hfile.
  unfold ContentServer.upload_file, Eff.bind, World.read_file. now rewrite Hfs.
Qed.

Lemma send_cover_file_missing_witness :
  Files.send_cover_file_to_cs env0 OsPath.posixpath self0 conn_h1 "Dune"
    (Files.PathRow "/library/Dune/Dune.epub") "H1" world_zero_bytes
  = (Raise IOError, world_zero_bytes).
Proof.
  eapply send_cover_file_missing; reflexivity.
Defined.

(** X29: the cover of a known book replaces the one on the server: when the
    cover file can be read and the server reports a file at
    [/$User/covers//$<bid>.jpg] (the folder ends in a slash and one more is
    put before the name), that path is deleted and the file is then uploaded
    to [/$User/covers/] under the name [$<bid>.jpg], whatever the answer to
    the deletion. *)
Theorem send_cover_file_replaces (E : Kyb.env) (os : OsPath.flavour) (s : Kyb.self)
    (c : Kyb.conn)
    (file_path : string) (row : Files.file_row) (md5 : string) (bid : Z)
    (local contents : string) (r1 r2 r3 : World.response) (w : World.world) :
  let probe := World.Request "HEAD" ("/download?path=" +:+ cover_on_server bid)
                             World.NoPayload in
  let deletion := World.Request "POST" "/delete"
                                (World.Form [("path", cover_on_server bid)]) in
  let upload := World.Request "POST" "/upload"
                  (World.Multipart [("path", "/$User/covers/")]
                     [("files[]", "$" +:+ Files.str_of_int bid +:+ ".jpg", contents)]) in
  Kyb.bid_of_md5 c md5 = Some bid ->
  Files.c_file E s file_path row = Ok local ->
  World.fs w !! local = Some contents ->
  World.net w (World.sent w) probe = World.Answers r1 ->
  World.status r1 = 200 ->
  World.net w (S (World.sent w)) deletion = World.Answers r2 ->
  World.net w (S (S (World.sent w))) upload = World.Answers r3 ->
  Files.send_cover_file_to_cs E os s c file_path row md5 w
  = (Ok tt,
     World.World (World.net w) (S (S (S (World.sent w)))) (World.fs w) (World.now w)
       (World.trace w
        ++ [World.Sent probe (World.Answers r1);
            World.Sent deletion (World.Answers r2);
            World.Logged "info" "Uploading %s to %s%s";
            World.Sent upload (World.Answers r3);
            World.Logged "info" (World.reason r3)])).
Proof.
  intros probe deletion upload Hbid Hfile Hfs H1 Hst H2 H3.
  unfold Files.send_cover_file_to_cs. rewrite Hbid, Hfile.
  unfold ContentServer.upload_file. cbv zeta. cbn [Py.truthy_opt default].
  change (Py.truthy ("$" +:+ Files.str_of_int bid +:+ ".jpg")) with true. cbv iota.
  unfold id.
  change ("/$User/covers/" +:+ "/" +:+ "$" +:+ Files.str_of_int bid +:+ ".jpg")
    with (cover_on_server bid).
  erewrite bind_ok by (unfold World.read_file; rewrite Hfs; reflexivity).
  erewrite bind_ok; cycle 1.
  { erewrite bind_ok by (apply file_exists_run; exact H1).
    rewrite Hst. change (200 =? 200) with true. cbv iota.
    erewrite bind_ok by (apply delete_path_run; exact H2). reflexivity. }
  erewrite bind_ok by reflexivity.
  erewrite bind_ok by (apply post_multipart_first; exact H3).
  unfold World.log, World.emit.
  cbn [World.net World.sent World.fs World.now World.trace].
  now rewrite <- !app_assoc.
Qed.

Lemma send_cover_file_replaces_witness :
  Files.send_cover_file_to_cs env0 OsPath.posixpath self0 conn_h1 "Dune"
    (Files.PathRow "/library/Dune/Dune.epub") "H1" world_with_cover
  = (Ok tt,
     World.World (World.net world_with_cover) 3 (World.fs world_with_cover) EmptyString
       [World.Sent (World.Request "HEAD" "/download?path=/$User/covers//$7.jpg"
                                  World.NoPayload)
                   (World.Answers (World.Response 200 "OK" EmptyString));
        World.Sent (World.Request "POST" "/delete"
                                  (World.Form [("path", "/$User/covers//$7.jpg")]))
                   (World.Answers (World.Response 200 "OK" EmptyString));
        World.Logged "info" "Uploading %s to %s%s";
        World.Sent (World.Request "POST" "/upload"
                      (World.Multipart [("path", "/$User/covers/")]
                                       [("files[]", "$7.jpg", "JFIF")]))
                   (World.Answers (World.Response 200 "OK" EmptyString));
        World.Logged "info" "OK"]).
Proof.
  apply (send_cover_file_replaces env0 OsPath.posixpath self0 conn_h1 "Dune"
           (Files.PathRow "/library/Dune/Dune.epub") "H1" 7 "/library/Dune/cover.jpg" "JFIF"
           (World.Response 200 "OK" EmptyString) (World.Response 200 "OK" EmptyString)
           (World.Response 200 "OK" EmptyString) world_with_cover);
    reflexivity.
Defined.

(** X30: a book file of the plugin's record goes up without a look at the
    server: when the file can be read and the upload is answered at the first
    try, [send_book_file_to_cs] sends one request, the upload to [/Books/]
    under [os.path.basename] of the file's path, with [posixpath] and with
    [ntpath]; it neither asks for nor deletes a file of that name. *)
Theorem send_book_file_uploads_only (E : Kyb.env) (os : OsPath.flavour)
    (cal : Kyb.cal_db)
    (lib_path path b_file contents : string) (r : World.response)
    (w : World.world) :
  let upload := World.Request "POST" "/upload"
                  (World.Multipart [("path", "/Books/")]
                     [("files[]", OsPath.basename os b_file, contents)]) in
  Kyb.cal_data cal <> [] ->
  World.fs w !! b_file = Some contents ->
  World.net w (World.sent w) upload = World.Answers r ->
  Files.send_book_file_to_cs E os cal lib_path path (Files.PathRow b_file) w
  = (Ok tt,
     World.World (World.net w) (S (World.sent w)) (World.fs w) (World.now w)
       (World.trace w
        ++ [World.Logged "info" "Uploading %s to %s%s";
            World.Sent upload (World.Answers r);
            World.Logged "info" (World.reason r)])).
Proof.
  intros upload Hcal Hfs Hnet.
  unfold Files.send_book_file_to_cs, Files.path_from_row.
  destruct (Kyb.cal_data cal) as [|d ds]; [congruence|].
  unfold ContentServer.upload_file. cbv zeta. cbn [Py.truthy_opt].
  erewrite bind_ok by (unfold World.read_file; rewrite Hfs; reflexivity).
  erewrite bind_ok by reflexivity.
  erewrite bind_ok by reflexivity.
  erewrite bind_ok by (apply post_multipart_first; exact Hnet).
  unfold World.log, World.emit.
  cbn [World.net World.sent World.fs World.now World.trace].
  now rewrite <- !app_assoc.
Qed.

Lemma send_book_file_uploads_only_witness :
  Files.send_book_file_to_cs env0 OsPath.ntpath calibre0 "C:\library" "Dune"
    (Files.PathRow "C:\library\Dune\Dune.epub") world_with_book
  = (Ok tt,
     World.World (World.net world_with_book) 1 (World.fs world_with_book) EmptyString
       [World.Logged "info" "Uploading %s to %s%s";
        World.Sent (World.Request "POST" "/upload"
                      (World.Multipart [("path", "/Books/")]
                                       [("files[]", "Dune.epub", "PK")]))
                   (World.Answers (World.Response 200 "OK" EmptyString));
        World.Logged "info" "OK"]).
Proof.
  apply (send_book_file_uploads_only env0 OsPath.ntpath calibre0 "C:\library" "Dune"
           "C:\library\Dune\Dune.epub" "PK" (World.Response 200 "OK" EmptyString)
           world_with_book); [discriminate|reflexivity|reflexivity].
Defined.
